(** * Lecture voice-to-notes generator: the wrapper classes, embedded in Rocq

    The development follows the Python sources one class per module:
    [StateManager] (src/utils/state_manager.py), [QuizGenerator]
    (src/processors/quiz_generator.py), [Summarizer]
    (src/processors/summarizer.py), [Transcriber]
    (src/processors/transcriber.py), [TextAnalyzer]
    (src/processors/text_analyzer.py) and [FileHandler]
    (src/utils/file_handler.py), then the results view of the quiz page
    ([QuizPage], src/pages/04_❓_Quiz.py) and two of the helpers ([Helpers],
    src/utils/helpers.py).  Definitions come first, one module per
    source file; the theorems about them follow.

    Conventions.  A Python [str] is a [string] whose characters are the code
    points below 256 (Latin-1); the methods of [str] act on them as Python's
    do.  Text with other characters is outside the model.  Python numbers
    are [VInt] (arbitrary precision) and [VFloat]; a float is the rational it
    stands for, in [Qc], and every float operation rounds its exact result
    to the nearest double ([fl]); infinities and NaN are outside the model.
    A raised exception is the [Raise] outcome of a [res];
    [try ... except Exception] is [try_except], or [try_catch] where the body
    has effects. *)

From Stdlib Require Import ZArith QArith Qcanon Lia Permutation.
From Stdlib Require String Ascii.
From stdpp Require Import base option list gmap strings pretty sorting.

(** ** Python values, exceptions and built-ins *)
Module Py.

(** The exception classes that the modelled code raises or meets. *)
Inductive exn_class :=
  | FileNotFoundError | PermissionError | JSONDecodeError | ValueError
  | RuntimeError | KeyError | TypeError | IndexError | AttributeError
  | ImportError | LookupError | OverflowError | OtherError.

Record exn := mk_exn { exn_kind : exn_class; exn_msg : string }.

(** Outcome of a call: a value, or an exception travelling upwards. *)
Inductive res (A : Type) :=
  | Ok (a : A)
  | Raise (e : exn).
Arguments Ok {A} a.
Arguments Raise {A} e.

Definition rbind {A B} (r : res A) (k : A → res B) : res B :=
  match r with
  | Ok a => k a
  | Raise e => Raise e
  end.

(** [try: body  except Exception as e: handler e]. *)
Definition try_except {A} (body : res A) (handler : exn → A) : A :=
  match body with
  | Ok a => a
  | Raise e => handler e
  end.

(** The values met in the dicts of the program.  A nested JSON object (the
    analysis blob of a lecture) is kept as an opaque [VBlob]; [VOther] is
    any other object (a set, a [datetime], a NumPy number), which
    [json.dump] refuses.  A [VFloat] holds the rational that the double is. *)
#[warnings="-register-all"]
Inductive value :=
  | VNone
  | VBool (b : bool)
  | VInt (z : Z)
  | VFloat (q : Qc)
  | VStr (s : string)
  | VList (l : list value)
  | VBlob (s : string)
  | VOther (repr : string).

(** A Python dict with string keys. *)
Abbreviation dict := (gmap string value).

(** The objects that [json.dump] writes: everything but a [VOther], at any
    depth. *)
Fixpoint serializable (v : value) : bool :=
  match v with
  | VOther _ => false
  | VList l => forallb serializable l
  | _ => true
  end.

(** The type name of the first object inside [v] that [json.dump] refuses. *)
Fixpoint refused (v : value) : option string :=
  match v with
  | VOther type_name => Some type_name
  | VList l =>
      foldr (λ x later, match refused x with Some t => Some t | None => later end) None l
  | _ => None
  end.

(** The number a value stands for; [bool] is a subclass of [int]. *)
Definition num_of (v : value) : option Qc :=
  match v with
  | VBool b => Some (Qc_of_Z (Z.b2z b))
  | VInt z => Some (Qc_of_Z z)
  | VFloat q => Some q
  | _ => None
  end.

Definition int_of (v : value) : option Z :=
  match v with
  | VBool b => Some (Z.b2z b)
  | VInt z => Some z
  | _ => None
  end.

(** The nearest integer to [n / d] for [d > 0], the even one of two that are
    as near. *)
Definition round_half_even (n d : Z) : Z :=
  let q := (n / d)%Z in
  let r := (n mod d)%Z in
  if (2 * r <? d)%Z then q
  else if (d <? 2 * r)%Z then (q + 1)%Z
  else if Z.even q then q else (q + 1)%Z.

(** The double nearest to [a / b] for positive [a] and [b]: with [e] the
    binary exponent of the quotient, the quotient is rounded to a multiple
    of [2 ^ (e - 52)] (of [2 ^ -1074] in the subnormal range), ties to the
    even multiple. *)
Definition fl_pos (a b : Z) : Qc :=
  let e0 := (Z.log2 a - Z.log2 b)%Z in
  let below := if (0 <=? e0)%Z then (a <? b * 2 ^ e0)%Z else (a * 2 ^ (- e0) <? b)%Z in
  let e := if below then (e0 - 1)%Z else e0 in
  let s := Z.max (e - 52) (-1074) in
  if (0 <=? s)%Z
  then Qc_of_Z (round_half_even a (b * 2 ^ s) * 2 ^ s)
  else (Qc_of_Z (round_half_even (a * 2 ^ (- s)) b) / Qc_of_Z (2 ^ (- s)))%Qc.

(** Rounding to a double, as every float operation of Python does with its
    exact result (IEEE 754 binary64, round to nearest, ties to even).
    Results beyond the largest double, which Python turns into [inf] or an
    [OverflowError], are outside the model. *)
Definition fl (q : Qc) : Qc :=
  match Qnum q with
  | Z0 => q
  | Zpos a => fl_pos (Zpos a) (Zpos (Qden q))
  | Zneg a => (- fl_pos (Zpos a) (Zpos (Qden q)))%Qc
  end.

(** [x + y], [x * y] and [x / y] on floats; an int operand is converted
    first. *)
Definition fadd (x y : Qc) : Qc := fl (fl x + fl y).
Definition fsub (x y : Qc) : Qc := fl (fl x - fl y).
Definition fmul (x y : Qc) : Qc := fl (fl x * fl y).
Definition fdiv (x y : Qc) : Qc := fl (fl x / fl y).

(** [a + b]: integer addition on ints and bools, float addition as soon as
    one side is a float, concatenation on two strings or two lists, and
    [TypeError] otherwise. *)
Definition py_add (a b : value) : res value :=
  match int_of a, int_of b with
  | Some x, Some y => Ok (VInt (x + y)%Z)
  | _, _ =>
    match num_of a, num_of b with
    | Some x, Some y => Ok (VFloat (fadd x y))
    | _, _ =>
      match a, b with
      | VStr s, VStr t => Ok (VStr (s +:+ t))
      | VList l, VList k => Ok (VList (l ++ k))
      | _, _ => Raise (mk_exn TypeError "unsupported operand type(s) for +")
      end
    end
  end.

(** [a / b] on ints, for [b] other than 0: the double nearest to the
    quotient. *)
Definition truediv (a b : Z) : Qc := fl (Qc_of_Z a / Qc_of_Z b).

(** [a / b * 100] for counts: a true division, then a float product. *)
Definition percentage (a b : nat) : Qc :=
  fmul (truediv (Z.of_nat a) (Z.of_nat b)) (Qc_of_Z 100).

(** The largest integer that is not above [x]. *)
Definition floor_of (x : Qc) : Z := (Qnum x / Zpos (Qden x))%Z.

(** [int(x)] on a float: the integer part, towards zero. *)
Definition trunc_of (x : Qc) : Z := Z.quot (Qnum x) (Zpos (Qden x)).

(** [divmod(vx, wx)] on floats, for [wx] other than 0, as CPython computes
    it: the exact remainder [fmod(vx, wx)], which has the sign of [vx], is
    moved to the sign of [wx]; the quotient [(vx - mod) / wx] is brought to
    the nearest whole number.  [vx // wx] is the first component and
    [vx % wx] the second. *)
Definition float_divmod (vx wx : Qc) : Qc * Qc :=
  let modulo := (vx - wx * Qc_of_Z (trunc_of (vx / wx)))%Qc in
  let div := fdiv (fsub vx modulo) wx in
  let adjust :=
    negb (bool_decide (modulo = 0%Qc)) &&
    negb (Bool.eqb (bool_decide (wx < 0)%Qc) (bool_decide (modulo < 0)%Qc)) in
  let modulo := if adjust then fadd modulo wx else modulo in
  let div := if adjust then fsub div (Qc_of_Z 1) else div in
  let floordiv :=
    if bool_decide (div = 0%Qc) then 0%Qc
    else
      let floordiv := Qc_of_Z (floor_of div) in
      if bool_decide (Qc_of_Z 1 / Qc_of_Z 2 < fsub div floordiv)%Qc
      then fadd floordiv (Qc_of_Z 1) else floordiv in
  (floordiv, modulo).

(** [round(x, ndigits)] on a float: the decimal with [ndigits] places
    nearest to the exact value of [x] (the even one of two that are as
    near), and of that decimal the nearest double. *)
Definition round_to (ndigits : nat) (x : Qc) : Qc :=
  let scale := (10 ^ Z.of_nat ndigits)%Z in
  fl (Qc_of_Z (round_half_even (Qnum x * scale) (Zpos (Qden x))) / Qc_of_Z scale).

(** [round(v, ndigits)] on a number: an int comes back as it is. *)
Definition py_round (ndigits : nat) (v : value) : value :=
  match v with
  | VFloat q => VFloat (round_to ndigits q)
  | _ => v
  end.

(** [f"{x:.2f}"] for a number that is not negative: the decimal with two
    places nearest to the exact value. *)
Definition format_2f (x : Qc) : string :=
  let n := round_half_even (Qnum x * 100) (Zpos (Qden x)) in
  let cents := (n mod 100)%Z in
  pretty (n / 100)%Z +:+ "." +:+ (if (cents <? 10)%Z then "0" else "") +:+ pretty cents.

(** [d[k]], raising [KeyError] on a missing key; the message is the [repr]
    of the key. *)
Definition getitem (d : dict) (k : string) : res value :=
  match d !! k with
  | Some v => Ok v
  | None => Raise (mk_exn KeyError ("'" +:+ k +:+ "'"))
  end.

(** [type(v).__name__]. *)
Definition type_name (v : value) : string :=
  match v with
  | VNone => "NoneType"
  | VBool _ => "bool"
  | VInt _ => "int"
  | VFloat _ => "float"
  | VStr _ => "str"
  | VList _ => "list"
  | VBlob _ => "dict"
  | VOther type_name => type_name
  end.

(** [a == b]: numbers compare by what they stand for, across int, bool and
    float; strings and [None] with their like; lists item by item; the
    opaque objects by what they hold.  Values of different kinds are
    unequal. *)
Fixpoint py_eq (a b : value) : bool :=
  match num_of a, num_of b with
  | Some x, Some y => bool_decide (x = y)
  | _, _ =>
      match a, b with
      | VNone, VNone => true
      | VStr s, VStr t => String.eqb s t
      | VList l, VList k =>
          (fix items (l k : list value) : bool :=
             match l, k with
             | [], [] => true
             | x :: l', y :: k' => py_eq x y && items l' k'
             | _, _ => false
             end) l k
      | VBlob s, VBlob t => String.eqb s t
      | VOther s, VOther t => String.eqb s t
      | _, _ => false
      end
  end.

(** [v == z] for an integer [z]: numeric comparison across int, bool and
    float, [False] for every other type. *)
Definition py_eq_int (v : value) (z : Z) : bool :=
  match num_of v with
  | Some q => bool_decide (q = Qc_of_Z z)
  | None => false
  end.

(** Code with effects: it runs in a state [S] (a file system, the messages
    shown so far) and ends with a value or an escaping exception. *)
Definition M (S A : Type) : Type := S → res A * S.

Definition ret {S A} (a : A) : M S A := λ s, (Ok a, s).
Definition bind {S A B} (m : M S A) (k : A → M S B) : M S B :=
  λ s, match m s with
       | (Ok a, s') => k a s'
       | (Raise e, s') => (Raise e, s')
       end.
Definition lift {S A} (r : res A) : M S A := λ s, (r, s).

(** [try: body  except Exception as e: handler e], with effects: what the
    body did before it raised stays done. *)
Definition try_catch {S A} (body : M S A) (handler : exn → M S A) : M S A :=
  λ s, match body s with
       | (Ok a, s') => (Ok a, s')
       | (Raise e, s') => handler e s'
       end.

Notation "'let*' x := m 'in' k" := (bind m (λ x, k))
  (at level 10, x name, m at level 100, k at level 200).

End Py.
Import Py.

(** ** Python [str] methods, on 8-bit strings *)
Module Str.

Abbreviation char := Ascii.ascii.

Definition chars (s : string) : list char := String.list_ascii_of_string s.
Definition str (cs : list char) : string := String.string_of_list_ascii cs.

Definition code (c : char) : nat := Ascii.nat_of_ascii c.

(** [chr(n)] for [n < 256]. *)
Definition chr (n : nat) : string := str [Ascii.ascii_of_nat n].

(** The line feed, written [\n] in the source. *)
Definition NL : string := chr 10.

Definition len (s : string) : nat := String.length s.

Definition between (lo hi n : nat) : bool := (lo <=? n) && (n <=? hi).

(** The character classes of Python, on the code points below 256.
    [c.isspace()]: tab to carriage return, the four separators 28-31, the
    blank, NEL and the no-break space. *)
Definition isspace (c : char) : bool :=
  between 9 13 (code c) || between 28 32 (code c) || (code c =? 133) || (code c =? 160).

(** [c.isupper()]: A-Z and the capitals of Latin-1 (192-222 without the
    multiplication sign). *)
Definition isupper (c : char) : bool :=
  between 65 90 (code c) || between 192 214 (code c) || between 216 222 (code c).

(** [c.islower()]: a-z, the ordinal indicators, the micro sign, and the
    small letters of Latin-1 (223-255 without the division sign). *)
Definition islower (c : char) : bool :=
  between 97 122 (code c) || (code c =? 170) || (code c =? 181) || (code c =? 186) ||
  between 223 246 (code c) || between 248 255 (code c).

(** [c.isdecimal()], [c.isdigit()] (with the superscripts 1, 2, 3) and
    [c.isnumeric()] (with the fractions as well). *)
Definition isdecimal (c : char) : bool := between 48 57 (code c).
Definition isdigit (c : char) : bool :=
  isdecimal c || between 178 179 (code c) || (code c =? 185).
Definition isnumeric (c : char) : bool := isdigit c || between 188 190 (code c).

(** [c.isalpha()]: below 256 every letter is cased. *)
Definition isalpha (c : char) : bool := isupper c || islower c.

(** [c.isalnum()]. *)
Definition isalnum_char (c : char) : bool :=
  isalpha c || isdecimal c || isdigit c || isnumeric c.

(** [c.lower()]: the capitals move up by 32; every other character stays. *)
Definition lower_char (c : char) : char :=
  if isupper c then Ascii.ascii_of_nat (code c + 32) else c.

(** [s.lower()]. *)
Definition lower (s : string) : string := str (map lower_char (chars s)).

(** [s.isalnum()]: at least one character, all of them letters or digits. *)
Definition isalnum (s : string) : bool :=
  match chars s with
  | [] => false
  | cs => forallb isalnum_char cs
  end.

Fixpoint drop_while (p : char → bool) (cs : list char) : list char :=
  match cs with
  | [] => []
  | c :: cs' => if p c then drop_while p cs' else cs
  end.

Definition strip_by (p : char → bool) (s : string) : string :=
  str (rev (drop_while p (rev (drop_while p (chars s))))).

(** [s.strip()]. *)
Definition strip (s : string) : string := strip_by isspace s.

(** [s.strip(cs)]: the characters of [cs] are removed at both ends. *)
Definition strip_chars (cs : string) (s : string) : string :=
  strip_by (λ c, bool_decide (c ∈ chars cs)) s.

(** The loop of [s.split()]: [cur] holds the current word, reversed. *)
Fixpoint split_from (cur : list char) (cs : list char) : list string :=
  match cs with
  | [] => match cur with [] => [] | _ => [str (rev cur)] end
  | c :: cs' =>
      if isspace c
      then match cur with
           | [] => split_from [] cs'
           | _ => str (rev cur) :: split_from [] cs'
           end
      else split_from (c :: cur) cs'
  end.

(** [s.split()]: the maximal runs of non-blank characters. *)
Definition split (s : string) : list string := split_from [] (chars s).

(** [sep.join(l)]. *)
Definition join (sep : string) (l : list string) : string := String.concat sep l.

Fixpoint starts_with (p cs : list char) : bool :=
  match p, cs with
  | [], _ => true
  | a :: p', b :: cs' => bool_decide (a = b) && starts_with p' cs'
  | _ :: _, [] => false
  end.

(** The scan of [s.replace(old, new)] for a non-empty [old]: [skip] counts the
    characters of a match still to be passed over. *)
Fixpoint replace_scan (old new : list char) (skip : nat) (cs : list char) : list char :=
  match cs with
  | [] => []
  | c :: cs' =>
      match skip with
      | S k => replace_scan old new k cs'
      | O =>
          if starts_with old cs
          then new ++ replace_scan old new (length old - 1) cs'
          else c :: replace_scan old new 0 cs'
      end
  end.

(** The scan of [s.split(sep)] for a non-empty [sep]: [cur] holds the
    current piece, reversed, and [skip] counts the characters of a separator
    still to be passed over. *)
Fixpoint split_on_scan (sep : list char) (skip : nat) (cur : list char) (cs : list char)
  : list string :=
  match cs with
  | [] => [str (rev cur)]
  | c :: cs' =>
      match skip with
      | S k => split_on_scan sep k cur cs'
      | O =>
          if starts_with sep cs
          then str (rev cur) :: split_on_scan sep (length sep - 1) [] cs'
          else split_on_scan sep 0 (c :: cur) cs'
      end
  end.

(** [s.split(sep)] for a non-empty [sep]. *)
Definition split_on (sep : string) (s : string) : list string :=
  split_on_scan (chars sep) 0 [] (chars s).

(** [s.replace(old, new)]: every occurrence, from left to right, without
    overlap; an empty [old] matches before each character and at the end. *)
Definition replace (old new : string) (s : string) : string :=
  match chars old with
  | [] => str (chars new ++ concat (map (λ c, c :: chars new) (chars s)))
  | o => str (replace_scan o (chars new) 0 (chars s))
  end.

Fixpoint replace_first_scan (old new : list char) (cs : list char) : list char :=
  if starts_with old cs then new ++ drop (length old) cs
  else match cs with
       | [] => []
       | c :: cs' => c :: replace_first_scan old new cs'
       end.

(** [s.replace(old, new, 1)]: the first occurrence only. *)
Definition replace_first (old new : string) (s : string) : string :=
  str (replace_first_scan (chars old) (chars new) (chars s)).

(** [s[:n]] for [n >= 0]. *)
Definition prefix (n : nat) (s : string) : string := str (take n (chars s)).

(** [s[:-n]] for [n > 0]: all but the last [n] characters. *)
Definition drop_last (n : nat) (s : string) : string :=
  str (take (length (chars s) - n) (chars s)).

(** The loop of [s.istitle()]: [prev] tells whether the previous character
    was cased, [cased] whether any was. *)
Fixpoint istitle_from (prev cased : bool) (cs : list char) : bool :=
  match cs with
  | [] => cased
  | c :: cs' =>
      if isupper c then (if prev then false else istitle_from true true cs')
      else if islower c then (if prev then istitle_from true true cs' else false)
      else istitle_from false cased cs'
  end.

Definition istitle (s : string) : bool := istitle_from false false (chars s).

(** The digits of [int(s)]: decimal digits, with single underscores between
    them; [seen] tells whether the previous character was a digit. *)
Fixpoint digits_value (acc : Z) (seen : bool) (cs : list char) : option Z :=
  match cs with
  | [] => if seen then Some acc else None
  | c :: cs' =>
      if isdecimal c then digits_value (10 * acc + Z.of_nat (code c - 48)) true cs'
      else if (code c =? 95) && seen then digits_value acc false cs'
      else None
  end.

(** [int(s)] in base 10: blanks around the number are skipped and a sign is
    allowed; [None] stands for the [ValueError]. *)
Definition to_int (s : string) : option Z :=
  match chars (strip s) with
  | [] => None
  | c :: cs =>
      if code c =? 45 then Z.opp <$> digits_value 0 false cs
      else if code c =? 43 then digits_value 0 false cs
      else digits_value 0 false (c :: cs)
  end.

(** [str(z)]. *)
Definition of_int (z : Z) : string := pretty z.
Definition of_nat (n : nat) : string := pretty n.

End Str.

(** ** src/utils/state_manager.py *)
Module StateManager.

(** The JSON document of [data/database.json].  [quiz_results] is absent
    from the document that [ensure_database] writes and appears with the
    first [add_quiz_result] or with [clear_all]. *)
Record database := mk_database {
  lectures : list dict;
  settings : dict;
  analytics : dict;
  quiz_results : option (list dict)
}.

(** What sits at [db_path]: nothing, bytes that [json.load] rejects (an
    empty or half-written file among them), or a document. *)
Inductive file :=
  | NoFile
  | Garbage
  | Doc (d : database).

(** The part of the world the class touches: the file, whether
    [open(db_path, 'w')] succeeds, how many times the file has been opened
    for writing, and the messages passed to [st.error]. *)
Record world := mk_world {
  db_file : file;
  writable : bool;
  writes : nat;
  shown : list string
}.

(** Operations run in the world and may let an exception escape. *)
Abbreviation M := (Py.M world).

Definition st_error (msg : string) : M unit :=
  λ w, (Ok tt, mk_world (db_file w) (writable w) (writes w) (shown w ++ [msg])).

Definition initial_settings : dict :=
  <["whisper_model" := VStr "base"]>
  (<["summary_length" := VStr "medium"]>
  (<["quiz_difficulty" := VStr "medium"]>
  (<["language" := VStr "en"]> ∅))).

Definition initial_analytics : dict :=
  <["total_lectures" := VInt 0]>
  (<["total_duration" := VInt 0]>
  (<["total_quizzes" := VInt 0]> ∅)).

(** The document written by [ensure_database]. *)
Definition initial_data : database :=
  mk_database [] initial_settings initial_analytics None.

(** The document written by [clear_all]: the same, with an empty
    [quiz_results] list. *)
Definition cleared_data : database :=
  mk_database [] initial_settings initial_analytics (Some []).

Definition db_path : string := "data/database.json".

(** [open(db_path, 'r', encoding='utf-8')]: the content of the file. *)
Definition open_read : M file :=
  λ w, match db_file w with
       | NoFile =>
           (Raise (mk_exn FileNotFoundError
                     ("[Errno 2] No such file or directory: '" +:+ db_path +:+ "'")), w)
       | f => (Ok f, w)
       end.

(** [json.load(f)]; the text of the error is the one for an empty file,
    other bytes give other texts. *)
Definition json_load (f : file) : res database :=
  match f with
  | Doc d => Ok d
  | _ => Raise (mk_exn JSONDecodeError "Expecting value: line 1 column 1 (char 0)")
  end.

(** The body of the [try] block of [load_database]. *)
Definition load_database_body : M (option database) :=
  let* f := open_read in
  let* d := lift (json_load f) in
  ret (Some d).

Definition load_database : M (option database) :=
  try_catch load_database_body
    (λ e, let* _ := st_error ("Error loading database: " +:+ exn_msg e) in
          ret None).

(** [open(db_path, 'w', encoding='utf-8')]: the file is created or cut to
    nothing at once, before anything is written. *)
Definition open_write : M unit :=
  λ w, if writable w
       then (Ok tt, mk_world Garbage (writable w) (S (writes w)) (shown w))
       else (Raise (mk_exn PermissionError
                      ("[Errno 13] Permission denied: '" +:+ db_path +:+ "'")), w).

(** Every value of the dict can be written by [json.dump]. *)
Definition json_dict (d : dict) : Prop := map_Forall (λ _ v, serializable v = true) d.

(** [json.dump] goes through on the document. *)
Definition dumps (data : database) : bool :=
  bool_decide (Forall json_dict (lectures data) ∧ json_dict (settings data) ∧
               json_dict (analytics data) ∧
               Forall json_dict (default [] (quiz_results data))).

(** The objects held by the dicts of a document. *)
Definition objects (data : database) : list value :=
  let of_dict (d : dict) := (map_to_list d).*2 in
  (lectures data ≫= of_dict) ++ of_dict (settings data) ++ of_dict (analytics data) ++
  (default [] (quiz_results data) ≫= of_dict).

(** [json.dump(data, f, indent=4, ensure_ascii=False)] on the open file.  The
    encoder writes piece by piece and raises [TypeError] at the first object
    it cannot encode: what was written before stays in the file, which
    [json.load] will then reject.  (Which of several such objects the message
    names depends on the order of the keys, which the maps do not keep.) *)
Definition json_dump (data : database) : M unit :=
  λ w, if dumps data
       then (Ok tt, mk_world (Doc data) (writable w) (writes w) (shown w))
       else (Raise (mk_exn TypeError
                      ("Object of type " +:+ default "object" (refused (VList (objects data)))
                       +:+ " is not JSON serializable")), w).

(** The body of the [try] block of [save_database]. *)
Definition save_database_body (data : database) : M bool :=
  let* _ := open_write in
  let* _ := json_dump data in
  ret true.

Definition save_database (data : database) : M bool :=
  try_catch (save_database_body data)
    (λ e, let* _ := st_error ("Error saving database: " +:+ exn_msg e) in
          ret false).

Definition ensure_database : M unit :=
  λ w, match db_file w with
       | NoFile => (let* _ := save_database initial_data in ret tt) w
       | _ => (Ok tt, w)
       end.

(** [add_lecture(lecture_data)]; [now] is what [datetime.now().isoformat()]
    returns during the call.  Returns the new id, or [None]. *)
Definition add_lecture (now : string) (lecture_data : dict) : M (option Z) :=
  let* odb := load_database in
  match odb with
  | None => ret None
  | Some db =>
    let id := (Z.of_nat (length (lectures db)) + 1)%Z in
    let lecture_data := <["id" := VInt id]> lecture_data in
    let lecture_data := <["created_at" := VStr now]> lecture_data in
    let lects := lectures db ++ [lecture_data] in
    let* n := lift (getitem (analytics db) "total_lectures") in
    let* n' := lift (py_add n (VInt 1)) in
    let an := <["total_lectures" := n']> (analytics db) in
    let* an := match lecture_data !! "duration" with
               | Some d =>
                   let* t := lift (getitem an "total_duration") in
                   let* t' := lift (py_add t d) in
                   ret (<["total_duration" := t']> an)
               | None => ret an
               end in
    let* ok := save_database (mk_database lects (settings db) an (quiz_results db)) in
    if ok : bool then ret (Some id) else ret None
  end.

(** The [for] loop of [get_lecture]: first lecture whose id equals
    [lecture_id]; a lecture without ['id'] raises [KeyError]. *)
Fixpoint find_lecture (ls : list dict) (lecture_id : Z) : res (option dict) :=
  match ls with
  | [] => Ok None
  | l :: rest =>
      rbind (getitem l "id") (λ v,
        if py_eq_int v lecture_id then Ok (Some l)
        else find_lecture rest lecture_id)
  end.

Definition get_lecture (lecture_id : Z) : M (option dict) :=
  let* odb := load_database in
  match odb with
  | None => ret None
  | Some db => lift (find_lecture (lectures db) lecture_id)
  end.

Definition get_all_lectures : M (list dict) :=
  let* odb := load_database in
  match odb with
  | None => ret []
  | Some db => ret (lectures db)
  end.

(** [d.update(updates)]: keys of [updates] win. *)
Definition dict_update (d updates : dict) : dict := updates ∪ d.

(** The [for i, lecture in enumerate(...)] loop of [update_lecture]: the
    list with the first matching lecture updated, or [None] when the loop
    runs to its end. *)
Fixpoint update_first (ls : list dict) (lecture_id : Z) (updates : dict)
  : res (option (list dict)) :=
  match ls with
  | [] => Ok None
  | l :: rest =>
      rbind (getitem l "id") (λ v,
        if py_eq_int v lecture_id then Ok (Some (dict_update l updates :: rest))
        else rbind (update_first rest lecture_id updates) (λ r,
               Ok (option_map (cons l) r)))
  end.

Definition update_lecture (lecture_id : Z) (updates : dict) : M bool :=
  let* odb := load_database in
  match odb with
  | None => ret false
  | Some db =>
    let* r := lift (update_first (lectures db) lecture_id updates) in
    match r with
    | Some lects =>
        save_database (mk_database lects (settings db) (analytics db) (quiz_results db))
    | None => ret false
    end
  end.

(** [[l for l in lectures if l['id'] != lecture_id]]. *)
Fixpoint remove_lecture (ls : list dict) (lecture_id : Z) : res (list dict) :=
  match ls with
  | [] => Ok []
  | l :: rest =>
      rbind (getitem l "id") (λ v,
        rbind (remove_lecture rest lecture_id) (λ rest',
          Ok (if py_eq_int v lecture_id then rest' else l :: rest')))
  end.

Definition delete_lecture (lecture_id : Z) : M bool :=
  let* odb := load_database in
  match odb with
  | None => ret false
  | Some db =>
    let* lects := lift (remove_lecture (lectures db) lecture_id) in
    save_database (mk_database lects (settings db) (analytics db) (quiz_results db))
  end.

Definition get_settings : M dict :=
  let* odb := load_database in
  match odb with
  | None => ret ∅
  | Some db => ret (settings db)
  end.

Definition update_settings (new_settings : dict) : M bool :=
  let* odb := load_database in
  match odb with
  | None => ret false
  | Some db =>
    save_database (mk_database (lectures db) (dict_update (settings db) new_settings)
                               (analytics db) (quiz_results db))
  end.

Definition get_analytics : M dict :=
  let* odb := load_database in
  match odb with
  | None => ret ∅
  | Some db => ret (analytics db)
  end.

Definition update_analytics (key : string) (v : value) : M bool :=
  let* odb := load_database in
  match odb with
  | None => ret false
  | Some db =>
    save_database (mk_database (lectures db) (settings db)
                               (<[key := v]> (analytics db)) (quiz_results db))
  end.

(** [db['analytics'].get('total_quizzes', 0) + 1], stored back. *)
Definition bump_quizzes (an : dict) : res dict :=
  rbind (py_add (default (VInt 0) (an !! "total_quizzes")) (VInt 1)) (λ n,
    Ok (<["total_quizzes" := n]> an)).

Definition increment_quiz_count : M bool :=
  let* odb := load_database in
  match odb with
  | None => ret false
  | Some db =>
    let* an := lift (bump_quizzes (analytics db)) in
    save_database (mk_database (lectures db) (settings db) an (quiz_results db))
  end.

Definition add_quiz_result (now : string) (quiz_result : dict) : M bool :=
  let* odb := load_database in
  match odb with
  | None => ret false
  | Some db =>
    let results := default [] (quiz_results db) in
    let quiz_result := <["taken_at" := VStr now]> quiz_result in
    let results := results ++ [quiz_result] in
    let* an := lift (bump_quizzes (analytics db)) in
    save_database (mk_database (lectures db) (settings db) an (Some results))
  end.

Definition clear_all : M bool := save_database cleared_data.

(** The world right after [StateManager()] ran on an empty data directory. *)
Definition fresh_world : world := mk_world (Doc initial_data) true 1 [].

(** The mutating calls of the lecture life cycle. *)
Inductive op :=
  | Add (now : string) (lecture_data : dict)
  | Update (lecture_id : Z) (updates : dict)
  | Delete (lecture_id : Z).

Definition step (w : world) (o : op) : world :=
  match o with
  | Add now d => snd (add_lecture now d w)
  | Update i u => snd (update_lecture i u w)
  | Delete i => snd (delete_lecture i w)
  end.

Definition run (ops : list op) (w : world) : world := foldl step w ops.

Definition reachable (w : world) : Prop := ∃ ops, run ops fresh_world = w.

(** The ids of the stored lectures, in list order. *)
Definition lecture_ids (db : database) : list (option value) :=
  map (λ l : dict, l !! "id") (lectures db).

(** An upload. *)
Definition is_add (o : op) : bool :=
  match o with
  | Add _ _ => true
  | _ => false
  end.

(** The ids 1, 2, ..., n. *)
Definition first_ids (n : nat) : list (option value) :=
  map (λ i, Some (VInt (Z.of_nat i))) (seq 1 n).

(** The six mutating operations, as one datatype of calls. *)
Inductive mutation :=
  | MAddLecture (now : string) (lecture_data : dict)
  | MUpdateLecture (lecture_id : Z) (updates : dict)
  | MDeleteLecture (lecture_id : Z)
  | MUpdateSettings (new_settings : dict)
  | MAddQuizResult (now : string) (quiz_result : dict)
  | MClearAll.

(** What a mutating call hands back: an id or [None] for [add_lecture], a
    flag for the others. *)
Inductive outcome :=
  | OId (r : res (option Z))
  | OFlag (r : res bool).

Definition perform (m : mutation) (w : world) : outcome * world :=
  match m with
  | MAddLecture now d => let '(r, w') := add_lecture now d w in (OId r, w')
  | MUpdateLecture i u => let '(r, w') := update_lecture i u w in (OFlag r, w')
  | MDeleteLecture i => let '(r, w') := delete_lecture i w in (OFlag r, w')
  | MUpdateSettings s => let '(r, w') := update_settings s w in (OFlag r, w')
  | MAddQuizResult now q => let '(r, w') := add_quiz_result now q w in (OFlag r, w')
  | MClearAll => let '(r, w') := clear_all w in (OFlag r, w')
  end.

(** The failure values: [None] from [add_lecture], [False] from the rest. *)
Definition is_failure (o : outcome) : bool :=
  match o with
  | OId (Ok None) | OFlag (Ok false) => true
  | _ => false
  end.

Definition is_success (o : outcome) : bool :=
  match o with
  | OId (Ok (Some _)) | OFlag (Ok true) => true
  | _ => false
  end.

(** [json.load] on the file succeeds. *)
Definition loadable (w : world) : bool :=
  match db_file w with
  | Doc _ => true
  | _ => false
  end.

(** The calls that touch the analytics counters, or are said not to. *)
Inductive counted :=
  | CAddLecture (now : string) (lecture_data : dict)
  | CAddQuizResult (now : string) (quiz_result : dict)
  | CIncrementQuizCount
  | CDeleteLecture (lecture_id : Z).

Definition count (c : counted) (w : world) : outcome * world :=
  match c with
  | CAddLecture now d => perform (MAddLecture now d) w
  | CAddQuizResult now q => perform (MAddQuizResult now q) w
  | CIncrementQuizCount => let '(r, w') := increment_quiz_count w in (OFlag r, w')
  | CDeleteLecture i => perform (MDeleteLecture i) w
  end.

(** The counter [key] went from its value [v] (from 0 where it was missing)
    to [v + x], the sum as Python computes it: the integer sum on ints, the
    double nearest to the sum as soon as a float is involved. *)
Definition increased_by (key : string) (x : value) (an an' : dict) : Prop :=
  ∃ v', py_add (default (VInt 0) (an !! key)) x = Ok v' ∧ an' !! key = Some v'.

(** What the data model promises for the rolling counters, call by call. *)
Definition rolls_forward (c : counted) (an an' : dict) : Prop :=
  match c with
  | CAddLecture _ d =>
      is_Some (an !! "total_lectures") ∧
      increased_by "total_lectures" (VInt 1) an an' ∧
      an' !! "total_quizzes" = an !! "total_quizzes" ∧
      match d !! "duration" with
      | Some v =>
          is_Some (an !! "total_duration") ∧ increased_by "total_duration" v an an'
      | None => an' !! "total_duration" = an !! "total_duration"
      end
  | CAddQuizResult _ _ | CIncrementQuizCount =>
      increased_by "total_quizzes" (VInt 1) an an' ∧
      an' !! "total_lectures" = an !! "total_lectures" ∧
      an' !! "total_duration" = an !! "total_duration"
  | CDeleteLecture _ => an' = an
  end.

(** The file and the write counter are as before. *)
Definition untouched (w w' : world) : Prop :=
  db_file w' = db_file w ∧ writes w' = writes w.

(** The file was opened for writing once and holds the whole document
    [d]. *)
Definition wrote (d : database) (w w' : world) : Prop :=
  db_file w' = Doc d ∧ writes w' = S (writes w).

(** The file was opened for writing once and left cut short. *)
Definition spoiled (w w' : world) : Prop :=
  db_file w' = Garbage ∧ writes w' = S (writes w).

(** Two uploads, the first lecture deleted, a third upload. *)
Definition upload_delete_upload : list op :=
  [Add "2024-01-01T10:00:00" ∅; Add "2024-01-02T10:00:00" ∅; Delete 1;
   Add "2024-01-03T10:00:00" ∅].

(** The world after [save_database(data)] went through. *)
Definition written (data : database) (w : world) : world :=
  mk_world (Doc data) (writable w) (S (writes w)) (shown w).

(** The lecture as [add_lecture] stores it. *)
Definition stamped (now : string) (id : Z) (lecture_data : dict) : dict :=
  <["created_at" := VStr now]> (<["id" := VInt id]> lecture_data).

(** The change that each mutating call makes to the loaded document, in
    memory, before anything is written: the changed document, [None] where
    the call gives up ([update_lecture] on an unknown id), or the exception
    that a missing key or a failing sum raises. *)
Definition modify (m : mutation) (db : database) : res (option database) :=
  match m with
  | MAddLecture now lecture_data =>
      let id := (Z.of_nat (length (lectures db)) + 1)%Z in
      let lecture_data := stamped now id lecture_data in
      rbind (getitem (analytics db) "total_lectures") (λ n,
      rbind (py_add n (VInt 1)) (λ n',
        let an := <["total_lectures" := n']> (analytics db) in
        rbind (match lecture_data !! "duration" with
               | Some d =>
                   rbind (getitem an "total_duration") (λ t,
                   rbind (py_add t d) (λ t', Ok (<["total_duration" := t']> an)))
               | None => Ok an
               end) (λ an,
          Ok (Some (mk_database (lectures db ++ [lecture_data]) (settings db) an
                                (quiz_results db))))))
  | MUpdateLecture lecture_id updates =>
      rbind (update_first (lectures db) lecture_id updates) (λ r,
        Ok (option_map (λ lects, mk_database lects (settings db) (analytics db)
                                             (quiz_results db)) r))
  | MDeleteLecture lecture_id =>
      rbind (remove_lecture (lectures db) lecture_id) (λ lects,
        Ok (Some (mk_database lects (settings db) (analytics db) (quiz_results db))))
  | MUpdateSettings new_settings =>
      Ok (Some (mk_database (lectures db) (dict_update (settings db) new_settings)
                            (analytics db) (quiz_results db)))
  | MAddQuizResult now quiz_result =>
      rbind (bump_quizzes (analytics db)) (λ an,
        Ok (Some (mk_database (lectures db) (settings db) an
                    (Some (default [] (quiz_results db) ++
                           [<["taken_at" := VStr now]> quiz_result])))))
  | MClearAll => Ok (Some cleared_data)
  end.

(** What the calls hand back: on success (for [add_lecture] the new id, one
    more than the number of lectures loaded), on failure, and when an
    exception escapes. *)
Definition success (m : mutation) (loaded : database) : outcome :=
  match m with
  | MAddLecture _ _ => OId (Ok (Some (Z.of_nat (length (lectures loaded)) + 1)%Z))
  | _ => OFlag (Ok true)
  end.

Definition failure (m : mutation) : outcome :=
  match m with
  | MAddLecture _ _ => OId (Ok None)
  | _ => OFlag (Ok false)
  end.

Definition raising (m : mutation) (e : exn) : outcome :=
  match m with
  | MAddLecture _ _ => OId (Raise e)
  | _ => OFlag (Raise e)
  end.

(** What a call makes of the flag that [save_database] hands back. *)
Definition finish (m : mutation) (loaded : database) (r : res bool) : outcome :=
  match r with
  | Ok true => success m loaded
  | Ok false => failure m
  | Raise e => raising m e
  end.

(** The mutating call behind a step of the lecture life cycle. *)
Definition mutation_of (o : op) : mutation :=
  match o with
  | Add now d => MAddLecture now d
  | Update i u => MUpdateLecture i u
  | Delete i => MDeleteLecture i
  end.

(** Every stored lecture has an ['id']. *)
Definition all_have_id (d : database) : Prop :=
  Forall (λ l : dict, is_Some (l !! "id")) (lectures d).

(** The counter of uploads is an integer, no smaller than the number of
    stored lectures, and every stored lecture has an id. *)
Definition healthy (d : database) : Prop :=
  (∃ k, analytics d !! "total_lectures" = Some (VInt k) ∧
        (Z.of_nat (length (lectures d)) ≤ k)%Z) ∧
  all_have_id d.

(** The read-only calls. *)
Inductive query :=
  | GetLecture (lecture_id : Z)
  | GetAllLectures
  | GetSettings
  | GetAnalytics.

(** What a query answers. *)
Inductive answer :=
  | ALecture (r : res (option dict))
  | ALectures (r : res (list dict))
  | ADict (r : res dict).

Definition ask (q : query) (w : world) : answer * world :=
  match q with
  | GetLecture i => let '(r, w') := get_lecture i w in (ALecture r, w')
  | GetAllLectures => let '(r, w') := get_all_lectures w in (ALectures r, w')
  | GetSettings => let '(r, w') := get_settings w in (ADict r, w')
  | GetAnalytics => let '(r, w') := get_analytics w in (ADict r, w')
  end.

(** The answer to a query when nothing can be loaded: [None], the empty
    list, the empty dict. *)
Definition empty_answer (q : query) : answer :=
  match q with
  | GetLecture _ => ALecture (Ok None)
  | GetAllLectures => ALectures (Ok [])
  | GetSettings | GetAnalytics => ADict (Ok ∅)
  end.

(** A store with two uploads, and its document. *)
Definition two_uploads : world :=
  run [Add "2024-01-01T10:00:00" {["title" := VStr "Cells"]};
       Add "2024-01-02T10:00:00" {["title" := VStr "Plants"]}] fresh_world.

(** The document of [two_uploads]. *)
Definition two_uploads_data : database :=
  match db_file two_uploads with
  | Doc d => d
  | _ => initial_data
  end.

(** A third upload. *)
Definition third_lecture : dict := {["title" := VStr "Light"]}.

(** A store whose file was never created, on a disk that can be written. *)
Definition no_file : world := mk_world NoFile true 0 [].

(** A store whose file holds something that is no JSON. *)
Definition broken_file : world := mk_world Garbage true 0 [].

End StateManager.


(** ** Messages shown through Streamlit *)
Module St.

(** One call of [st.info], [st.warning], [st.success] or [st.error].  The
    texts are the source's, without the leading pictograph. *)
Inductive call :=
  | info (msg : string)
  | warning (msg : string)
  | success (msg : string)
  | error (msg : string).

(** The calls made so far, oldest first. *)
Abbreviation ui := (list call).

Definition show (c : call) : M ui unit := λ s, (Ok tt, s ++ [c]).

End St.

(** ** src/processors/quiz_generator.py *)
Module QuizGenerator.
Import Str.

(** The library calls of the module: [nltk.tokenize.sent_tokenize], the
    functions of [random], and [re.sub] (with its [count]) and [re.findall].
    [shuffle] returns the list that [random.shuffle] leaves in place. *)
Record env := mk_env {
  sent_tokenize : string → res (list string);
  shuffle : ∀ A : Type, list A → list A;
  choice : ∀ A : Type, list A → res A;
  randint : Z → Z → Z;
  re_sub : string → string → string → nat → string;
  re_findall : string → string → list string
}.

(** A question dict.  [options] is present on multiple-choice questions
    only; its pairs are the items of the dict, in insertion order. *)
Record question := mk_question {
  qtype : string;
  qtext : string;
  options : option (list (string * string));
  correct_answer : string;
  explanation : string
}.

(** [len(s.split())]. *)
Definition word_count (s : string) : nat := length (split s).

(** [w[0].isupper()]. *)
Definition first_isupper (w : string) : bool :=
  match chars w with
  | c :: _ => isupper c
  | [] => false
  end.

(** [l.index(x)]. *)
Fixpoint index (l : list string) (x : string) : res nat :=
  match l with
  | [] => Raise (mk_exn ValueError "x not in list")
  | y :: l' => if String.eqb y x then Ok 0 else rbind (index l' x) (λ i, Ok (S i))
  end.

(** [{chr(65 + i): opt for i, opt in enumerate(options)}]. *)
Definition lettered (opts : list string) : list (string * string) :=
  imap (λ i opt, (chr (65 + i), opt)) opts.

Definition _generate_distractors (correct_answer difficulty : string) : list string :=
  let distractors := [] in
  let distractors :=
    if 6 <? len correct_answer
    then distractors ++ [prefix 3 correct_answer +:+ "ology";
                         drop_last 2 correct_answer +:+ "tion";
                         correct_answer +:+ "al"]
    else distractors in
  let distractors :=
    if istitle correct_answer
    then distractors ++ ["Alternative"; "Different"; "Another"]
    else distractors in
  let generic := ["None of the above"; "All of the above"; "Both A and B"; "None"] in
  let distractors := distractors ++ generic in
  take 4 distractors.

Definition modifications : list (string * string) :=
  [("\bnot\b", ""); ("\bis\b", "is not"); ("\bcan\b", "cannot");
   ("\bwill\b", "will not"); ("\balways\b", "never"); ("\bnever\b", "always")].

(** The [for pattern, replacement in modifications] loop: the first
    substitution that changes the sentence. *)
Fixpoint first_modification (E : env) (mods : list (string * string)) (sentence : string)
  : option string :=
  match mods with
  | [] => None
  | (pattern, replacement) :: rest =>
      let modified := re_sub E pattern replacement sentence 1 in
      if negb (String.eqb modified sentence) then Some modified
      else first_modification E rest sentence
  end.

Definition _create_false_statement (E : env) (sentence : string) : res string :=
  match first_modification E modifications sentence with
  | Some modified => Ok modified
  | None =>
      match re_findall E "\b\d+\b" sentence with
      | old_num :: _ =>
          match to_int old_num with
          | Some n =>
              let new_num := of_int (n + randint E 1 10) in
              Ok (replace_first old_num new_num sentence)
          | None => Raise (mk_exn ValueError "invalid literal for int()")
          end
      | [] => Ok sentence
      end
  end.

(** The body of the [for sentence in candidate_sentences] loop of
    [_generate_mcq], from the extraction of the key terms on: [None] stands
    for [continue]. *)
Definition mcq_question (E : env) (sentence difficulty : string) : res (option question) :=
  let words := split sentence in
  let key_terms :=
    map (strip_chars ".,!?;:")
        (List.filter (λ w, (4 <? len w) && (first_isupper w || (8 <? len w))) words) in
  match key_terms with
  | [] => Ok None
  | _ =>
    rbind (choice E _ key_terms) (λ key_term,
      let question_text := replace key_term "______" sentence in
      let distractors := _generate_distractors key_term difficulty in
      let options := shuffle E _ ([key_term] ++ take 3 distractors) in
      rbind (index options key_term) (λ i,
        let correct_answer := chr (65 + i) in
        Ok (Some {|
          qtype := "multiple_choice";
          qtext := "What fits best in the blank?" +:+ NL +:+ NL +:+ question_text;
          options := Some (lettered options);
          correct_answer := correct_answer;
          explanation := "The correct answer is from the lecture: '" +:+ sentence +:+ "'"
        |})))
  end.

Fixpoint mcq_loop (E : env) (num_questions : nat) (difficulty : string)
    (candidate_sentences : list string)
    (questions : list question) (used_sentences : gset string) : res (list question) :=
  match candidate_sentences with
  | [] => Ok questions
  | sentence :: rest =>
      if num_questions <=? length questions then Ok questions
      else if bool_decide (sentence ∈ used_sentences)
      then mcq_loop E num_questions difficulty rest questions used_sentences
      else
        rbind (mcq_question E sentence difficulty) (λ q,
          match q with
          | None => mcq_loop E num_questions difficulty rest questions used_sentences
          | Some q =>
              mcq_loop E num_questions difficulty rest
                       (questions ++ [q]) ({[sentence]} ∪ used_sentences)
          end)
  end.

(** Returns the questions and the caller's [sentences] list as the call
    leaves it: when no sentence has 8 to 30 words, [candidate_sentences] is
    that very list and [random.shuffle] reorders it in place. *)
Definition _generate_mcq (E : env) (sentences : list string) (num_questions : nat)
    (difficulty : string) : res (list question * list string) :=
  let candidate_sentences :=
    List.filter (λ s, (8 <=? word_count s) && (word_count s <=? 30)) sentences in
  let aliased := match candidate_sentences with [] => true | _ => false end in
  let candidate_sentences := if aliased then sentences else candidate_sentences in
  let candidate_sentences := shuffle E _ candidate_sentences in
  rbind (mcq_loop E num_questions difficulty candidate_sentences [] ∅) (λ questions,
    Ok (questions, if aliased then candidate_sentences else sentences)).

(** The [for i, sentence in enumerate(...)] loop of [_generate_true_false]. *)
Fixpoint true_false_loop (E : env) (num_questions : nat) (i : nat)
    (candidate_sentences : list string) (questions : list question)
  : res (list question) :=
  match candidate_sentences with
  | [] => Ok questions
  | sentence :: rest =>
      if num_questions <=? length questions then Ok questions
      else if i mod 2 =? 0 then
        true_false_loop E num_questions (S i) rest
          (questions ++ [{|
             qtype := "true_false";
             qtext := sentence;
             options := None;
             correct_answer := "True";
             explanation := "This statement is directly from the lecture."
           |}])
      else
        rbind (_create_false_statement E sentence) (λ modified,
          if negb (String.eqb modified sentence) then
            true_false_loop E num_questions (S i) rest
              (questions ++ [{|
                 qtype := "true_false";
                 qtext := modified;
                 options := None;
                 correct_answer := "False";
                 explanation := "The correct statement is: '" +:+ sentence +:+ "'"
               |}])
          else true_false_loop E num_questions (S i) rest questions)
  end.

Definition _generate_true_false (E : env) (sentences : list string) (num_questions : nat)
  : res (list question) :=
  let questions := [] in
  let candidate_sentences := List.filter (λ s, 6 <=? word_count s) sentences in
  match candidate_sentences with
  | [] => Ok questions
  | _ =>
      let candidate_sentences := shuffle E _ candidate_sentences in
      true_false_loop E num_questions 0 (take (num_questions * 2) candidate_sentences)
                      questions
  end.

(** [question_words[idx] = "______"]. *)
Definition setitem (l : list string) (idx : nat) (x : string) : res (list string) :=
  if idx <? length l then Ok (<[idx := x]> l)
  else Raise (mk_exn IndexError "list assignment index out of range").

Fixpoint fill_blank_loop (E : env) (candidate_sentences : list string)
    (questions : list question) : res (list question) :=
  match candidate_sentences with
  | [] => Ok questions
  | sentence :: rest =>
      let words := split sentence in
      let key_words :=
        List.filter
          (λ iw : nat * string,
             (4 <? len iw.2) &&
             negb (bool_decide (lower iw.2 ∈ ["which"; "where"; "there"; "these"; "those"])))
          (imap (λ i w, (i, w)) words) in
      match key_words with
      | [] => fill_blank_loop E rest questions
      | _ =>
        rbind (choice E _ key_words) (λ picked,
          let idx := picked.1 in
          let key_word := strip_chars ".,!?;:" picked.2 in
          rbind (setitem words idx "______") (λ question_words,
            let question_text := join " " question_words in
            fill_blank_loop E rest
              (questions ++ [{|
                 qtype := "fill_blank";
                 qtext := "Fill in the blank:" +:+ NL +:+ NL +:+ question_text;
                 options := None;
                 correct_answer := lower (strip_chars ".,!?;:" key_word);
                 explanation := "The complete sentence is: '" +:+ sentence +:+ "'"
               |}])))
      end
  end.

Definition _generate_fill_blank (E : env) (sentences : list string) (num_questions : nat)
  : res (list question) :=
  let questions := [] in
  let candidate_sentences := List.filter (λ s, 8 <=? word_count s) sentences in
  match candidate_sentences with
  | [] => Ok questions
  | _ =>
      let candidate_sentences := shuffle E _ candidate_sentences in
      fill_blank_loop E (take num_questions candidate_sentences) questions
  end.

(** [int(num_questions * 0.6)] and [int(num_questions * 0.2)]: for a count
    the product rounds to the double nearest to 3n/5 (to n/5), whose integer
    part is the quotient below. *)
Definition sixty_percent (n : nat) : nat := 3 * n / 5.
Definition twenty_percent (n : nat) : nat := n / 5.

(** The body of the [try] block of [generate_quiz]. *)
Definition generate_quiz_body (E : env) (text : string) (num_questions : nat)
    (difficulty : string) : M St.ui (list question) :=
  let* _ := St.show (St.info ("Generating " +:+ of_nat num_questions +:+ " quiz questions...")) in
  let* sentences := lift (sent_tokenize E text) in
  let* num_questions :=
    if length sentences <? num_questions
    then
      let* _ := St.show (St.warning ("Text too short. Generating " +:+
                          of_nat (length sentences) +:+ " questions instead.")) in
      ret (length sentences)
    else ret num_questions in
  let questions := [] in
  let num_mcq := sixty_percent num_questions in
  let* mcq := lift (_generate_mcq E sentences num_mcq difficulty) in
  let mcq_questions := mcq.1 in
  let sentences := mcq.2 in
  let questions := questions ++ mcq_questions in
  let num_tf := twenty_percent num_questions in
  let* tf_questions := lift (_generate_true_false E sentences num_tf) in
  let questions := questions ++ tf_questions in
  let num_fib := num_questions - length questions in
  let* fib_questions := lift (_generate_fill_blank E sentences num_fib) in
  let questions := questions ++ fib_questions in
  let questions := shuffle E _ questions in
  let* _ := St.show (St.success ("Generated " +:+ of_nat (length questions) +:+
                      " quiz questions!")) in
  ret (take num_questions questions).

Definition generate_quiz (E : env) (text : string) (num_questions : nat)
    (difficulty : string) : M St.ui (list question) :=
  try_catch (generate_quiz_body E text num_questions difficulty)
    (λ e, let* _ := St.show (St.error ("Error generating quiz: " +:+ exn_msg e)) in
          ret []).

(** One entry of the [results] list of [grade_quiz]. *)
Record graded := mk_graded {
  r_question_num : nat;
  r_correct : bool;
  r_user_answer : value;
  r_correct_answer : value;
  r_explanation : value
}.

(** The dict returned by [grade_quiz]; [score] is a float, or the int 0 for
    an empty quiz. *)
Record grade := mk_grade {
  score : value;
  correct : nat;
  total : nat;
  results : list graded
}.

(** [v.lower().strip()], which only a string has. *)
Definition lower_strip (v : value) : res string :=
  match v with
  | VStr s => Ok (strip (lower s))
  | _ => Raise (mk_exn AttributeError
                  ("'" +:+ type_name v +:+ "' object has no attribute 'lower'"))
  end.

(** The check of one answer, by question type. *)
Definition is_correct (question : dict) (user_answer correct_answer : value) : res bool :=
  rbind (getitem question "type") (λ type,
    if py_eq type (VStr "fill_blank")
    then rbind (lower_strip user_answer) (λ u,
         rbind (lower_strip correct_answer) (λ c,
           Ok (String.eqb u c)))
    else Ok (py_eq user_answer correct_answer)).

(** The [for i, question in enumerate(questions)] loop of [grade_quiz], over
    question dicts and an answer dict keyed by the question numbers. *)
Fixpoint grade_loop (answers : gmap nat value) (i : nat) (questions : list dict)
    (correct : nat) (results : list graded) : res (nat * list graded) :=
  match questions with
  | [] => Ok (correct, results)
  | question :: rest =>
      let user_answer := default (VStr "") (answers !! i) in
      rbind (getitem question "correct_answer") (λ correct_answer,
      rbind (is_correct question user_answer correct_answer) (λ is_correct,
        let correct := if is_correct then correct + 1 else correct in
        grade_loop answers (S i) rest correct
          (results ++ [{|
             r_question_num := i + 1;
             r_correct := is_correct;
             r_user_answer := user_answer;
             r_correct_answer := correct_answer;
             r_explanation := default (VStr "") (question !! "explanation")
           |}])))
  end.

(** The body of the [try] block of [grade_quiz]. *)
Definition grade_quiz_body (questions : list dict) (answers : gmap nat value)
  : M St.ui (option grade) :=
  let correct := 0 in
  let total := length questions in
  let results := [] in
  let* graded := lift (grade_loop answers 0 questions correct results) in
  let correct := graded.1 in
  let results := graded.2 in
  let score := if 0 <? total then VFloat (percentage correct total) else VInt 0 in
  ret (Some {| score := score; correct := correct; total := total;
               results := results |}).

Definition grade_quiz (questions : list dict) (answers : gmap nat value)
  : M St.ui (option grade) :=
  try_catch (grade_quiz_body questions answers)
    (λ e, let* _ := St.show (St.error ("Error grading quiz: " +:+ exn_msg e)) in
          ret None).

(** The options of a question, as the opaque object they are to the
    grader. *)
Definition options_blob (o : list (string * string)) : value :=
  VBlob (join ", " (map (λ p, p.1 +:+ ": " +:+ p.2) o)).

(** A question of the generator, as the dict it is. *)
Definition as_dict (q : question) : dict :=
  let d : dict :=
    <["type" := VStr (qtype q)]>
    (<["question" := VStr (qtext q)]>
    (<["correct_answer" := VStr (correct_answer q)]>
    (<["explanation" := VStr (explanation q)]> ∅))) in
  match options q with
  | Some o => <["options" := options_blob o]> d
  | None => d
  end.

(** The three question types. *)
Definition question_types : list string := ["multiple_choice"; "true_false"; "fill_blank"].

(** A question of one of the three types. *)
Definition typed (q : question) : Prop := qtype q ∈ question_types.

(** The questions of a run, whatever was shown. *)
Definition quiz_of (E : env) (text : string) (n : nat) (difficulty : string)
    (log : St.ui) : res (list question) :=
  (generate_quiz E text n difficulty log).1.

(** [random.shuffle] permutes. *)
Definition shuffle_permutes (E : env) : Prop := ∀ A (l : list A), shuffle E A l ≡ₚ l.

(** The two strings are equal up to the case of their letters. *)
Definition same_ignoring_case (a b : string) : Prop := lower a = lower b.

(** The question is a fill-in question: its [type] is the string
    [fill_blank]. *)
Definition is_fill_blank (q : dict) : bool :=
  match q !! "type" with
  | Some (VStr t) => String.eqb t "fill_blank"
  | _ => false
  end.

(** The judgement the data model gives of an answer: fill-in answers are
    compared as strings, without their surrounding blanks and without regard
    to case, all others with [==], which on two strings is equality. *)
Definition judged_correct (q : dict) (user_answer : value) : Prop :=
  if is_fill_blank q
  then ∃ u c, user_answer = VStr u ∧ q !! "correct_answer" = Some (VStr c) ∧
              same_ignoring_case (strip u) (strip c)
  else ∃ c, q !! "correct_answer" = Some c ∧ py_eq user_answer c = true.

Definition is_str (v : value) : bool :=
  match v with
  | VStr _ => true
  | _ => false
  end.

(** A question that [grade_quiz] can grade, given the answer to it: it has
    its type and its stored answer, and where it is a fill-in question, both
    answers are strings. *)
Definition gradable (q : dict) (user_answer : value) : bool :=
  match q !! "correct_answer", q !! "type" with
  | Some c, Some _ => negb (is_fill_blank q) || (is_str user_answer && is_str c)
  | _, _ => false
  end.

(** [random.choice] returns an element of the sequence it is given. *)
Definition choice_picks (E : env) : Prop :=
  ∀ A (l : list A) (x : A), choice E A l = Ok x → x ∈ l.

(** A question of type [k]. *)
Definition of_type (k : string) (q : question) : Prop := qtype q = k.

(** The number of questions of one type. *)
Definition count_type (k : string) (qs : list question) : nat :=
  length (filter (λ q, qtype q = k) qs).

(** A flashcard dict. *)
Record flashcard := mk_flashcard {
  front : string;
  back : string;
  topic : string
}.

(** The [for sentence in candidate_sentences[:num_cards]] loop of
    [generate_flashcards]. *)
Fixpoint flashcard_loop (E : env) (candidate_sentences : list string)
    (flashcards : list flashcard) : res (list flashcard) :=
  match candidate_sentences with
  | [] => Ok flashcards
  | sentence :: rest =>
      let words := split sentence in
      let key_terms :=
        map (strip_chars ".,!?;:")
            (List.filter (λ w, (4 <? len w) && (first_isupper w || (7 <? len w))) words) in
      match key_terms with
      | [] => flashcard_loop E rest flashcards
      | _ =>
        rbind (choice E _ key_terms) (λ key_term,
          let front := "What is " +:+ key_term +:+ "?" in
          let back := sentence in
          flashcard_loop E rest
            (flashcards ++ [{| front := front; back := back; topic := key_term |}]))
      end
  end.

(** The body of the [try] block of [generate_flashcards], for a [num_cards]
    that is not negative. *)
Definition generate_flashcards_body (E : env) (text : string) (num_cards : nat)
  : M St.ui (list flashcard) :=
  let* _ := St.show (St.info ("Generating " +:+ of_nat num_cards +:+ " flashcards...")) in
  let* sentences := lift (sent_tokenize E text) in
  let flashcards := [] in
  let candidate_sentences :=
    List.filter (λ s, (8 <=? word_count s) && (word_count s <=? 30)) sentences in
  let candidate_sentences :=
    match candidate_sentences with [] => sentences | _ => candidate_sentences end in
  let candidate_sentences := shuffle E _ candidate_sentences in
  let* flashcards :=
    lift (flashcard_loop E (take num_cards candidate_sentences) flashcards) in
  let* _ := St.show (St.success ("Generated " +:+ of_nat (length flashcards) +:+
                      " flashcards!")) in
  ret flashcards.

Definition generate_flashcards (E : env) (text : string) (num_cards : nat)
  : M St.ui (list flashcard) :=
  try_catch (generate_flashcards_body E text num_cards)
    (λ e, let* _ := St.show (St.error ("Error generating flashcards: " +:+ exn_msg e)) in
          ret []).

(** The number of questions whose stored answer is [a]. *)
Definition count_answer (a : string) (qs : list question) : nat :=
  length (filter (λ q, correct_answer q = a) qs).

(** What a true/false question says about the lecture: a sentence of it,
    marked true, or a sentence that [_create_false_statement] changed,
    marked false and explained by the sentence. *)
Definition states (E : env) (sentences : list string) (q : question) : Prop :=
  (correct_answer q = "True" ∧ qtext q ∈ sentences) ∨
  (correct_answer q = "False" ∧
   ∃ s, s ∈ sentences ∧ qtext q ≠ s ∧
        _create_false_statement E s = Ok (qtext q) ∧
        explanation q = "The correct statement is: '" +:+ s +:+ "'").

(** The answers that repeat the stored answer of every question. *)
Definition answer_key (questions : list question) : gmap nat value :=
  map_seq 0 ((λ q, VStr (correct_answer q)) <$> questions).

(** A flashcard made from a sentence: the sentence on the back, and on the
    front a question about a word of it, stripped of its punctuation. *)
Definition quotes (sentences : list string) (c : flashcard) : Prop :=
  back c ∈ sentences ∧
  front c = "What is " +:+ topic c +:+ "?" ∧
  ∃ w, w ∈ split (back c) ∧ 4 < len w ∧ topic c = strip_chars ".,!?;:" w.

End QuizGenerator.


(** ** src/processors/summarizer.py *)
Module Summarizer.
Import Str.

(** A loaded [transformers] pipeline, called as
    [summarizer(chunk, max_length=..., min_length=..., do_sample=False)]:
    the [summary_text] of its first result, or the exception of the call. *)
Definition pipeline : Type := string → nat → nat → res string.

(** The library calls of the module: the NLTK tokenizers,
    [stopwords.words('english')], and the import and construction of the
    pipeline for a model name. *)
Record env := mk_env {
  sent_tokenize : string → res (list string);
  word_tokenize : string → res (list string);
  stopwords : res (list string);
  load_pipeline : string → res pipeline
}.

(** The attributes of a [Summarizer] object. *)
Record self := mk_self {
  model_name : string;
  summarizer : option pipeline;
  use_transformers : bool
}.

(** [Summarizer()] with the default model. *)
Definition init : self := mk_self "facebook/bart-large-cnn" None true.

(** The dict every summarizing method returns; [model] and [num_points]
    are present for some methods only. *)
Record result := mk_result {
  summary : string;
  method : string;
  model : option string;
  original_length : nat;
  summary_length : nat;
  num_points : option nat
}.

(** Both [except] clauses of [load_model] do the same. *)
Definition load_model (E : env) (s : self) : bool * self :=
  match load_pipeline E (model_name s) with
  | Ok p => (true, mk_self (model_name s) (Some p) true)
  | Raise _ => (false, mk_self (model_name s) (summarizer s) false)
  end.

(** The same method with its [try] spelled out, the object being the
    state: the body of the block, and the two handlers as one. *)
Definition load_model_body (E : env) : Py.M self bool :=
  λ s, match load_pipeline E (model_name s) with
       | Ok p => (Ok true, mk_self (model_name s) (Some p) true)
       | Raise e => (Raise e, s)
       end.

Definition switch_off (s : self) : self := mk_self (model_name s) (summarizer s) false.

Definition load_model_guarded (E : env) : Py.M self bool :=
  try_catch (load_model_body E) (λ _ s, (Ok false, switch_off s)).

(** The [for sentence in sentences] loop of [_split_text]. *)
Fixpoint split_loop (max_length : nat) (sentences : list string)
    (chunks current_chunk : list string) (current_length : nat) : list string :=
  match sentences with
  | [] =>
      match current_chunk with
      | [] => chunks
      | _ => chunks ++ [join " " current_chunk]
      end
  | sentence :: rest =>
      let sentence_length := length (split sentence) in
      if (max_length <? current_length + sentence_length) &&
         negb (bool_decide (current_chunk = []))
      then split_loop max_length rest (chunks ++ [join " " current_chunk])
                      [sentence] sentence_length
      else split_loop max_length rest chunks (current_chunk ++ [sentence])
                      (current_length + sentence_length)
  end.

Definition _split_text (E : env) (text : string) (max_length : nat) : res (list string) :=
  rbind (sent_tokenize E text) (λ sentences,
    Ok (split_loop max_length sentences [] [] 0)).

(** The summary of one chunk: the chunk itself when it has fewer than 30
    words, the pipeline's text, or the head of the chunk when the pipeline
    raises. *)
Definition summarize_chunk (p : pipeline) (max_length min_length : nat) (chunk : string)
  : string :=
  if length (split chunk) <? 30 then chunk
  else try_except (p chunk max_length min_length) (λ _, prefix (max_length * 5) chunk).

Definition _transformer_summarize (E : env) (s : self) (text : string)
    (max_length min_length : nat) : res result :=
  let max_chunk_length := 1024 in
  rbind (_split_text E text max_chunk_length) (λ chunks,
    match summarizer s with
    | None => Raise (mk_exn OtherError "AssertionError")
    | Some p =>
        let summaries := map (summarize_chunk p max_length min_length) chunks in
        let combined_summary := join " " summaries in
        let combined_summary :=
          if max_length <? length (split combined_summary)
          then try_except (p combined_summary max_length min_length)
                          (λ _, combined_summary)
          else combined_summary in
        Ok {| summary := combined_summary;
              method := "transformer";
              model := Some (model_name s);
              original_length := len text;
              summary_length := len combined_summary;
              num_points := None |}
    end).

(** [word_frequencies[word] = word_frequencies.get(word, 0) + 1] over the
    words that are alphanumeric and no stop words. *)
Fixpoint count_words (stop_words : list string) (words : list string)
    (word_frequencies : gmap string nat) : gmap string nat :=
  match words with
  | [] => word_frequencies
  | word :: rest =>
      if isalnum word && negb (bool_decide (word ∈ stop_words))
      then count_words stop_words rest
             (<[word := default 0 (word_frequencies !! word) + 1]> word_frequencies)
      else count_words stop_words rest word_frequencies
  end.

Definition of_count (n : nat) : Qc := Qc_of_Z (Z.of_nat n).

(** [freq / max_freq] for every word, a true division of counts; an empty
    dict stays empty. *)
Definition normalize (word_frequencies : gmap string nat) : gmap string Qc :=
  let max_freq := map_fold (λ _ freq acc, freq `max` acc) 0 word_frequencies in
  (λ freq, truediv (Z.of_nat freq) (Z.of_nat max_freq)) <$> word_frequencies.

(** The float constants of the scoring: 1.5, 1.2 and 0.5. *)
Definition x1_5 : Qc := fl (of_count 3 / of_count 2).
Definition x1_2 : Qc := fl (of_count 6 / of_count 5).
Definition x0_5 : Qc := fl (of_count 1 / of_count 2).

(** [sum(...)] of floats: added to 0 from left to right, each sum rounded.
    (This is [sum] up to Python 3.11; from 3.12 on it compensates for the
    rounding and may differ in the last bits.) *)
Definition py_sum (l : list Qc) : Qc := foldl fadd (of_count 0) l.

(** The score of sentence [i] out of [n], given its tokens. *)
Definition sentence_score (word_frequencies : gmap string Qc) (n i : nat)
    (words : list string) : Qc :=
  let score :=
    py_sum (map (λ word, default (of_count 0) (word_frequencies !! word))
                (List.filter isalnum words)) in
  let score :=
    if i =? 0 then fmul score x1_5
    else if i =? n - 1 then fmul score x1_2
    else score in
  let word_count := length words in
  if (10 <=? word_count) && (word_count <=? 30) then fmul score x1_2
  else if word_count <? 5 then fmul score x0_5
  else score.

(** The [for i, sentence in enumerate(sentences)] loop: the scores, in the
    order of the sentences. *)
Fixpoint score_loop (E : env) (word_frequencies : gmap string Qc) (n i : nat)
    (sentences : list string) : res (list Qc) :=
  match sentences with
  | [] => Ok []
  | sentence :: rest =>
      rbind (word_tokenize E (lower sentence)) (λ words,
        rbind (score_loop E word_frequencies n (S i) rest) (λ scores,
          Ok (sentence_score word_frequencies n i words :: scores)))
  end.

(** Insertion into a list sorted by [sorted(...)]: [x], which came before
    the elements of [l] in the input, passes the elements that [after] puts
    ahead of it. *)
Fixpoint insert_by {A} (after : A → A → bool) (x : A) (l : list A) : list A :=
  match l with
  | [] => [x]
  | y :: l' => if after x y then y :: insert_by after x l' else x :: l
  end.

(** A stable sort, as [sorted] and [list.sort] are. *)
Definition sort_by {A} (after : A → A → bool) (l : list A) : list A :=
  foldr (insert_by after) [] l.

(** [sorted(keys, key=lambda x: sentence_scores[x], reverse=True)]. *)
Definition by_score_desc (scores : list Qc) (keys : list nat) : list nat :=
  sort_by (λ x y, bool_decide (default (of_count 0) (scores !! x) <
                               default (of_count 0) (scores !! y))%Qc) keys.

(** [top_indices.sort()]. *)
Definition ascending (l : list nat) : list nat := sort_by (λ x y, y <? x) l.

(** [max(3, len(sentences) // 4)]. *)
Definition num_sentences (n : nat) : nat := 3 `max` (n / 4).

(** The indices of the sentences kept, in the order of the text. *)
Definition top_indices (scores : list Qc) (n : nat) : list nat :=
  ascending (take (num_sentences n) (by_score_desc scores (seq 0 n))).

Definition _extractive_summarize (E : env) (text : string) (max_length : nat)
  : res result :=
  rbind (sent_tokenize E text) (λ sentences,
    if length sentences <=? 3 then
      Ok {| summary := text; method := "extractive"; model := None;
            original_length := len text; summary_length := len text;
            num_points := None |}
    else
      rbind (stopwords E) (λ stop_words,
      rbind (word_tokenize E (lower text)) (λ words,
        let word_frequencies := normalize (count_words stop_words words ∅) in
        rbind (score_loop E word_frequencies (length sentences) 0 sentences)
          (λ sentence_scores,
            let top := top_indices sentence_scores (length sentences) in
            (* [sentences[i] for i in top_indices]: every index is a key of
               [sentence_scores], hence in range *)
            let summary := join " " (omap (λ i, sentences !! i) top) in
            Ok {| summary := summary; method := "extractive"; model := None;
                  original_length := len text; summary_length := len summary;
                  num_points := None |})))).

(** The marker put before each key point.  In the source it is the four
    characters U+00E2, U+20AC, U+00A2 and a blank (a bullet that was decoded
    with the wrong encoding).  The euro sign lies outside the code points of
    the model, so the marker is written here with the bytes of its UTF-8 form
    and [summary_length] counts eight characters for it where Python counts
    four. *)
Definition bullet : string := "â€¢ ".

Definition _generate_bullet_points (E : env) (text : string) : res result :=
  rbind (sent_tokenize E text) (λ sentences,
  rbind (_extractive_summarize E text 300) (λ extractive_result,
  rbind (sent_tokenize E (summary extractive_result)) (λ key_sentences,
    let bullet_points :=
      map (λ sentence, bullet +:+ sentence)
          (List.filter (λ sentence, negb (String.eqb sentence ""))
                       (map strip key_sentences)) in
    let summary := join NL bullet_points in
    Ok {| summary := summary; method := "bullet_points"; model := None;
          original_length := len text; summary_length := len summary;
          num_points := Some (length bullet_points) |}))).

(** [summarize(text, max_length, min_length, style)], with the object before
    and after the call. *)
Definition summarize (E : env) (s : self) (text : string)
    (max_length min_length : nat) (style : string) : res result * self :=
  if String.eqb text "" || (len (strip text) <? 50) then
    (Ok {| summary := text; method := "none"; model := None;
           original_length := len text; summary_length := len text;
           num_points := None |}, s)
  else
    let detailed := String.eqb style "detailed" in
    let max_length := if detailed then max_length `max` 300 else max_length in
    let min_length := if detailed then min_length `max` 100 else min_length in
    if negb detailed && String.eqb style "bullet_points"
    then (_generate_bullet_points E text, s)
    else
    let fallback s := (_extractive_summarize E text max_length, s) in
    if use_transformers s then
      let s := match summarizer s with
               | None => (load_model E s).2
               | Some _ => s
               end in
      match summarizer s with
      | Some _ =>
          match _transformer_summarize E s text max_length min_length with
          | Ok r => (Ok r, s)
          | Raise _ => fallback s
          end
      | None => fallback s
      end
    else fallback s.

(** No pipeline to run: transformers are switched off, or the model is not
    loaded and loading it fails. *)
Definition pipeline_unavailable (E : env) (s : self) : Prop :=
  use_transformers s = false ∨
  (summarizer s = None ∧ ∃ e, load_pipeline E (model_name s) = Raise e).

(** The tokenizers and the stop-word corpus are installed and answer. *)
Definition nltk_answers (E : env) : Prop :=
  (∃ stop_words, stopwords E = Ok stop_words) ∧
  ∀ s, ∃ words, word_tokenize E s = Ok words.

(** The sentences picked for a summary: as many as [k], taken from
    [sentences] without changing their order, and joined by blanks. *)
Definition picks (k : nat) (sentences : list string) (summary : string) : Prop :=
  ∃ picked, picked `sublist_of` sentences ∧ length picked = k ∧
            summary = join " " picked.

(** The words of a run of sentences, as [_split_text] counts them. *)
Definition words_in (sentences : list string) : nat :=
  sum_list (map (λ sentence, length (split sentence)) sentences).

(** A chunk that [_split_text] may cut: one sentence or more, within the
    limit unless it is a single sentence. *)
Definition fits (max_length : nat) (group : list string) : Prop :=
  group ≠ [] ∧ (words_in group ≤ max_length ∨ length group = 1).

(** A pipeline is at hand: loaded already, or loaded by [load_model] on
    demand. *)
Definition pipeline_at_hand (E : env) (s : self) : Prop :=
  use_transformers s = true ∧
  (is_Some (summarizer s) ∨ ∃ p, load_pipeline E (model_name s) = Ok p).

End Summarizer.


(** ** src/processors/transcriber.py *)
Module Transcriber.
Import Str.

(** [aai.TranscriptStatus]. *)
Inductive status := queued | processing | completed | error.

(** A word of the transcript, with its times in milliseconds. *)
Record word := mk_word { w_text : string; w_start : Z; w_end : Z }.

(** The fields of [transcript.json_response] that the code reads. *)
Record json_response := mk_json_response {
  language_code : option string;
  audio_duration : option Qc
}.

(** What the AssemblyAI SDK hands back. *)
Record transcript := mk_transcript {
  t_status : status;
  t_error : string;
  t_text : option string;
  t_words : option (list word);
  t_json_response : option json_response
}.

(** The keyword arguments of [aai.TranscriptionConfig]. *)
Record config := mk_config {
  speech_models : list string;
  c_language_code : option string;
  language_detection : bool
}.

(** The outside of the module: the file system, the SDK call made by the
    worker thread, the clocks, and [round(x, 2)] on floats. *)
Record env := mk_env {
  path_exists : string → bool;
  aai_transcribe : config → string → res transcript;
  elapsed_time : Qc;
  now : string;
  round2 : Qc → Qc
}.

Definition supported_formats : list string :=
  [".mp3"; ".wav"; ".m4a"; ".ogg"; ".flac"; ".webm"].

(** The scan behind [rfind]: [last] is the position of the last [c] met,
    [i] the position of the head of [cs]. *)
Fixpoint rfind_from (c : char) (i : nat) (last : option nat) (cs : list char)
  : option nat :=
  match cs with
  | [] => last
  | d :: cs' =>
      rfind_from c (S i) (if bool_decide (d = c) then Some i else last) cs'
  end.

(** The last path component. *)
Definition path_name (path : string) : string :=
  match rfind_from (Ascii.ascii_of_nat 47) 0 None (chars path) with
  | Some i => str (drop (S i) (chars path))
  | None => path
  end.

(** [Path(path).suffix]: the last dot of the name and what follows, unless
    that dot starts or ends the name. *)
Definition suffix (path : string) : string :=
  let name := path_name path in
  match rfind_from (Ascii.ascii_of_nat 46) 0 None (chars name) with
  | Some i =>
      if (0 <? i) && (i <? len name - 1) then str (drop i (chars name)) else ""
  | None => ""
  end.

Record segment := mk_segment {
  seg_id : nat;
  seg_start : Qc;
  seg_end : Qc;
  seg_text : string
}.

(** The dict returned by [transcribe]. *)
Record transcription := mk_transcription {
  text : string;
  segments : list segment;
  language : string;
  duration : Qc;
  processing_time : Qc;
  model_size : string;
  timestamp : string
}.

(** [range(0, stop, step)]. *)
Definition range_step (stop step : nat) : list nat :=
  map (λ j, j * step) (seq 0 ((stop + step - 1) / step)).

(** [ms / 1000.0]. *)
Definition seconds (ms : Z) : Qc := fdiv (Qc_of_Z ms) (Qc_of_Z 1000).

(** One segment: the words [words[i:i + chunk_size]]. *)
Definition make_segment (E : env) (chunk_size : nat) (words : list word) (i : nat)
  : segment :=
  let chunk := take chunk_size (drop i words) in
  let start_sec := seconds (default 0%Z (w_start <$> head chunk)) in
  let end_sec := seconds (default 0%Z (w_end <$> last chunk)) in
  let text := join " " (map w_text chunk) in
  {| seg_id := i / chunk_size;
     seg_start := round2 E start_sec;
     seg_end := round2 E end_sec;
     seg_text := strip text |}.

(** [transcribe(audio_path, language)], without a progress callback.  The
    worker thread is joined before its result is read, so the call amounts
    to running the SDK and looking at what it left in [result_holder]. *)
Definition transcribe (E : env) (audio_path : string) (language : option string)
  : res transcription :=
  if negb (path_exists E audio_path) then
    Raise (mk_exn FileNotFoundError ("Audio file not found: " +:+ audio_path))
  else if negb (bool_decide (lower (suffix audio_path) ∈ supported_formats)) then
    Raise (mk_exn ValueError
             ("Unsupported format: " +:+ suffix audio_path +:+ ". Supported: "
              +:+ join ", " supported_formats))
  else
    let config :=
      match language with
      | Some l =>
          if negb (String.eqb l "")
          then mk_config ["universal-3-pro"; "universal-2"] (Some l) false
          else mk_config ["universal-3-pro"; "universal-2"] None true
      | None => mk_config ["universal-3-pro"; "universal-2"] None true
      end in
    match aai_transcribe E config audio_path with
    | Raise e => Raise e
    | Ok transcript =>
        match t_status transcript with
        | error =>
            Raise (mk_exn RuntimeError ("Transcription failed: " +:+ t_error transcript))
        | _ =>
            let detected_language :=
              default "unknown" (t_json_response transcript ≫= language_code) in
            let words := default [] (t_words transcript) in
            let chunk_size := 15 in
            let segments :=
              map (make_segment E chunk_size words) (range_step (length words) chunk_size) in
            let duration :=
              match last segments with
              | Some s => seg_end s
              | None =>
                  default (Qc_of_Z 0) (t_json_response transcript ≫= audio_duration)
              end in
            Ok {| text := default "" (t_text transcript);
                  segments := segments;
                  language := detected_language;
                  duration := duration;
                  processing_time := round2 E (elapsed_time E);
                  model_size := "assemblyai";
                  timestamp := now E |}
        end
    end.

(** [needle in haystack], on the characters. *)
Fixpoint occurs_in (needle haystack : list char) : bool :=
  starts_with needle haystack ||
  match haystack with
  | [] => false
  | _ :: rest => occurs_in needle rest
  end.

Definition contains (needle haystack : string) : bool :=
  occurs_in (chars needle) (chars haystack).

(** The [for segment in transcription.get('segments', [])] loop of
    [search_transcript]. *)
Fixpoint search_loop (query_lower : string) (segs : list segment)
    (matches : list segment) : list segment :=
  match segs with
  | [] => matches
  | segment :: rest =>
      if contains query_lower (lower (seg_text segment))
      then search_loop query_lower rest (matches ++ [segment])
      else search_loop query_lower rest matches
  end.

Definition search_transcript (t : transcription) (query : string) : list segment :=
  let query_lower := lower query in
  search_loop query_lower (segments t) [].

(** The words of segment [k]: [words[15 * k : 15 * k + 15]]. *)
Definition chunk_of (words : list word) (k : nat) : list word :=
  take 15 (drop (15 * k) words).

(** The segment mentions the query, whatever the case of the letters. *)
Definition mentions (query : string) (s : segment) : Prop :=
  contains (lower query) (lower (seg_text s)) = true.

#[global] Instance mentions_dec query s : Decision (mentions query s).
Proof. unfold mentions. apply _. Defined.

End Transcriber.

(** ** src/processors/text_analyzer.py *)
Module TextAnalyzer.
Import Str.

(** The library calls of the module: the NLTK tokenizers, the stop-word
    corpus (asked again after a download when the first call fails), the
    part-of-speech tagger, and the functions of [textstat]. *)
Record env := mk_env {
  sent_tokenize : string → res (list string);
  word_tokenize : string → res (list string);
  stopwords : res (list string);
  download_stopwords : res unit;
  stopwords_again : res (list string);
  pos_tag : list string → res (list (string * string));
  flesch_reading_ease : string → res Qc;
  flesch_kincaid_grade : string → res Qc;
  gunning_fog : string → res Qc;
  automated_readability_index : string → res Qc;
  coleman_liau_index : string → res Qc;
  syllable_count : string → res Z
}.

(** Methods run with the messages shown so far. *)
Abbreviation M := (Py.M St.ui).

(** A count, as a Python int. *)
Definition count (n : nat) : value := VInt (Z.of_nat n).

(** [len(set(l))]. *)
Definition distinct (l : list string) : nat := length (remove_dups l).

(** [a / b if b else 0]. *)
Definition ratio (a b : nat) : value :=
  if b =? 0 then VInt 0 else VFloat (truediv (Z.of_nat a) (Z.of_nat b)).

(** [round(a / b * 100, 1) if b else 0]. *)
Definition percent (a b : nat) : value :=
  if b =? 0 then VInt 0 else VFloat (round_to 1 (percentage a b)).

(** The body of the [try] block of [get_basic_stats]. *)
Definition get_basic_stats_body (E : env) (text : string) : res dict :=
  rbind (sent_tokenize E text) (λ sentences,
  rbind (word_tokenize E text) (λ words,
    let unique_words := distinct (map lower (List.filter isalnum words)) in
    let avg_sentence_length := ratio (length words) (length sentences) in
    let word_lengths := map len (List.filter isalnum words) in
    let avg_word_length := ratio (sum_list word_lengths) (length word_lengths) in
    let paragraphs :=
      List.filter (λ p, negb (String.eqb (strip p) "")) (split_on (NL +:+ NL) text) in
    Ok (<["total_words" := count (length words)]>
       (<["unique_words" := count unique_words]>
       (<["total_sentences" := count (length sentences)]>
       (<["total_paragraphs" := count (length paragraphs)]>
       (<["avg_sentence_length" := py_round 1 avg_sentence_length]>
       (<["avg_word_length" := py_round 1 avg_word_length]>
       (<["lexical_diversity" := percent unique_words (length words)]> ∅))))))))).

Definition get_basic_stats (E : env) (text : string) : M dict :=
  try_catch (lift (get_basic_stats_body E text))
    (λ e, ret {["error" := VStr (exn_msg e)]}).

(** The reading of the Flesch score. *)
Definition interpretation (fre : Qc) : string :=
  if bool_decide (Qc_of_Z 90 ≤ fre)%Qc then "Very Easy (5th grade)"
  else if bool_decide (Qc_of_Z 80 ≤ fre)%Qc then "Easy (6th grade)"
  else if bool_decide (Qc_of_Z 70 ≤ fre)%Qc then "Fairly Easy (7th grade)"
  else if bool_decide (Qc_of_Z 60 ≤ fre)%Qc then "Standard (8th-9th grade)"
  else if bool_decide (Qc_of_Z 50 ≤ fre)%Qc then "Fairly Difficult (10th-12th grade)"
  else if bool_decide (Qc_of_Z 30 ≤ fre)%Qc then "Difficult (College)"
  else "Very Difficult (College Graduate)".

(** The body of the [try] block of [get_readability_scores]; the scores of
    [textstat] are floats. *)
Definition get_readability_scores_body (E : env) (text : string) : res dict :=
  rbind (flesch_reading_ease E text) (λ fre,
  rbind (flesch_kincaid_grade E text) (λ fkg,
  rbind (gunning_fog E text) (λ fog,
  rbind (automated_readability_index E text) (λ ari,
  rbind (coleman_liau_index E text) (λ cli,
    let fre := round_to 1 fre in
    Ok (<["flesch_reading_ease" := VFloat fre]>
       (<["flesch_kincaid_grade" := VFloat (round_to 1 fkg)]>
       (<["gunning_fog" := VFloat (round_to 1 fog)]>
       (<["automated_readability" := VFloat (round_to 1 ari)]>
       (<["coleman_liau" := VFloat (round_to 1 cli)]>
       (<["interpretation" := VStr (interpretation fre)]> ∅))))))))))).

Definition get_readability_scores (E : env) (text : string) : M dict :=
  try_catch (lift (get_readability_scores_body E text))
    (λ e, ret {["error" := VStr (exn_msg e)]}).

(** The inner [try] of [get_word_frequency] and [extract_keywords]: the stop
    words, asked again after a download when the first call raises. *)
Definition stop_words (E : env) : res (list string) :=
  match stopwords E with
  | Ok l => Ok l
  | Raise _ => rbind (download_stopwords E) (λ _, stopwords_again E)
  end.

(** [word_freq[word] += 1] on a [Counter], whose items keep the order in
    which the words were first met. *)
Fixpoint bump (word : string) (counts : list (string * nat)) : list (string * nat) :=
  match counts with
  | [] => [(word, 1)]
  | (w, n) :: rest =>
      if String.eqb w word then (w, S n) :: rest else (w, n) :: bump word rest
  end.

(** [Counter(words)]. *)
Definition counter (words : list string) : list (string * nat) :=
  foldl (λ counts word, bump word counts) [] words.

(** [counts.most_common(n)]: the items by falling count, those of equal
    count in the order of the counter. *)
Definition most_common (n : nat) (counts : list (string * nat)) : list (string * nat) :=
  take n (Summarizer.sort_by (λ x y : string * nat, x.2 <? y.2) counts).

(** The words kept by both methods: alphanumeric, longer than 3 characters,
    and no stop words. *)
Definition content_words (stop_words words : list string) : list string :=
  List.filter (λ w, isalnum w && (3 <? len w) && negb (bool_decide (w ∈ stop_words)))
              words.

(** The body of the [try] block of [get_word_frequency]: a list of dicts
    with a [word] and its [count]. *)
Definition get_word_frequency_body (E : env) (text : string) (top_n : nat)
  : res (list dict) :=
  rbind (stop_words E) (λ stop_words,
  rbind (word_tokenize E (lower text)) (λ words,
    let words := content_words stop_words words in
    let top_words := most_common top_n (counter words) in
    Ok (map (λ wc : string * nat,
               <["word" := VStr wc.1]> (<["count" := count wc.2]> (∅ : dict)))
            top_words))).

Definition get_word_frequency (E : env) (text : string) (top_n : nat) : M (list dict) :=
  try_catch (lift (get_word_frequency_body E text top_n)) (λ e, ret []).

(** [pos.startswith('NN') or pos.startswith('JJ')]. *)
Definition noun_or_adjective (pos : string) : bool :=
  starts_with (chars "NN") (chars pos) || starts_with (chars "JJ") (chars pos).

(** The body of the [try] block of [extract_keywords]; when the tagger
    raises, every word is kept. *)
Definition extract_keywords_body (E : env) (text : string) (num_keywords : nat)
  : res (list string) :=
  rbind (stop_words E) (λ stop_words,
  rbind (word_tokenize E (lower text)) (λ words,
    let words := content_words stop_words words in
    let filtered_words :=
      try_except
        (rbind (pos_tag E words) (λ pos_tags,
           Ok (map fst (List.filter (λ wp : string * string, noun_or_adjective wp.2)
                                    pos_tags))))
        (λ _, words) in
    Ok (map fst (most_common num_keywords (counter filtered_words))))).

Definition extract_keywords (E : env) (text : string) (num_keywords : nat)
  : M (list string) :=
  try_catch (lift (extract_keywords_body E text num_keywords)) (λ e, ret []).

Definition positive_words : list string :=
  ["good"; "great"; "excellent"; "amazing"; "wonderful"; "fantastic";
   "positive"; "better"; "best"; "success"; "successful"; "improve";
   "benefit"; "advantage"; "effective"; "efficient"; "important"].

Definition negative_words : list string :=
  ["bad"; "poor"; "terrible"; "awful"; "negative"; "worse"; "worst";
   "fail"; "failure"; "problem"; "issue"; "difficult"; "challenge";
   "disadvantage"; "ineffective"; "wrong"; "error"].

(** The float 0.2. *)
Definition x0_2 : Qc := fl (Qc_of_Z 1 / Qc_of_Z 5).

(** The label and the score for the two counts. *)
Definition verdict (pos_count neg_count : nat) : string * value :=
  let total := pos_count + neg_count in
  if total =? 0 then ("Neutral", VInt 0)
  else
    let score := truediv (Z.of_nat pos_count - Z.of_nat neg_count) (Z.of_nat total) in
    (if bool_decide (x0_2 < score)%Qc then "Positive"
     else if bool_decide (score < - x0_2)%Qc then "Negative"
     else "Neutral", VFloat score).

(** The body of the [try] block of [analyze_sentiment]. *)
Definition analyze_sentiment_body (E : env) (text : string) : res dict :=
  rbind (word_tokenize E (lower text)) (λ words,
    let pos_count := length (List.filter (λ w, bool_decide (w ∈ positive_words)) words) in
    let neg_count := length (List.filter (λ w, bool_decide (w ∈ negative_words)) words) in
    let v := verdict pos_count neg_count in
    Ok (<["sentiment" := VStr v.1]>
       (<["score" := py_round 2 v.2]>
       (<["positive_words" := count pos_count]>
       (<["negative_words" := count neg_count]> ∅))))).

Definition analyze_sentiment (E : env) (text : string) : M dict :=
  try_catch (lift (analyze_sentiment_body E text))
    (λ e, ret (<["sentiment" := VStr "Unknown"]> (<["score" := VInt 0]> ∅))).

(** The body of the [try] block of [extract_topics]: the first 8 of 10
    keywords. *)
Definition extract_topics_body (E : env) (text : string) : M (list string) :=
  let* keywords := extract_keywords E text 10 in
  let topics := take 8 keywords in
  ret topics.

Definition extract_topics (E : env) (text : string) : M (list string) :=
  try_catch (extract_topics_body E text) (λ e, ret []).

(** [[x for x in l if test(x)]] for a test that may raise. *)
Fixpoint filter_res {A} (test : A → res bool) (l : list A) : res (list A) :=
  match l with
  | [] => Ok []
  | x :: l' =>
      rbind (test x) (λ keep,
      rbind (filter_res test l') (λ rest,
        Ok (if keep : bool then x :: rest else rest)))
  end.

Definition passive_indicators : list string :=
  ["was"; "were"; "been"; "being"; "is"; "are"; "am"].

(** The body of the [try] block of [analyze_complexity]. *)
Definition analyze_complexity_body (E : env) (text : string) : res dict :=
  rbind (sent_tokenize E text) (λ sentences,
  rbind (word_tokenize E text) (λ words,
  rbind (filter_res (λ s, rbind (word_tokenize E s) (λ ws, Ok (25 <? length ws)))
                    sentences) (λ long_sentences,
  rbind (filter_res (λ w, rbind (syllable_count E w) (λ n, Ok (3 <=? n)%Z))
                    words) (λ complex_words,
    let passive_count :=
      length (List.filter
                (λ s, existsb (λ ind, Transcriber.contains ind (lower s))
                              passive_indicators)
                sentences) in
    Ok (<["long_sentences_count" := count (length long_sentences)]>
       (<["long_sentences_percent" :=
            percent (length long_sentences) (length sentences)]>
       (<["complex_words_count" := count (length complex_words)]>
       (<["complex_words_percent" := percent (length complex_words) (length words)]>
       (<["passive_voice_count" := count passive_count]>
       (<["passive_voice_percent" := percent passive_count (length sentences)]>
          ∅)))))))))).

Definition analyze_complexity (E : env) (text : string) : M dict :=
  try_catch (lift (analyze_complexity_body E text)) (λ e, ret ∅).

(** The dict returned by [analyze]. *)
Record analysis := mk_analysis {
  basic_stats : dict;
  readability : dict;
  word_frequency : list dict;
  keywords : list string;
  sentiment : dict;
  topics : list string;
  complexity : dict
}.

(** The body of the [try] block of [analyze]. *)
Definition analyze_body (E : env) (text : string) : M (option analysis) :=
  let* basic_stats := get_basic_stats E text in
  let* readability := get_readability_scores E text in
  let* word_frequency := get_word_frequency E text 20 in
  let* keywords := extract_keywords E text 15 in
  let* sentiment := analyze_sentiment E text in
  let* topics := extract_topics E text in
  let* complexity := analyze_complexity E text in
  ret (Some {| basic_stats := basic_stats; readability := readability;
               word_frequency := word_frequency; keywords := keywords;
               sentiment := sentiment; topics := topics;
               complexity := complexity |}).

Definition analyze (E : env) (text : string) : M (option analysis) :=
  try_catch (analyze_body E text)
    (λ e, let* _ := St.show (St.error ("Error during analysis: " +:+ exn_msg e)) in
          ret None).

(** [a - b] on numbers: the integer difference on ints, the double nearest
    to the difference as soon as a float is involved. *)
Definition py_sub (a b : value) : res value :=
  match int_of a, int_of b with
  | Some x, Some y => Ok (VInt (x - y)%Z)
  | _, _ =>
    match num_of a, num_of b with
    | Some x, Some y => Ok (VFloat (fl (fl x - fl y)))
    | _, _ => Raise (mk_exn TypeError "unsupported operand type(s) for -")
    end
  end.

(** The dict returned by [compare_transcripts]. *)
Record comparison := mk_comparison {
  transcript1 : analysis;
  transcript2 : analysis;
  word_count_diff : value;
  readability_diff : value
}.

(** The body of the [try] block of [compare_transcripts]. *)
Definition compare_transcripts_body (E : env) (text1 text2 : string)
  : M (option comparison) :=
  let* analysis1 := analyze E text1 in
  let* analysis2 := analyze E text2 in
  match analysis1, analysis2 with
  | Some analysis1, Some analysis2 =>
      let* words1 := lift (getitem (basic_stats analysis1) "total_words") in
      let* words2 := lift (getitem (basic_stats analysis2) "total_words") in
      let* word_count_diff := lift (py_sub words1 words2) in
      let* ease1 := lift (getitem (readability analysis1) "flesch_reading_ease") in
      let* ease2 := lift (getitem (readability analysis2) "flesch_reading_ease") in
      let* readability_diff := lift (py_sub ease1 ease2) in
      ret (Some {| transcript1 := analysis1; transcript2 := analysis2;
                   word_count_diff := word_count_diff;
                   readability_diff := readability_diff |})
  | _, _ => ret None
  end.

Definition compare_transcripts (E : env) (text1 text2 : string) : M (option comparison) :=
  try_catch (compare_transcripts_body E text1 text2) (λ e, ret None).

End TextAnalyzer.

(** ** src/utils/file_handler.py *)
Module FileHandler.

(** A Streamlit [UploadedFile]. *)
Record uploaded_file := mk_uploaded_file {
  name : string;
  size : nat;
  type : string;
  getbuffer : string
}.

(** The clock, in the two formats used, and [open(path, "wb")] followed by
    [write]. *)
Record env := mk_env {
  strftime : string;
  isoformat : string;
  write_file : string → string → res unit
}.

Record file_info := mk_file_info {
  original_name : string;
  saved_name : string;
  path : string;
  info_size : nat;
  info_type : string;
  uploaded_at : string
}.

Definition uploads_dir : string := "data/uploads".

(** The body of the [try] block of [save_uploaded_file]. *)
Definition save_uploaded_file_body (E : env) (f : uploaded_file)
  : M St.ui (bool * option string * option file_info) :=
  let timestamp := strftime E in
  let filename := timestamp +:+ "_" +:+ name f in
  let file_path := uploads_dir +:+ "/" +:+ filename in
  let* _ := lift (write_file E file_path (getbuffer f)) in
  let file_info :=
    {| original_name := name f; saved_name := filename; path := file_path;
       info_size := size f; info_type := type f; uploaded_at := isoformat E |} in
  ret (true, Some file_path, Some file_info).

Definition save_uploaded_file (E : env) (f : uploaded_file)
  : M St.ui (bool * option string * option file_info) :=
  try_catch (save_uploaded_file_body E f)
    (λ e, let* _ := St.show (St.error ("Error saving file: " +:+ exn_msg e)) in
          ret (false, None, None)).

(** [save_upload]: the path, or [None]. *)
Definition save_upload (E : env) (f : uploaded_file) : M St.ui (option string) :=
  let* saved := save_uploaded_file E f in
  let '(success, file_path, _) := saved in
  ret (if success : bool then file_path else None).

Import Str.

(** The files under [data/], by path; the paths on which [open],
    [os.remove] and [unlink] are refused; and the messages shown. *)
Record disk := mk_disk {
  files : gmap string string;
  locked : gset string;
  screen : St.ui
}.

Definition show_error (msg : string) : M disk unit :=
  λ d, (Ok tt, mk_disk (files d) (locked d) (screen d ++ [St.error msg])).

Definition denied (file_path : string) : exn :=
  mk_exn PermissionError ("[Errno 13] Permission denied: '" +:+ file_path +:+ "'").

Definition missing (file_path : string) : exn :=
  mk_exn FileNotFoundError ("[Errno 2] No such file or directory: '" +:+ file_path +:+ "'").

(** Universal newlines, as a text file is read: a carriage return reads as
    a line feed, and the line feed that follows one is dropped; [after_cr]
    tells whether the previous character was a carriage return. *)
Fixpoint newlines_from (after_cr : bool) (cs : list char) : list char :=
  match cs with
  | [] => []
  | c :: cs' =>
      if code c =? 13 then Ascii.ascii_of_nat 10 :: newlines_from true cs'
      else if (code c =? 10) && after_cr then newlines_from false cs'
      else c :: newlines_from false cs'
  end.

Definition universal_newlines (content : string) : string :=
  str (newlines_from false (chars content)).

(** [with open(file_path, 'w', encoding='utf-8') as f: f.write(content)].
    The file holds text; every character of the model can be encoded.  The
    line separator is the line feed, as on POSIX: the text is written as it
    is.  (On Windows each line feed is written as CR LF.) *)
Definition write_text (file_path content : string) : M disk unit :=
  λ d, if bool_decide (file_path ∈ locked d) then (Raise (denied file_path), d)
       else (Ok tt, mk_disk (<[file_path := content]> (files d)) (locked d) (screen d)).

(** [with open(file_path, 'r', encoding='utf-8') as f: return f.read()]: the
    text of the file, with universal newlines. *)
Definition read_text (file_path : string) : M disk string :=
  λ d, if bool_decide (file_path ∈ locked d) then (Raise (denied file_path), d)
       else match files d !! file_path with
            | Some content => (Ok (universal_newlines content), d)
            | None => (Raise (missing file_path), d)
            end.

(** [file_path.exists()]. *)
Definition file_exists (file_path : string) : M disk bool :=
  λ d, (Ok (bool_decide (is_Some (files d !! file_path))), d).

(** [file_path.unlink()], [os.remove(file_path)]. *)
Definition unlink (file_path : string) : M disk unit :=
  λ d, if bool_decide (file_path ∈ locked d) then (Raise (denied file_path), d)
       else match files d !! file_path with
            | Some _ => (Ok tt, mk_disk (delete file_path (files d)) (locked d) (screen d))
            | None => (Raise (missing file_path), d)
            end.

Definition transcripts_dir : string := "data/transcripts".
Definition summaries_dir : string := "data/summaries".

(** [self.transcripts_dir / f"transcript_{lecture_id}.txt"]. *)
Definition transcript_file (lecture_id : Z) : string :=
  transcripts_dir +:+ "/" +:+ ("transcript_" +:+ of_int lecture_id +:+ ".txt").

(** [self.summaries_dir / f"summary_{lecture_id}.json"]. *)
Definition summary_file (lecture_id : Z) : string :=
  summaries_dir +:+ "/" +:+ ("summary_" +:+ of_int lecture_id +:+ ".json").

(** The body of the [try] block of [save_transcript]. *)
Definition save_transcript_body (lecture_id : Z) (transcript_text : string)
  : M disk (bool * option string) :=
  let transcript_file := transcript_file lecture_id in
  let* _ := write_text transcript_file transcript_text in
  ret (true, Some transcript_file).

Definition save_transcript (lecture_id : Z) (transcript_text : string)
  : M disk (bool * option string) :=
  try_catch (save_transcript_body lecture_id transcript_text)
    (λ e, let* _ := show_error ("Error saving transcript: " +:+ exn_msg e) in
          ret (false, None)).

(** The body of the [try] block of [load_transcript]. *)
Definition load_transcript_body (lecture_id : Z) : M disk (option string) :=
  let transcript_file := transcript_file lecture_id in
  let* there := file_exists transcript_file in
  if there then
    let* content := read_text transcript_file in
    ret (Some content)
  else ret None.

Definition load_transcript (lecture_id : Z) : M disk (option string) :=
  try_catch (load_transcript_body lecture_id)
    (λ e, let* _ := show_error ("Error loading transcript: " +:+ exn_msg e) in
          ret None).

(** The body of the [try] block of [delete_lecture_files]; an
    [audio_path] of [None] or [""] is skipped. *)
Definition delete_lecture_files_body (lecture_id : Z) (audio_path : option string)
  : M disk bool :=
  let* _ :=
    match audio_path with
    | Some p =>
        if negb (String.eqb p "") then
          let* there := file_exists p in
          if there then unlink p else ret tt
        else ret tt
    | None => ret tt
    end in
  let transcript_file := transcript_file lecture_id in
  let* there := file_exists transcript_file in
  let* _ := if there then unlink transcript_file else ret tt in
  let summary_file := summary_file lecture_id in
  let* there := file_exists summary_file in
  let* _ := if there then unlink summary_file else ret tt in
  ret true.

(** [delete_lecture_files(lecture_id, audio_path)]. *)
Definition delete_lecture_files (lecture_id : Z) (audio_path : option string)
  : M disk bool :=
  try_catch (delete_lecture_files_body lecture_id audio_path)
    (λ e, let* _ := show_error ("Error deleting files: " +:+ exn_msg e) in
          ret false).

(** What the remaining methods ask of the outside: the JSON encoder and
    decoder (for an object, the text that [json.dump] writes into the file
    and the exception at which it stops, if it does), [os.path.getsize],
    [librosa.get_duration] behind its import, the listing of a directory and
    the [stat] of its entries (the modification time as
    [datetime.fromtimestamp] reads it, in seconds), and the clock. *)
Record os := mk_os {
  json_dump : dict → string * option exn;
  json_load : string → res dict;
  getsize : string → res Z;
  get_duration : string → res Qc;
  iterdir : string → res (list string);
  is_file : string → bool;
  st_mtime : string → res Qc;
  st_size : string → res Z;
  now : Qc
}.

(** [open(file_path, 'w', encoding='utf-8')]: the file is created or cut to
    nothing. *)
Definition open_w (file_path : string) : M disk unit := write_text file_path "".

(** The body of the [try] block of [save_summary]. *)
Definition save_summary_body (O : os) (lecture_id : Z) (summary_data : dict)
  : M disk (bool * option string) :=
  let summary_file := summary_file lecture_id in
  let* _ := open_w summary_file in
  let dumped := json_dump O summary_data in
  let* _ := write_text summary_file dumped.1 in
  match dumped.2 with
  | Some e => lift (Raise e)
  | None => ret (true, Some summary_file)
  end.

Definition save_summary (O : os) (lecture_id : Z) (summary_data : dict)
  : M disk (bool * option string) :=
  try_catch (save_summary_body O lecture_id summary_data)
    (λ e, let* _ := show_error ("Error saving summary: " +:+ exn_msg e) in
          ret (false, None)).

(** The body of the [try] block of [load_summary]. *)
Definition load_summary_body (O : os) (lecture_id : Z) : M disk (option dict) :=
  let summary_file := summary_file lecture_id in
  let* there := file_exists summary_file in
  if there then
    let* content := read_text summary_file in
    let* data := lift (json_load O content) in
    ret (Some data)
  else ret None.

Definition load_summary (O : os) (lecture_id : Z) : M disk (option dict) :=
  try_catch (load_summary_body O lecture_id)
    (λ e, let* _ := show_error ("Error loading summary: " +:+ exn_msg e) in
          ret None).

(** The [for unit in ...] loop of [get_file_size] and [format_size], with
    the [return] that follows it: [size] starts as an int and is a float
    after the first division. *)
Fixpoint in_units (units : list string) (last : string) (size : Qc) : string :=
  match units with
  | [] => format_2f size +:+ " " +:+ last
  | unit :: rest =>
      if bool_decide (size < Qc_of_Z 1024)%Qc then format_2f size +:+ " " +:+ unit
      else in_units rest last (fdiv size (Qc_of_Z 1024))
  end.

(** The body of the [try] block of [get_file_size]. *)
Definition get_file_size_body (O : os) (file_path : string) : M disk string :=
  let* size := lift (getsize O file_path) in
  ret (in_units ["B"; "KB"; "MB"; "GB"] "TB" (Qc_of_Z size)).

(** [get_file_size], whose [except:] is bare. *)
Definition get_file_size (O : os) (file_path : string) : M disk string :=
  try_catch (get_file_size_body O file_path) (λ _, ret "Unknown").

(** [format_size(size_bytes)] for a number of bytes. *)
Definition format_size (size_bytes : Z) : string :=
  in_units ["B"; "KB"; "MB"; "GB"; "TB"] "PB" (Qc_of_Z size_bytes).

(** The body of the [try] block of [get_audio_duration]; the duration that
    [librosa] returns is a float. *)
Definition get_audio_duration_body (O : os) (file_path : string)
  : M disk (string * value) :=
  let* duration := lift (get_duration O file_path) in
  let minutes := trunc_of (float_divmod duration (Qc_of_Z 60)).1 in
  let seconds := trunc_of (float_divmod duration (Qc_of_Z 60)).2 in
  ret (of_int minutes +:+ "m " +:+ of_int seconds +:+ "s", VFloat duration).

Definition get_audio_duration (O : os) (file_path : string) : M disk (string * value) :=
  try_catch (get_audio_duration_body O file_path) (λ _, ret ("Unknown", VInt 0)).

(** The three directories under [data/]. *)
Definition directories : list string := [uploads_dir; transcripts_dir; summaries_dir].

(** The inner [for file_path in directory.iterdir()] loop of
    [cleanup_old_files]. *)
Fixpoint cleanup_files (O : os) (cutoff_date : Qc) (paths : list string)
    (deleted_count : nat) : M disk nat :=
  match paths with
  | [] => ret deleted_count
  | file_path :: rest =>
      if is_file O file_path then
        let* file_time := lift (st_mtime O file_path) in
        if bool_decide (file_time < cutoff_date)%Qc then
          let* _ := unlink file_path in
          cleanup_files O cutoff_date rest (deleted_count + 1)
        else cleanup_files O cutoff_date rest deleted_count
      else cleanup_files O cutoff_date rest deleted_count
  end.

(** The outer [for directory in ...] loop. *)
Fixpoint cleanup_directories (O : os) (cutoff_date : Qc) (dirs : list string)
    (deleted_count : nat) : M disk nat :=
  match dirs with
  | [] => ret deleted_count
  | directory :: rest =>
      let* paths := lift (iterdir O directory) in
      let* deleted_count := cleanup_files O cutoff_date paths deleted_count in
      cleanup_directories O cutoff_date rest deleted_count
  end.

(** [timedelta(days=days)], in seconds. *)
Definition timedelta (days : Z) : res Qc :=
  if (999999999 <? Z.abs days)%Z
  then Raise (mk_exn OverflowError
                ("days=" +:+ of_int days +:+ "; must have magnitude <= 999999999"))
  else Ok (Qc_of_Z (days * 86400)).

(** The first and the last [datetime], in seconds from the start of 1970:
    the start of year 1 and the last microsecond of year 9999. *)
Definition datetime_min : Qc := Qc_of_Z (-62135596800).
Definition datetime_max : Qc := (Qc_of_Z 253402300800 - 1 / Qc_of_Z 1000000)%Qc.

(** [t - delta] on a [datetime]. *)
Definition datetime_sub (t delta : Qc) : res Qc :=
  let d := (t - delta)%Qc in
  if bool_decide (datetime_min ≤ d)%Qc && bool_decide (d ≤ datetime_max)%Qc
  then Ok d
  else Raise (mk_exn OverflowError "date value out of range").

(** The body of the [try] block of [cleanup_old_files], with the times in
    seconds. *)
Definition cleanup_old_files_body (O : os) (days : Z) : M disk (bool * nat) :=
  let* delta := lift (timedelta days) in
  let* cutoff_date := lift (datetime_sub (now O) delta) in
  let* deleted_count := cleanup_directories O cutoff_date directories 0 in
  ret (true, deleted_count).

Definition cleanup_old_files (O : os) (days : Z) : M disk (bool * nat) :=
  try_catch (cleanup_old_files_body O days)
    (λ e, let* _ := show_error ("Error during cleanup: " +:+ exn_msg e) in
          ret (false, 0)).

(** The loops of [get_storage_info]. *)
Fixpoint storage_files (O : os) (paths : list string) (total_size : Z) (file_count : nat)
  : res (Z * nat) :=
  match paths with
  | [] => Ok (total_size, file_count)
  | file_path :: rest =>
      if is_file O file_path then
        rbind (st_size O file_path) (λ size,
          storage_files O rest (total_size + size)%Z (file_count + 1))
      else storage_files O rest total_size file_count
  end.

Fixpoint storage_directories (O : os) (dirs : list string) (total_size : Z)
    (file_count : nat) : res (Z * nat) :=
  match dirs with
  | [] => Ok (total_size, file_count)
  | directory :: rest =>
      rbind (iterdir O directory) (λ paths,
      rbind (storage_files O paths total_size file_count) (λ counted,
        storage_directories O rest counted.1 counted.2))
  end.

(** The body of the [try] block of [get_storage_info]. *)
Definition get_storage_info_body (O : os) : res dict :=
  rbind (storage_directories O directories 0 0) (λ counted,
    Ok (<["total_size" := VStr (format_size counted.1)]>
       (<["total_size_bytes" := VInt counted.1]>
       (<["file_count" := VInt (Z.of_nat counted.2)]> ∅)))).

Definition get_storage_info (O : os) : M disk dict :=
  try_catch (lift (get_storage_info_body O))
    (λ _, ret (<["total_size" := VStr "Unknown"]> (<["file_count" := VInt 0]> ∅))).

(** The character kept by the generator expression of [get_transcript_path]
    and [get_summary_path]. *)
Definition keep (c : char) : char :=
  if isalnum_char c || bool_decide (c ∈ chars " -_") then c else Ascii.ascii_of_nat 95.

(** [safe_name], after both assignments. *)
Definition safe_name (title : string) : string :=
  let safe_name := str (map keep (chars title)) in
  prefix 100 (replace " " "_" safe_name).

Definition get_transcript_path (title : string) : string :=
  transcripts_dir +:+ "/" +:+ (safe_name title +:+ "_transcript.json").

Definition get_summary_path (title : string) : string :=
  summaries_dir +:+ "/" +:+ (safe_name title +:+ "_summary.md").

(** The paths that [delete_lecture_files] sets out to remove. *)
Definition targets (lecture_id : Z) (audio_path : option string) : list string :=
  match audio_path with
  | Some p => if negb (String.eqb p "") then [p] else []
  | None => []
  end ++ [transcript_file lecture_id; summary_file lecture_id].

(** A character that may appear in a safe name: one that [str.isalnum]
    accepts (a letter, a digit, also an accented letter or a superscript
    digit), a hyphen or an underscore. *)
Definition plain (c : char) : Prop :=
  isalnum_char c = true ∨ c ∈ chars "-_".

(** The carriage return. *)
Definition CR : string := chr 13.

End FileHandler.

(** ** src/pages/04_❓_Quiz.py: the results view *)
Module QuizPage.
Import Str QuizGenerator.

(** What a question dict holds under a key: a string, or the options. *)
Inductive field :=
  | FStr (s : string)
  | FOptions (o : list (string * string)).

(** [question.get(key)] on a dict built by the generator: its keys are
    [type], [question], [options] (multiple choice only), [correct_answer]
    and [explanation]. *)
Definition get (q : question) (key : string) : option field :=
  if String.eqb key "type" then Some (FStr (qtype q))
  else if String.eqb key "question" then Some (FStr (qtext q))
  else if String.eqb key "options" then FOptions <$> options q
  else if String.eqb key "correct_answer" then Some (FStr (correct_answer q))
  else if String.eqb key "explanation" then Some (FStr (explanation q))
  else None.

(** [st.session_state.quiz_answers]: per question number, the string typed
    or picked, or [None] for a radio left without a selection. *)
Abbreviation answers := (gmap nat (option string)).

(** The [for i, question in enumerate(questions)] loop of the results view,
    as far as the count of correct answers goes. *)
Fixpoint results_loop (quiz_answers : answers) (i : nat) (questions : list question)
    (correct : nat) : nat :=
  match questions with
  | [] => correct
  | question :: rest =>
      let correct_answer := default (FStr "") (get question "answer") in
      let user_answer := default (Some "") (quiz_answers !! i) in
      let is_correct :=
        match correct_answer, user_answer with
        | FStr c, Some u => String.eqb (strip (lower c)) (strip (lower u))
        | _, _ => false
        end in
      let correct := if is_correct then correct + 1 else correct in
      results_loop quiz_answers (S i) rest correct
  end.

(** The [correct] of the score summary. *)
Definition page_correct (questions : list question) (quiz_answers : answers) : nat :=
  results_loop quiz_answers 0 questions 0.

(** Question [i] was answered with blanks only, or has no entry at all. *)
Definition left_blank (quiz_answers : answers) (i : nat) : Prop :=
  match default (Some "") (quiz_answers !! i) with
  | Some u => strip (lower u) = ""
  | None => False
  end.

#[global] Instance left_blank_dec quiz_answers i : Decision (left_blank quiz_answers i).
Proof. unfold left_blank. destruct (default _ _); apply _. Defined.

(** The answers a reader gives who picks or types the stored answer of
    every question. *)
Definition key_answers (questions : list question) : answers :=
  map_seq 0 ((λ q, Some (correct_answer q)) <$> questions).

End QuizPage.

(** ** src/utils/helpers.py *)
Module Helpers.
Import Str.

(** [truncate_text(text, max_length)], for a [max_length] that is not
    negative. *)
Definition truncate_text (text : string) (max_length : nat) : string :=
  if len text <=? max_length then text
  else prefix max_length text +:+ "...".

(** [round(a / b)] for counts [a] and [b > 0]: the nearest integer, the even
    one when two are as near.  The float [a / b] is the one nearest to the
    quotient, and a quotient halfway between two integers is itself a
    float, so rounding the float is rounding the quotient. *)
Definition round_div (a b : nat) : nat :=
  let q := a / b in
  let r := a mod b in
  if 2 * r <? b then q
  else if b <? 2 * r then q + 1
  else if Nat.even q then q else q + 1.

Definition calculate_reading_time (text : string) : nat :=
  let words := length (split text) in
  1 `max` round_div words 200.

End Helpers.

(** ** Sample environments and texts *)
Module Samples.
Import Str.

(** A tokenizer for plain prose: a sentence ends with its full stop. *)
Fixpoint sentences_from (cur : list char) (cs : list char) : list string :=
  match cs with
  | [] => match cur with [] => [] | _ => [strip (str (rev cur))] end
  | c :: cs' =>
      if code c =? 46 then strip (str (rev (c :: cur))) :: sentences_from [] cs'
      else sentences_from (c :: cur) cs'
  end.

Definition period_tokenize (text : string) : list string :=
  sentences_from [] (chars text).

Definition first_of {A} (l : list A) : res A :=
  match l with
  | x :: _ => Ok x
  | [] => Raise (mk_exn IndexError "Cannot choose from an empty sequence")
  end.

(** A generator whose shuffle reverses and whose choice takes the first
    element; the regular expressions know the verb "is". *)
Definition quiz_env : QuizGenerator.env := {|
  QuizGenerator.sent_tokenize := λ t, Ok (period_tokenize t);
  QuizGenerator.shuffle := λ A l, rev l;
  QuizGenerator.choice := @first_of;
  QuizGenerator.randint := λ a b, a;
  QuizGenerator.re_sub := λ p r s c,
    if String.eqb p "\bis\b" then replace_first " is " (" " +:+ r +:+ " ") s else s;
  QuizGenerator.re_findall := λ p s, []
|}.

(** A machine on which the NLTK sentence model was never downloaded. *)
Definition no_punkt_env : QuizGenerator.env := {|
  QuizGenerator.sent_tokenize := λ _,
    Raise (mk_exn LookupError "Resource punkt_tab not found.");
  QuizGenerator.shuffle := λ A l, rev l;
  QuizGenerator.choice := @first_of;
  QuizGenerator.randint := λ a b, a;
  QuizGenerator.re_sub := λ p r s c, s;
  QuizGenerator.re_findall := λ p s, []
|}.

Definition lecture_text : string :=
  "Photosynthesis is the process by which green plants convert sunlight into chemical energy. The Calvin cycle takes place in the stroma of the chloroplast organelles. Short one here. Chlorophyll molecules absorb mostly blue and red wavelengths of visible light. Water is split during the light reactions releasing molecular oxygen as a byproduct. Plants are green.".

(** One long sentence of more than thirty words. *)
Definition long_sentence : string :=
  "The light reactions of photosynthesis capture the energy of sunlight in the thylakoid membranes and store it as chemical energy that the Calvin cycle later spends to build sugars from carbon dioxide and water.".

Definition unavailable : exn := mk_exn ImportError "No module named 'transformers'".

(** NLTK is installed, [transformers] is not. *)
Definition offline_env : Summarizer.env := {|
  Summarizer.sent_tokenize := λ t, Ok (period_tokenize t);
  Summarizer.word_tokenize := λ t, Ok (split t);
  Summarizer.stopwords := Ok ["the"; "is"; "of"; "a"; "in"; "by"; "and"];
  Summarizer.load_pipeline := λ _, Raise unavailable
|}.

(** NLTK has its tokenizers, but the stop-word corpus was never
    downloaded. *)
Definition no_stopwords_env : Summarizer.env := {|
  Summarizer.sent_tokenize := λ t, Ok (period_tokenize t);
  Summarizer.word_tokenize := λ t, Ok (split t);
  Summarizer.stopwords := Raise (mk_exn LookupError "Resource stopwords not found.");
  Summarizer.load_pipeline := λ _, Raise unavailable
|}.

(** A pipeline that loads and then fails on every call. *)
Definition broken_pipeline : Summarizer.pipeline :=
  λ _ _ _, Raise (mk_exn RuntimeError "CUDA out of memory").

Definition broken_env : Summarizer.env := {|
  Summarizer.sent_tokenize := λ t, Ok (period_tokenize t);
  Summarizer.word_tokenize := λ t, Ok (split t);
  Summarizer.stopwords := Ok ["the"; "is"; "of"; "a"; "in"; "by"; "and"];
  Summarizer.load_pipeline := λ _, Ok broken_pipeline
|}.

(** No audio file anywhere. *)
Definition empty_disk : Transcriber.env := {|
  Transcriber.path_exists := λ _, false;
  Transcriber.aai_transcribe := λ _ _, Raise (mk_exn OtherError "unreachable");
  Transcriber.elapsed_time := Qc_of_Z 0;
  Transcriber.now := "2024-01-01T10:00:00";
  Transcriber.round2 := λ q, q
|}.

(** A text analyzer with its libraries: sentences end at full stops, words
    are split at blanks, nouns are what the tagger sees, and the readability
    scores are those of a plain text. *)
Definition reader : TextAnalyzer.env := {|
  TextAnalyzer.sent_tokenize := λ t, Ok (period_tokenize t);
  TextAnalyzer.word_tokenize := λ t, Ok (split t);
  TextAnalyzer.stopwords := Ok ["the"; "is"; "of"; "a"; "in"; "by"; "and"];
  TextAnalyzer.download_stopwords := Ok tt;
  TextAnalyzer.stopwords_again := Ok ["the"; "is"; "of"; "a"; "in"; "by"; "and"];
  TextAnalyzer.pos_tag := λ words, Ok (map (λ w, (w, "NN")) words);
  TextAnalyzer.flesch_reading_ease := λ _, Ok (Qc_of_Z 65);
  TextAnalyzer.flesch_kincaid_grade := λ _, Ok (Qc_of_Z 8);
  TextAnalyzer.gunning_fog := λ _, Ok (Qc_of_Z 10);
  TextAnalyzer.automated_readability_index := λ _, Ok (Qc_of_Z 9);
  TextAnalyzer.coleman_liau_index := λ _, Ok (Qc_of_Z 11);
  TextAnalyzer.syllable_count := λ w, Ok (Z.of_nat (len w / 3))
|}.

(** A text analyzer on a machine without the NLTK data and without
    [textstat]. *)
Definition no_reader : TextAnalyzer.env :=
  let lookup_error {A} : res A :=
    Raise (mk_exn LookupError "Resource punkt_tab not found.") in
  let name_error {A} : res A :=
    Raise (mk_exn OtherError "name 'textstat' is not defined") in {|
  TextAnalyzer.sent_tokenize := λ _, lookup_error;
  TextAnalyzer.word_tokenize := λ _, lookup_error;
  TextAnalyzer.stopwords := lookup_error;
  TextAnalyzer.download_stopwords := Ok tt;
  TextAnalyzer.stopwords_again := lookup_error;
  TextAnalyzer.pos_tag := λ _, lookup_error;
  TextAnalyzer.flesch_reading_ease := λ _, name_error;
  TextAnalyzer.flesch_kincaid_grade := λ _, name_error;
  TextAnalyzer.gunning_fog := λ _, name_error;
  TextAnalyzer.automated_readability_index := λ _, name_error;
  TextAnalyzer.coleman_liau_index := λ _, name_error;
  TextAnalyzer.syllable_count := λ _, name_error
|}.

(** An operating system that answers: empty directories, files of three
    bytes written at time 0, a recording of 95.5 seconds, and a JSON codec
    that knows one document. *)
Definition quiet_os : FileHandler.os := {|
  FileHandler.json_dump := λ _, ("{}", None);
  FileHandler.json_load := λ _, Ok ∅;
  FileHandler.getsize := λ _, Ok 3%Z;
  FileHandler.get_duration := λ _, Ok (Qc_of_Z 191 / Qc_of_Z 2)%Qc;
  FileHandler.iterdir := λ _, Ok [];
  FileHandler.is_file := λ _, true;
  FileHandler.st_mtime := λ _, Ok (Qc_of_Z 0);
  FileHandler.st_size := λ _, Ok 3%Z;
  FileHandler.now := Qc_of_Z 1704103200
|}.

(** An operating system that refuses: no file is found, [librosa] is not
    installed, the directories cannot be listed and nothing can be encoded
    or decoded. *)
Definition deaf_os : FileHandler.os := {|
  FileHandler.json_dump := λ _,
    ("{", Some (mk_exn TypeError "Object of type set is not JSON serializable"));
  FileHandler.json_load := λ _,
    Raise (mk_exn JSONDecodeError "Expecting value: line 1 column 1 (char 0)");
  FileHandler.getsize := λ p, Raise (FileHandler.missing p);
  FileHandler.get_duration := λ _,
    Raise (mk_exn ImportError "No module named 'librosa'");
  FileHandler.iterdir := λ p, Raise (FileHandler.missing p);
  FileHandler.is_file := λ _, false;
  FileHandler.st_mtime := λ p, Raise (FileHandler.missing p);
  FileHandler.st_size := λ p, Raise (FileHandler.missing p);
  FileHandler.now := Qc_of_Z 1704103200
|}.

(** The first sentence of [lecture_text]. *)
Definition first_sentence : string :=
  "Photosynthesis is the process by which green plants convert sunlight into chemical energy.".

(** Two sentences with the verb that [quiz_env] knows how to negate. *)
Definition two_sentences : list string :=
  ["Water is split during the light reactions of photosynthesis.";
   "Photosynthesis is the process by which green plants make sugar."].

(** Two questions as the generator writes them. *)
Definition two_questions : list QuizGenerator.question :=
  [QuizGenerator.mk_question "true_false" "Plants are green." None "True"
     "This statement is directly from the lecture.";
   QuizGenerator.mk_question "fill_blank"
     ("Fill in the blank:" +:+ NL +:+ NL +:+ "______ molecules absorb light.") None
     "chlorophyll" "The complete sentence is: 'Chlorophyll molecules absorb light.'"].

(** Seventeen words, one a second. *)
Definition spoken : list Transcriber.word :=
  imap (λ i w, Transcriber.mk_word w (1000 * Z.of_nat i) (1000 * Z.of_nat i + 900))
       ["today"; "we"; "look"; "at"; "how"; "green"; "plants"; "turn"; "sunlight";
        "into"; "sugar"; "and"; "why"; "that"; "matters"; "so"; "much"].

(** A service that answers every request with the same transcript. *)
Definition studio : Transcriber.env := {|
  Transcriber.path_exists := λ _, true;
  Transcriber.aai_transcribe := λ _ _,
    Ok (Transcriber.mk_transcript Transcriber.completed ""
          (Some "today we look at how green plants turn sunlight into sugar and why that matters so much")
          (Some spoken)
          (Some (Transcriber.mk_json_response (Some "en") (Some (Qc_of_Z 17)))));
  Transcriber.elapsed_time := Qc_of_Z 3;
  Transcriber.now := "2024-01-01T10:00:00";
  Transcriber.round2 := λ q, q
|}.

(** A disk with the audio and the transcript of lecture 1 and the
    transcript of lecture 2. *)
Definition shelf : FileHandler.disk := {|
  FileHandler.files :=
    <["data/uploads/20240101_100000_cells.mp3" := "ID3"]>
    (<["data/transcripts/transcript_1.txt" := "Cells divide."]>
    (<["data/transcripts/transcript_2.txt" := "Plants are green."]> ∅));
  FileHandler.locked := ∅;
  FileHandler.screen := []
|}.

(** The same disk, with the transcript of lecture 1 open in another
    program. *)
Definition stuck_shelf : FileHandler.disk := {|
  FileHandler.files := FileHandler.files shelf;
  FileHandler.locked := {["data/transcripts/transcript_1.txt"]};
  FileHandler.screen := []
|}.

End Samples.

(** ** The public operations, side by side *)
Module Wrappers.

(** Everything outside the program that its operations consult, and the
    state they run in. *)
Record outside := mk_outside {
  quiz : QuizGenerator.env;
  nlp : Summarizer.env;
  analyzer : TextAnalyzer.env;
  speech : Transcriber.env;
  uploads : FileHandler.env;
  os : FileHandler.os;
  disk : FileHandler.disk;
  store : StateManager.world;
  screen : St.ui
}.

(** Public operations of the wrapper classes: every one whose whole body
    sits in a [try], and three that have no such handler. *)
Inductive call :=
  | Transcribe (audio_path : string) (language : option string)
  | LoadModel (s : Summarizer.self)
  | Summarize (s : Summarizer.self) (text : string) (max_length min_length : nat)
              (style : string)
  | Analyze (text : string)
  | GetBasicStats (text : string)
  | GetReadabilityScores (text : string)
  | GetWordFrequency (text : string) (top_n : nat)
  | ExtractKeywords (text : string) (num_keywords : nat)
  | AnalyzeSentiment (text : string)
  | ExtractTopics (text : string)
  | AnalyzeComplexity (text : string)
  | CompareTranscripts (text1 text2 : string)
  | GenerateQuiz (text : string) (num_questions : nat) (difficulty : string)
  | GenerateFlashcards (text : string) (num_cards : nat)
  | GradeQuiz (questions : list dict) (answers : gmap nat value)
  | SaveUploadedFile (f : FileHandler.uploaded_file)
  | SaveTranscript (lecture_id : Z) (transcript_text : string)
  | LoadTranscript (lecture_id : Z)
  | SaveSummary (lecture_id : Z) (summary_data : dict)
  | LoadSummary (lecture_id : Z)
  | DeleteLectureFiles (lecture_id : Z) (audio_path : option string)
  | GetFileSize (file_path : string)
  | GetAudioDuration (file_path : string)
  | CleanupOldFiles (days : Z)
  | GetStorageInfo
  | LoadDatabase
  | SaveDatabase (data : StateManager.database)
  | AddLecture (now : string) (lecture_data : dict).

Definition raised {A} (r : res A) : option exn :=
  match r with
  | Raise e => Some e
  | Ok _ => None
  end.

(** The exception that leaves the operation, if one does. *)
Definition escapes (W : outside) (c : call) : option exn :=
  match c with
  | Transcribe p l => raised (Transcriber.transcribe (speech W) p l)
  | LoadModel s => raised (Summarizer.load_model_guarded (nlp W) s).1
  | Summarize s t a b st => raised (Summarizer.summarize (nlp W) s t a b st).1
  | Analyze t => raised (TextAnalyzer.analyze (analyzer W) t (screen W)).1
  | GetBasicStats t => raised (TextAnalyzer.get_basic_stats (analyzer W) t (screen W)).1
  | GetReadabilityScores t =>
      raised (TextAnalyzer.get_readability_scores (analyzer W) t (screen W)).1
  | GetWordFrequency t n =>
      raised (TextAnalyzer.get_word_frequency (analyzer W) t n (screen W)).1
  | ExtractKeywords t n =>
      raised (TextAnalyzer.extract_keywords (analyzer W) t n (screen W)).1
  | AnalyzeSentiment t => raised (TextAnalyzer.analyze_sentiment (analyzer W) t (screen W)).1
  | ExtractTopics t => raised (TextAnalyzer.extract_topics (analyzer W) t (screen W)).1
  | AnalyzeComplexity t =>
      raised (TextAnalyzer.analyze_complexity (analyzer W) t (screen W)).1
  | CompareTranscripts t1 t2 =>
      raised (TextAnalyzer.compare_transcripts (analyzer W) t1 t2 (screen W)).1
  | GenerateQuiz t n d => raised (QuizGenerator.generate_quiz (quiz W) t n d (screen W)).1
  | GenerateFlashcards t n =>
      raised (QuizGenerator.generate_flashcards (quiz W) t n (screen W)).1
  | GradeQuiz q a => raised (QuizGenerator.grade_quiz q a (screen W)).1
  | SaveUploadedFile f =>
      raised (FileHandler.save_uploaded_file (uploads W) f (screen W)).1
  | SaveTranscript i t => raised (FileHandler.save_transcript i t (disk W)).1
  | LoadTranscript i => raised (FileHandler.load_transcript i (disk W)).1
  | SaveSummary i d => raised (FileHandler.save_summary (os W) i d (disk W)).1
  | LoadSummary i => raised (FileHandler.load_summary (os W) i (disk W)).1
  | DeleteLectureFiles i a => raised (FileHandler.delete_lecture_files i a (disk W)).1
  | GetFileSize p => raised (FileHandler.get_file_size (os W) p (disk W)).1
  | GetAudioDuration p => raised (FileHandler.get_audio_duration (os W) p (disk W)).1
  | CleanupOldFiles n => raised (FileHandler.cleanup_old_files (os W) n (disk W)).1
  | GetStorageInfo => raised (FileHandler.get_storage_info (os W) (disk W)).1
  | LoadDatabase => raised (StateManager.load_database (store W)).1
  | SaveDatabase d => raised (StateManager.save_database d (store W)).1
  | AddLecture now d => raised (StateManager.add_lecture now d (store W)).1
  end.

(** The operations whose whole body sits in [try: ... except Exception]
    (or a bare [except]). *)
Definition guarded (c : call) : bool :=
  match c with
  | Transcribe _ _ | Summarize _ _ _ _ _ | AddLecture _ _ => false
  | _ => true
  end.

(** In state [s] the operation [op] does what the [body] of its [try] block
    does, except that an exception of the body comes out as the [sentinel]
    value, in the state the body had reached, after the handler's
    [report]. *)
Definition catches {S A} (op body : Py.M S A) (sentinel : exn → A)
    (report : exn → S → S) (s : S) : Prop :=
  match body s with
  | (Ok a, s') => op s = (Ok a, s')
  | (Raise e, s') => op s = (Ok (sentinel e), report e s')
  end.

(** The handlers that show their exception through [st.error]. *)
Definition shows (prefix : string) (e : exn) (log : St.ui) : St.ui :=
  log ++ [St.error (prefix +:+ exn_msg e)].

Definition shows_on_disk (prefix : string) (e : exn) (d : FileHandler.disk)
  : FileHandler.disk :=
  FileHandler.mk_disk (FileHandler.files d) (FileHandler.locked d)
    (FileHandler.screen d ++ [St.error (prefix +:+ exn_msg e)]).

Definition shows_in_store (prefix : string) (e : exn) (w : StateManager.world)
  : StateManager.world :=
  StateManager.mk_world (StateManager.db_file w) (StateManager.writable w)
    (StateManager.writes w) (StateManager.shown w ++ [prefix +:+ exn_msg e]).

(** The handlers that are silent. *)
Definition silent {S} (e : exn) (s : S) : S := s.

(** The dicts that stand for a failure. *)
Definition error_dict (e : exn) : dict := {["error" := VStr (exn_msg e)]}.
Definition unknown_sentiment : dict :=
  <["sentiment" := VStr "Unknown"]> (<["score" := VInt 0]> ∅).
Definition unknown_storage : dict :=
  <["total_size" := VStr "Unknown"]> (<["file_count" := VInt 0]> ∅).

(** A failure inside a guarded operation comes out as the operation's
    sentinel, after a message on the screen where the handler shows one.
    The three operations without a handler of their own surface nothing. *)
Definition surfaced (W : outside) (c : call) : Prop :=
  match c with
  | Transcribe _ _ | Summarize _ _ _ _ _ | AddLecture _ _ => False
  | LoadModel s =>
      catches (Summarizer.load_model_guarded (nlp W)) (Summarizer.load_model_body (nlp W))
              (λ _, false) (λ _, Summarizer.switch_off) s
  | Analyze t =>
      catches (TextAnalyzer.analyze (analyzer W) t) (TextAnalyzer.analyze_body (analyzer W) t)
              (λ _, None) (shows "Error during analysis: ") (screen W)
  | GetBasicStats t =>
      catches (TextAnalyzer.get_basic_stats (analyzer W) t)
              (lift (TextAnalyzer.get_basic_stats_body (analyzer W) t))
              error_dict silent (screen W)
  | GetReadabilityScores t =>
      catches (TextAnalyzer.get_readability_scores (analyzer W) t)
              (lift (TextAnalyzer.get_readability_scores_body (analyzer W) t))
              error_dict silent (screen W)
  | GetWordFrequency t n =>
      catches (TextAnalyzer.get_word_frequency (analyzer W) t n)
              (lift (TextAnalyzer.get_word_frequency_body (analyzer W) t n))
              (λ _, []) silent (screen W)
  | ExtractKeywords t n =>
      catches (TextAnalyzer.extract_keywords (analyzer W) t n)
              (lift (TextAnalyzer.extract_keywords_body (analyzer W) t n))
              (λ _, []) silent (screen W)
  | AnalyzeSentiment t =>
      catches (TextAnalyzer.analyze_sentiment (analyzer W) t)
              (lift (TextAnalyzer.analyze_sentiment_body (analyzer W) t))
              (λ _, unknown_sentiment) silent (screen W)
  | ExtractTopics t =>
      catches (TextAnalyzer.extract_topics (analyzer W) t)
              (TextAnalyzer.extract_topics_body (analyzer W) t)
              (λ _, []) silent (screen W)
  | AnalyzeComplexity t =>
      catches (TextAnalyzer.analyze_complexity (analyzer W) t)
              (lift (TextAnalyzer.analyze_complexity_body (analyzer W) t))
              (λ _, ∅) silent (screen W)
  | CompareTranscripts t1 t2 =>
      catches (TextAnalyzer.compare_transcripts (analyzer W) t1 t2)
              (TextAnalyzer.compare_transcripts_body (analyzer W) t1 t2)
              (λ _, None) silent (screen W)
  | GenerateQuiz t n d =>
      catches (QuizGenerator.generate_quiz (quiz W) t n d)
              (QuizGenerator.generate_quiz_body (quiz W) t n d)
              (λ _, []) (shows "Error generating quiz: ") (screen W)
  | GenerateFlashcards t n =>
      catches (QuizGenerator.generate_flashcards (quiz W) t n)
              (QuizGenerator.generate_flashcards_body (quiz W) t n)
              (λ _, []) (shows "Error generating flashcards: ") (screen W)
  | GradeQuiz q a =>
      catches (QuizGenerator.grade_quiz q a) (QuizGenerator.grade_quiz_body q a)
              (λ _, None) (shows "Error grading quiz: ") (screen W)
  | SaveUploadedFile f =>
      catches (FileHandler.save_uploaded_file (uploads W) f)
              (FileHandler.save_uploaded_file_body (uploads W) f)
              (λ _, (false, None, None)) (shows "Error saving file: ") (screen W)
  | SaveTranscript i t =>
      catches (FileHandler.save_transcript i t) (FileHandler.save_transcript_body i t)
              (λ _, (false, None)) (shows_on_disk "Error saving transcript: ") (disk W)
  | LoadTranscript i =>
      catches (FileHandler.load_transcript i) (FileHandler.load_transcript_body i)
              (λ _, None) (shows_on_disk "Error loading transcript: ") (disk W)
  | SaveSummary i d =>
      catches (FileHandler.save_summary (os W) i d) (FileHandler.save_summary_body (os W) i d)
              (λ _, (false, None)) (shows_on_disk "Error saving summary: ") (disk W)
  | LoadSummary i =>
      catches (FileHandler.load_summary (os W) i) (FileHandler.load_summary_body (os W) i)
              (λ _, None) (shows_on_disk "Error loading summary: ") (disk W)
  | DeleteLectureFiles i a =>
      catches (FileHandler.delete_lecture_files i a)
              (FileHandler.delete_lecture_files_body i a)
              (λ _, false) (shows_on_disk "Error deleting files: ") (disk W)
  | GetFileSize p =>
      catches (FileHandler.get_file_size (os W) p) (FileHandler.get_file_size_body (os W) p)
              (λ _, "Unknown") silent (disk W)
  | GetAudioDuration p =>
      catches (FileHandler.get_audio_duration (os W) p)
              (FileHandler.get_audio_duration_body (os W) p)
              (λ _, ("Unknown", VInt 0)) silent (disk W)
  | CleanupOldFiles n =>
      catches (FileHandler.cleanup_old_files (os W) n)
              (FileHandler.cleanup_old_files_body (os W) n)
              (λ _, (false, 0)) (shows_on_disk "Error during cleanup: ") (disk W)
  | GetStorageInfo =>
      catches (FileHandler.get_storage_info (os W))
              (lift (FileHandler.get_storage_info_body (os W)))
              (λ _, unknown_storage) silent (disk W)
  | LoadDatabase =>
      catches StateManager.load_database StateManager.load_database_body
              (λ _, None) (shows_in_store "Error loading database: ") (store W)
  | SaveDatabase d =>
      catches (StateManager.save_database d) (StateManager.save_database_body d)
              (λ _, false) (shows_in_store "Error saving database: ") (store W)
  end.

(** A machine without the audio file, with NLTK and its corpora, a disk
    that answers and an empty data directory. *)
Definition without_audio : outside := {|
  quiz := Samples.quiz_env;
  nlp := Samples.offline_env;
  analyzer := Samples.reader;
  speech := Samples.empty_disk;
  uploads := FileHandler.mk_env "20240101_100000" "2024-01-01T10:00:00" (λ _ _, Ok tt);
  os := Samples.quiet_os;
  disk := Samples.shelf;
  store := StateManager.fresh_world;
  screen := []
|}.

(** A machine on which nothing outside answers: no NLTK data, no
    [transformers], no [textstat] and no [librosa], a disk that refuses every
    access, and a database file that was never created and cannot be. *)
Definition bare : outside := {|
  quiz := Samples.no_punkt_env;
  nlp := Samples.no_stopwords_env;
  analyzer := Samples.no_reader;
  speech := Samples.empty_disk;
  uploads := FileHandler.mk_env "20240101_100000" "2024-01-01T10:00:00"
               (λ p _, Raise (FileHandler.denied p));
  os := Samples.deaf_os;
  disk := Samples.stuck_shelf;
  store := StateManager.mk_world StateManager.NoFile false 0 [];
  screen := []
|}.

(** One call of each guarded operation. *)
Definition one_of_each : list call :=
  [LoadModel Summarizer.init; Analyze Samples.first_sentence;
   GetBasicStats Samples.first_sentence; GetReadabilityScores Samples.first_sentence;
   GetWordFrequency Samples.first_sentence 20; ExtractKeywords Samples.first_sentence 15;
   AnalyzeSentiment Samples.first_sentence; ExtractTopics Samples.first_sentence;
   AnalyzeComplexity Samples.first_sentence;
   CompareTranscripts Samples.first_sentence Samples.long_sentence;
   GenerateQuiz Samples.lecture_text 5 "medium"; GenerateFlashcards Samples.lecture_text 3;
   GradeQuiz [{["type" := VStr "true_false"]}] ∅;
   SaveUploadedFile (FileHandler.mk_uploaded_file "cells.mp3" 3 "audio/mpeg" "ID3");
   SaveTranscript 1 "Cells divide."; LoadTranscript 1;
   SaveSummary 1 {["summary" := VStr "Cells divide."]}; LoadSummary 1;
   DeleteLectureFiles 1 None; GetFileSize "data/uploads/cells.mp3";
   GetAudioDuration "data/uploads/cells.mp3"; CleanupOldFiles 30; GetStorageInfo;
   LoadDatabase; SaveDatabase StateManager.initial_data].

End Wrappers.

(** * Theorems *)
Import Str.

(** ** Python built-ins *)
Section PyFacts.

Lemma int_of_num_of v z : int_of v = Some z → num_of v = Some (Qc_of_Z z).
Proof. destruct v; simpl; intros [= <-]; reflexivity. Qed.

(** Adding two ints (or bools) gives the int that is their sum. *)
Lemma py_add_int a b x y :
  int_of a = Some x → int_of b = Some y → py_add a b = Ok (VInt (x + y)).
Proof. unfold py_add. by intros -> ->. Qed.

(** Adding two numbers of which one is a float gives the double nearest to
    the sum. *)
Lemma py_add_float a b x y :
  num_of a = Some x → num_of b = Some y → int_of a = None ∨ int_of b = None →
  py_add a b = Ok (VFloat (fadd x y)).
Proof.
  unfold py_add. intros -> -> [->| ->]; [done|]. by destruct (int_of a).
Qed.

(** A sum with a number on the right only succeeds with a number on the
    left. *)
Lemma py_add_num_l a b v y :
  py_add a b = Ok v → num_of b = Some y → ∃ x, num_of a = Some x.
Proof.
  unfold py_add. intros Hadd Hb.
  destruct (num_of a) as [x|] eqn:Ha; [by eexists|].
  assert (int_of a = None) as Hia.
  { destruct (int_of a) eqn:E; [|done].
    apply int_of_num_of in E. congruence. }
  rewrite Hia in Hadd.
  destruct a, b; simpl in *; congruence.
Qed.

Lemma lift_inv {S A} (r r' : res A) (w w' : S) : lift r w = (r', w') → r' = r ∧ w' = w.
Proof. unfold lift. by intros [= <- <-]. Qed.

Lemma ret_inv {S A} (a : A) r (w w' : S) : ret a w = (r, w') → r = Ok a ∧ w' = w.
Proof. unfold ret. by intros [= <- <-]. Qed.

Lemma bind_inv {S A B} (m : Py.M S A) (k : A → Py.M S B) w r w' :
  bind m k w = (r, w') →
  (∃ a w1, m w = (Ok a, w1) ∧ k a w1 = (r, w')) ∨
  (∃ e, m w = (Raise e, w') ∧ r = Raise e).
Proof.
  unfold bind. destruct (m w) as [[a|e] w1]; [eauto|].
  intros [= <- <-]. eauto.
Qed.

Lemma bind_ok {S A B} (m : Py.M S A) (k : A → Py.M S B) w a w1 :
  m w = (Ok a, w1) → bind m k w = k a w1.
Proof. unfold bind. by intros ->. Qed.

Lemma bind_lift {S A B} (r : res A) (k : A → Py.M S B) w :
  bind (lift r) k w = match r with Ok a => k a w | Raise e => (Raise e, w) end.
Proof. unfold bind, lift. by destruct r. Qed.

Lemma bind_ret {S A B} (a : A) (k : A → Py.M S B) (w : S) : bind (ret a) k w = k a w.
Proof. done. Qed.

Lemma bind_assoc {S A B C} (m : Py.M S A) (f : A → Py.M S B) (g : B → Py.M S C) w :
  bind (bind m f) g w = bind m (λ x, bind (f x) g) w.
Proof. unfold bind. by destruct (m w) as [[a|e] w1]. Qed.

Lemma rbind_inv {A B} (r : res A) (k : A → res B) b :
  rbind r k = Ok b → ∃ a, r = Ok a ∧ k a = Ok b.
Proof. destruct r; [eauto|done]. Qed.

End PyFacts.

(** ** Floats *)
Section FloatFacts.
Open Scope Z_scope.

Lemma round_half_even_between n d :
  0 < d → n / d ≤ round_half_even n d ≤ n / d + 1 ∧
          (n mod d = 0 → round_half_even n d = n / d).
Proof.
  intros Hd. unfold round_half_even.
  destruct (2 * (n mod d) <? d) eqn:H1; [lia|].
  apply Z.ltb_ge in H1. split.
  - destruct (d <? 2 * (n mod d)); [lia|]. destruct (Z.even (n / d)); lia.
  - intros H0. lia.
Qed.

(** Rounding a quotient that is at most an integer gives at most that
    integer. *)
Lemma round_half_even_le n d J :
  0 < d → n ≤ J * d → round_half_even n d ≤ J.
Proof.
  intros Hd Hn. destruct (round_half_even_between n d Hd) as [[_ Hup] Hex].
  pose proof (Z.div_mod n d ltac:(lia)) as Hdm.
  pose proof (Z.mod_pos_bound n d Hd) as Hm.
  assert (n / d ≤ J) as Hq by (apply Z.div_le_upper_bound; lia).
  destruct (decide (n / d = J)) as [Heq|Hne]; [|lia].
  rewrite Hex; [lia|]. nia.
Qed.

Lemma round_half_even_nonneg n d : 0 < d → 0 ≤ n → 0 ≤ round_half_even n d.
Proof.
  intros Hd Hn. destruct (round_half_even_between n d Hd) as [[Hlo _] _].
  pose proof (Z.div_pos n d Hn Hd). lia.
Qed.

(** Rounding to a double keeps a positive quotient between 0 and any
    integer bound below 2^51: integers of that size are doubles. *)
Lemma fl_pos_bounds a b r :
  0 < a → 0 < b → a ≤ r * b → r < 2 ^ 51 →
  (0 ≤ fl_pos a b ≤ Qc_of_Z r)%Qc.
Proof.
  intros Ha Hb Hab Hr. unfold fl_pos.
  set (e0 := Z.log2 a - Z.log2 b).
  match goal with |- context [Z.max (?x - 52) _] => set (e := x) end.
  assert (0 < r) as Hrpos by nia.
  assert (e ≤ 52) as He.
  { assert (e ≤ e0) as Hle
      by (unfold e; destruct (if 0 <=? e0 then _ else _); lia).
    assert (Z.log2 a ≤ Z.log2 (r * b)) as H1 by (apply Z.log2_le_mono; lia).
    pose proof (Z.log2_mul_above r b ltac:(lia) ltac:(lia)) as H2.
    assert (Z.log2 r < 51) as H3 by (apply Z.log2_lt_pow2; lia).
    unfold e0 in *. lia. }
  set (s := Z.max (e - 52) (-1074)).
  assert (s ≤ 0) as Hs by lia.
  assert (0 < 2 ^ (- s)) as Hpow by (apply Z.pow_pos_nonneg; lia).
  destruct (0 <=? s) eqn:Hs0.
  - apply Z.leb_le in Hs0. assert (s = 0) as -> by lia.
    rewrite Z.pow_0_r, !Z.mul_1_r.
    pose proof (round_half_even_le a b r Hb Hab).
    pose proof (round_half_even_nonneg a b Hb ltac:(lia)).
    split; [rewrite <-Z2Qc_inj_0|]; by apply (proj1 (Z2Qc_inj_le _ _)).
  - pose proof (round_half_even_le (a * 2 ^ (- s)) b (r * 2 ^ (- s)) Hb ltac:(nia)) as Hup.
    pose proof (round_half_even_nonneg (a * 2 ^ (- s)) b Hb ltac:(nia)) as Hlo.
    match goal with |- context [Qc_of_Z (round_half_even ?x b)] =>
      set (m := round_half_even x b) in * end.
    assert (0 < Qc_of_Z (2 ^ (- s)))%Qc as Hp.
    { rewrite <-Z2Qc_inj_0. by apply (proj1 (Z2Qc_inj_lt _ _)). }
    split.
    + unfold Qcdiv. apply Qcmult_nonneg_nonneg.
      * rewrite <-Z2Qc_inj_0. by apply (proj1 (Z2Qc_inj_le _ _)).
      * apply Qclt_le_weak. by apply Qcinv_pos.
    + assert (Qc_of_Z r = Qc_of_Z (r * 2 ^ (- s)) / Qc_of_Z (2 ^ (- s)))%Qc as ->.
      { rewrite Z2Qc_inj_mul. unfold Qcdiv.
        rewrite <-Qcmult_assoc, Qcmult_inv_r, Qcmult_1_r; [done|].
        by apply not_symmetry, Qclt_not_eq. }
      unfold Qcdiv. apply Qcmult_le_compat_r.
      * by apply (proj1 (Z2Qc_inj_le _ _)).
      * apply Qclt_le_weak. by apply Qcinv_pos.
Qed.

(** The same for [fl]: rounding never leaves an interval [0, r] with [r] a
    small integer. *)
Lemma fl_bounds (q : Qc) (r : Z) :
  (0 ≤ q ≤ Qc_of_Z r)%Qc → r < 2 ^ 51 → (0 ≤ fl q ≤ Qc_of_Z r)%Qc.
Proof.
  intros [Hlo Hhi] Hr. unfold fl.
  destruct (Qnum q) as [|a|a] eqn:Hn.
  - done.
  - apply fl_pos_bounds; try done.
    unfold Qcle, Qle in Hhi. simpl in Hhi. rewrite Hn in Hhi. lia.
  - unfold Qcle, Qle in Hlo. simpl in Hlo. rewrite Hn in Hlo. lia.
Qed.

End FloatFacts.

(** ** Strings *)
Section StrFacts.

Lemma chars_str cs : chars (str cs) = cs.
Proof. apply String.list_ascii_of_string_of_list_ascii. Qed.

Lemma str_chars s : str (chars s) = s.
Proof. apply String.string_of_list_ascii_of_string. Qed.

Lemma drop_while_map (p : char → bool) (f : char → char) cs :
  (∀ c, p (f c) = p c) →
  drop_while p (map f cs) = map f (drop_while p cs).
Proof.
  intros Hp. induction cs as [|c cs IH]; [done|].
  simpl. rewrite Hp. by destruct (p c).
Qed.

(** Lowering a letter never makes or unmakes a blank. *)
Lemma isspace_lower_char c : isspace (lower_char c) = isspace c.
Proof. destruct c as [[] [] [] [] [] [] [] []]; reflexivity. Qed.

(** [s.lower().strip()] and [s.strip().lower()] are the same string. *)
Lemma strip_lower s : strip (lower s) = lower (strip s).
Proof.
  unfold strip, strip_by, lower. rewrite !chars_str. f_equal.
  rewrite drop_while_map by apply isspace_lower_char.
  rewrite <-map_rev, drop_while_map by apply isspace_lower_char.
  by rewrite map_rev.
Qed.

Example split_runs_of_blanks :
  split "  The  Calvin cycle, in short. " = ["The"; "Calvin"; "cycle,"; "in"; "short."].
Proof. reflexivity. Qed.

Example strip_punctuation : strip_chars ".,!?;:" "...cycle,!" = "cycle".
Proof. reflexivity. Qed.

Example replace_every_occurrence :
  replace "ab" "X" "abcabab" = "XcXX" ∧ replace "" "-" "abc" = "-a-b-c-" ∧
  replace_first "b" "XY" "abcb" = "aXYcb".
Proof. repeat split; reflexivity. Qed.

Example istitle_cases :
  istitle "Calvin" = true ∧ istitle "Calvin Cycle" = true ∧
  istitle "CaLvin" = false ∧ istitle "calvin" = false ∧ istitle "42" = false.
Proof. repeat split; reflexivity. Qed.

End StrFacts.

(** ** StateManager *)
Section StateManagerFacts.
Import StateManager.

Lemma untouched_refl w : untouched w w.
Proof. by split. Qed.

Lemma untouched_trans w1 w2 w3 : untouched w1 w2 → untouched w2 w3 → untouched w1 w3.
Proof. intros [??] [??]. split; congruence. Qed.

Lemma load_database_inv w r w' :
  load_database w = (r, w') →
  untouched w w' ∧
  ((∃ d, db_file w = Doc d ∧ r = Ok (Some d) ∧ w' = w) ∨
   (loadable w = false ∧ r = Ok None)).
Proof.
  unfold load_database, load_database_body, try_catch, bind, open_read, lift, json_load, st_error, ret,
    loadable, untouched.
  destruct (db_file w) eqn:E; intros [= <- <-]; cbn; rewrite ?E; eauto 10.
Qed.

(** The three ways [save_database] can end: written, refused at [open], or
    stopped inside [json.dump] with the file cut short. *)
Lemma save_database_inv d w r w' :
  save_database d w = (r, w') →
  (r = Ok true ∧ wrote d w w' ∧ writable w = true ∧ dumps d = true) ∨
  (r = Ok false ∧ untouched w w' ∧ writable w = false) ∨
  (r = Ok false ∧ spoiled w w' ∧ writable w = true ∧ dumps d = false).
Proof.
  unfold save_database, save_database_body, try_catch, bind, open_write, json_dump, st_error, ret,
    wrote, untouched, spoiled.
  destruct (writable w) eqn:Hw; cbn; [destruct (dumps d) eqn:Hd; cbn|];
    intros [= <- <-]; cbn; auto 10.
Qed.

Lemma save_database_ok d w :
  writable w = true → dumps d = true → save_database d w = (Ok true, written d w).
Proof.
  intros Hw Hd.
  unfold save_database, save_database_body, try_catch, bind, open_write, json_dump, ret, written.
  rewrite Hw. cbn. by rewrite Hd.
Qed.

(** Peels an operation apart, bind by bind, in every hypothesis that runs
    one. *)
Ltac inv_op :=
  repeat match goal with
  | H : bind _ _ _ = _ |- _ =>
      apply bind_inv in H as [(? & ? & ? & H)|(? & ? & ?)]
  | H : lift _ _ = _ |- _ => apply lift_inv in H as [? ?]
  | H : ret _ _ = _ |- _ => apply ret_inv in H as [? ?]
  | H : load_database _ = _ |- _ =>
      apply load_database_inv in H as [? [(? & ? & ? & ?)|[? ?]]]
  | H : save_database _ _ = _ |- _ =>
      apply save_database_inv in H as [(? & ? & ? & ?)|[(? & ? & ?)|(? & ? & ? & ?)]]
  | H : (match ?x with _ => _ end) _ = _ |- _ => destruct x eqn:?
  | E1 : db_file ?w = Doc _, E2 : db_file ?w = Doc _ |- _ => rewrite E1 in E2
  | _ => progress simplify_eq
  end.

Ltac run_perform H :=
  unfold count, perform;
  match goal with |- context [let '(_, _) := ?c in _] =>
    destruct c as [? ?] eqn:H end;
  unfold add_lecture, update_lecture, delete_lecture, update_settings,
    add_quiz_result, increment_quiz_count, clear_all in H; cbn [fst snd].

Lemma load_database_doc w d : db_file w = Doc d → load_database w = (Ok (Some d), w).
Proof.
  intros E.
  unfold load_database, load_database_body, try_catch, bind, open_read, lift, json_load, ret.
  by rewrite E.
Qed.

Lemma load_database_fails w :
  loadable w = false →
  ∃ w', load_database w = (Ok None, w') ∧ untouched w w' ∧
        length (shown w') = S (length (shown w)).
Proof.
  unfold loadable, load_database, load_database_body, try_catch, bind, open_read, lift, json_load,
    st_error, ret, untouched.
  destruct (db_file w) eqn:Hf; try done; intros _; eexists;
    (split; [reflexivity|]); cbn; rewrite length_app; simpl;
    repeat split; (done || lia).
Qed.

(** Running [save_database] on a changed document, with what the call makes
    of the flag. *)
Lemma save_outcome d w :
  let w' := (save_database d w).2 in
  if negb (writable w) then (save_database d w).1 = Ok false ∧ untouched w w'
  else if dumps d then (save_database d w).1 = Ok true ∧ wrote d w w'
  else (save_database d w).1 = Ok false ∧ spoiled w w'.
Proof.
  destruct (save_database d w) as [r w'] eqn:H. cbn.
  apply save_database_inv in H
    as [(-> & ? & -> & ->)|[(-> & ? & ->)|(-> & ? & -> & ->)]]; done.
Qed.





(** Each call is a load, the change in memory, and a save at the end. *)
Lemma perform_doc m w d :
  m ≠ MClearAll → db_file w = Doc d →
  perform m w =
    match modify m d with
    | Raise e => (raising m e, w)
    | Ok None => (failure m, w)
    | Ok (Some d') => (finish m d (save_database d' w).1, (save_database d' w).2)
    end.
Proof.
  intros Hm Hd. pose proof (load_database_doc w d Hd) as Hload.
  destruct m as [now ld|i u|i|st|now q|]; try done;
    unfold perform, add_lecture, update_lecture, delete_lecture, update_settings,
      add_quiz_result;
    rewrite (bind_ok _ _ _ _ _ Hload); cbn [modify]; unfold stamped.
  - rewrite bind_lift.
    destruct (getitem (analytics d) "total_lectures") as [n|e]; [|done].
    cbn [rbind]. rewrite bind_lift. destruct (py_add n (VInt 1)) as [n'|e]; [|done].
    cbn [rbind]. rewrite !lookup_insert_ne by done.
    destruct (ld !! "duration") as [dur|] eqn:Hdur.
    + rewrite bind_assoc, bind_lift.
      destruct (getitem _ "total_duration") as [t|e]; [|done].
      cbn [rbind]. rewrite bind_assoc, bind_lift.
      destruct (py_add t dur) as [t'|e]; [|done].
      cbn [rbind]. rewrite bind_ret. unfold bind.
      by destruct (save_database _ w) as [[[]|e] w'].
    + rewrite bind_ret. cbn [rbind]. unfold bind.
      by destruct (save_database _ w) as [[[]|e] w'].
  - rewrite bind_lift.
    destruct (update_first (lectures d) i u) as [[lects|]|e]; try done.
    cbn. by destruct (save_database _ w) as [[[]|e] w'].
  - rewrite bind_lift.
    destruct (remove_lecture (lectures d) i) as [lects|e]; [|done].
    cbn. by destruct (save_database _ w) as [[[]|e] w'].
  - by destruct (save_database _ w) as [[[]|e] w'].
  - rewrite bind_lift.
    destruct (bump_quizzes (analytics d)) as [an|e]; [|done].
    cbn. by destruct (save_database _ w) as [[[]|e] w'].
Qed.

Lemma perform_unloadable m w :
  m ≠ MClearAll → loadable w = false →
  (perform m w).1 = failure m ∧ untouched w (perform m w).2.
Proof.
  intros Hm Hl. destruct (load_database_fails w Hl) as (w1 & Hload & Hu & _).
  destruct m; try done;
    unfold perform, add_lecture, update_lecture, delete_lecture, update_settings,
      add_quiz_result; by rewrite (bind_ok _ _ _ _ _ Hload).
Qed.

(** C4, as the code has it: each of [add_lecture], [update_lecture],
    [delete_lecture], [update_settings] and [add_quiz_result] loads the
    whole document [d], changes it in memory
    to [modify m d] and hands that whole document to one [save_database].
    When the file does not load, the call returns its failure value and the
    store is untouched.  When the change raises (a key the document lacks) the
    exception leaves the call, and when [update_lecture] finds no lecture the
    call returns [False]; the store is untouched in both cases.  Otherwise the
    file is opened for writing once: a store that cannot be written is left
    untouched and the call fails; a document that [json.dump] accepts replaces
    the file and the call succeeds; a document that [json.dump] refuses leaves
    the file truncated, and the call fails. *)
Theorem mutation_read_modify_write (m : mutation) (w : world) :
  m ≠ MClearAll →
  let r := (perform m w).1 in
  let w' := (perform m w).2 in
  match db_file w with
  | Doc d =>
      match modify m d with
      | Raise e => r = raising m e ∧ untouched w w'
      | Ok None => r = failure m ∧ untouched w w'
      | Ok (Some d') =>
          if negb (writable w) then r = failure m ∧ untouched w w'
          else if dumps d' then r = success m d ∧ wrote d' w w'
          else r = failure m ∧ spoiled w w'
      end
  | _ => r = failure m ∧ untouched w w'
  end.
Proof.
  intros Hm. cbv zeta.
  destruct (db_file w) as [| |d] eqn:Hd.
  1,2: apply perform_unloadable; [done|]; unfold loadable; by rewrite Hd.
  rewrite (perform_doc m w d Hm Hd).
  destruct (modify m d) as [[d'|]|e]; cbn [fst snd];
    try (by split; [|apply untouched_refl]).
  pose proof (save_outcome d' w) as Hs. cbv zeta in Hs.
  destruct (negb (writable w)); [by destruct Hs as [-> ?]|].
  destruct (dumps d'); by destruct Hs as [-> ?].
Qed.

Lemma mutation_read_modify_write_witness :
  let add := MAddLecture "2024-01-03T10:00:00" third_lecture in
  let tagged := MAddLecture "2024-01-03T10:00:00" {["tags" := VOther "set"]} in
  let drop := MDeleteLecture 1 in
  let locked := mk_world (Doc two_uploads_data) false 3 [] in
  (add ≠ MClearAll ∧ (perform add two_uploads).1 = OId (Ok (Some 3%Z)) ∧
   ∃ d', modify add two_uploads_data = Ok (Some d') ∧
         wrote d' two_uploads (perform add two_uploads).2) ∧
  (tagged ≠ MClearAll ∧ (perform tagged two_uploads).1 = OId (Ok None) ∧
   spoiled two_uploads (perform tagged two_uploads).2) ∧
  (drop ≠ MClearAll ∧ (perform drop locked).1 = OFlag (Ok false) ∧
   untouched locked (perform drop locked).2) ∧
  (drop ≠ MClearAll ∧ (perform drop broken_file).1 = OFlag (Ok false) ∧
   untouched broken_file (perform drop broken_file).2).
Proof.
  cbv zeta.
  assert (∀ now ld, MAddLecture now ld ≠ MClearAll) as Ha by discriminate.
  assert (MDeleteLecture 1 ≠ MClearAll) as Hd by discriminate.
  split; [|split; [|split]]; (split; [done|]).
  - generalize (mutation_read_modify_write _ two_uploads (Ha "2024-01-03T10:00:00" third_lecture)).
    vm_compute. intros [H1 H2]. split; [exact H1|]. eexists. split; [reflexivity|exact H2].
  - generalize (mutation_read_modify_write _ two_uploads
                  (Ha "2024-01-03T10:00:00" {["tags" := VOther "set"]})).
    vm_compute. exact (λ H, H).
  - generalize (mutation_read_modify_write _ (mk_world (Doc two_uploads_data) false 3 []) Hd).
    vm_compute. exact (λ H, H).
  - generalize (mutation_read_modify_write _ broken_file Hd).
    vm_compute. exact (λ H, H).
Defined.

(** C4 as stated fails on [clear_all]: it never loads the database, so on a
    file that does not load it returns [True] and replaces the file. *)
Lemma clear_all_ignores_unloadable_file :
  ¬ (∀ m w, loadable w = false →
       is_failure (perform m w).1 = true ∧ untouched w (perform m w).2).
Proof.
  intros H.
  destruct (H MClearAll (mk_world Garbage true 0 []) eq_refl) as [Hf _].
  vm_compute in Hf. discriminate Hf.
Qed.

Lemma lookup_duration now id (ld : dict) :
  (<["created_at" := VStr now]> (<["id" := VInt id]> ld)) !! "duration" = ld !! "duration".
Proof. by rewrite !lookup_insert_ne. Qed.

Lemma getitem_inv (d : dict) k v : getitem d k = Ok v → d !! k = Some v.
Proof. unfold getitem. destruct (d !! k); by intros [= ->]. Qed.


Lemma bump_quizzes_inv an an' :
  bump_quizzes an = Ok an' →
  increased_by "total_quizzes" (VInt 1) an an' ∧
  an' !! "total_lectures" = an !! "total_lectures" ∧
  an' !! "total_duration" = an !! "total_duration".
Proof.
  unfold bump_quizzes, increased_by.
  intros (n & Hadd & [= <-])%rbind_inv.
  rewrite lookup_insert_eq, !lookup_insert_ne by done. eauto.
Qed.

(** [an[key] += v], as [increased_by] reads it. *)
Lemma counter_add (an : dict) key old new v :
  an !! key = Some old → py_add old v = Ok new →
  increased_by key v an (<[key := new]> an).
Proof.
  unfold increased_by. intros -> Hadd. exists new. cbn.
  by rewrite lookup_insert_eq.
Qed.

Lemma increased_by_frame key key' x v (an an' : dict) :
  key ≠ key' → increased_by key x an an' → increased_by key x an (<[key' := v]> an').
Proof.
  intros Hk (v' & ? & ?). exists v'. by rewrite lookup_insert_ne.
Qed.

Lemma modify_add_lecture now ld d d' :
  modify (MAddLecture now ld) d = Ok (Some d') →
  rolls_forward (CAddLecture now ld) (analytics d) (analytics d').
Proof.
  cbn [modify rolls_forward]. unfold stamped. rewrite lookup_duration.
  intros (n & Hn%getitem_inv & (n' & Hadd & H)%rbind_inv)%rbind_inv.
  apply rbind_inv in H as (an & Han & [= <-]). cbn [analytics].
  destruct (ld !! "duration") as [dur|].
  - apply rbind_inv in Han as (t & Ht%getitem_inv & (t' & Hadd' & [= <-])%rbind_inv).
    rewrite lookup_insert_ne in Ht by done.
    split; [by rewrite Hn|]. split; [|split; [|split]].
    + apply increased_by_frame; [done|]. by apply (counter_add _ _ n).
    + by rewrite !lookup_insert_ne.
    + by rewrite Ht.
    + exists t'. rewrite Ht, lookup_insert_eq. done.
  - injection Han as <-. split; [by rewrite Hn|]. split; [|split].
    + by apply (counter_add _ _ n).
    + by rewrite !lookup_insert_ne.
    + by rewrite !lookup_insert_ne.
Qed.

Lemma save_database_true d w :
  (save_database d w).1 = Ok true → wrote d w (save_database d w).2.
Proof.
  destruct (save_database d w) as [r w'] eqn:H. cbn. intros ->.
  by apply save_database_inv in H as [(_ & ? & _)|[(? & _)|(? & _)]].
Qed.

(** C7: a successful [add_lecture] raises [total_lectures] by 1 and
    [total_duration] by the lecture's duration when it has one, a successful
    [add_quiz_result] or [increment_quiz_count] raises [total_quizzes] by 1
    (from 0 where the counter was missing), and a successful
    [delete_lecture] leaves the analytics as they were.  The sums are
    Python's: exact on ints, rounded to the nearest double on floats. *)
Theorem analytics_counters_roll_forward (c : counted) (w : world) (d : database) :
  db_file w = Doc d → is_success (count c w).1 = true →
  ∃ d', db_file (count c w).2 = Doc d' ∧ rolls_forward c (analytics d) (analytics d').
Proof.
  intros Hd.
  assert (∀ m d', m ≠ MClearAll →
            is_success (finish m d (save_database d' w).1) = true →
            db_file (save_database d' w).2 = Doc d') as Hsave.
  { intros m d' Hm Hs. apply save_database_true.
    destruct (save_database d' w).1 as [[]|]; [done| |]; by destruct m. }
  destruct c as [now ld|now q| |i]; unfold count.
  - rewrite (perform_doc _ w d) by done.
    destruct (modify _ d) as [[d'|]|e] eqn:Hm; try done. cbn [fst snd]. intros Hs.
    exists d'. split; [by eapply Hsave; [|exact Hs]|]. by apply modify_add_lecture.
  - rewrite (perform_doc _ w d) by done.
    destruct (modify _ d) as [[d'|]|e] eqn:Hm; try done. cbn [fst snd]. intros Hs.
    exists d'. split; [by eapply Hsave; [|exact Hs]|].
    cbn [modify] in Hm. apply rbind_inv in Hm as (an & Han & [= <-]).
    by apply bump_quizzes_inv.
  - unfold increment_quiz_count.
    rewrite (bind_ok _ _ _ _ _ (load_database_doc w d Hd)), bind_lift.
    destruct (bump_quizzes (analytics d)) as [an|e] eqn:Han; [|done].
    destruct (save_database _ w) as [r w'] eqn:Hs. cbn [fst snd].
    destruct r as [[]|]; try done. intros _.
    eexists. split.
    { apply save_database_inv in Hs as [(_ & [Hf _] & _)|[(? & _)|(? & _)]]; [exact Hf|done..]. }
    by apply bump_quizzes_inv.
  - rewrite (perform_doc _ w d) by done.
    destruct (modify _ d) as [[d'|]|e] eqn:Hm; try done. cbn [fst snd]. intros Hs.
    exists d'. split; [by eapply Hsave; [|exact Hs]|].
    cbn [modify] in Hm. by apply rbind_inv in Hm as (an & Han & [= <-]).
Qed.

Lemma analytics_counters_roll_forward_witness :
  let talk : dict := {["duration" := VFloat (fl (Qc_of_Z 169 / Qc_of_Z 10))]} in
  let d1 := mk_database [] initial_settings
              (<["total_duration" := VFloat (fl (Qc_of_Z 149 / Qc_of_Z 10))]> initial_analytics)
              None in
  let w1 := mk_world (Doc d1) true 1 [] in
  (is_success (count (CAddLecture "2024-01-01T10:00:00" talk) w1).1 = true ∧
   ∃ d', db_file (count (CAddLecture "2024-01-01T10:00:00" talk) w1).2 = Doc d' ∧
         rolls_forward (CAddLecture "2024-01-01T10:00:00" talk) (analytics d1) (analytics d')) ∧
  (is_success (count (CAddQuizResult "2024-01-01T10:00:00" ∅) fresh_world).1 = true ∧
   ∃ d', db_file (count (CAddQuizResult "2024-01-01T10:00:00" ∅) fresh_world).2 = Doc d' ∧
         rolls_forward (CAddQuizResult "2024-01-01T10:00:00" ∅)
           (analytics initial_data) (analytics d')) ∧
  (is_success (count CIncrementQuizCount fresh_world).1 = true ∧
   ∃ d', db_file (count CIncrementQuizCount fresh_world).2 = Doc d' ∧
         rolls_forward CIncrementQuizCount (analytics initial_data) (analytics d')) ∧
  (is_success (count (CDeleteLecture 1) two_uploads).1 = true ∧
   ∃ d', db_file (count (CDeleteLecture 1) two_uploads).2 = Doc d' ∧
         rolls_forward (CDeleteLecture 1) (analytics two_uploads_data) (analytics d')).
Proof.
  cbv zeta. split; [|split; [|split]]; (split; [vm_compute; reflexivity|]).
  - apply analytics_counters_roll_forward; [reflexivity|vm_compute; reflexivity].
  - apply analytics_counters_roll_forward; [reflexivity|vm_compute; reflexivity].
  - apply analytics_counters_roll_forward; [reflexivity|vm_compute; reflexivity].
  - apply analytics_counters_roll_forward; [vm_compute; reflexivity|vm_compute; reflexivity].
Defined.

(** The counters after the calls of the witness: 14.9 + 16.9 is the double
    31.799999999999997, and the counts go up by one. *)
Example counters_after_calls :
  let talk : dict := {["duration" := VFloat (fl (Qc_of_Z 169 / Qc_of_Z 10))]} in
  let d1 := mk_database [] initial_settings
              (<["total_duration" := VFloat (fl (Qc_of_Z 149 / Qc_of_Z 10))]> initial_analytics)
              None in
  let w1 := mk_world (Doc d1) true 1 [] in
  (∃ d', db_file (add_lecture "2024-01-01T10:00:00" talk w1).2 = Doc d' ∧
     analytics d' !! "total_lectures" = Some (VInt 1) ∧
     analytics d' !! "total_duration" =
       Some (VFloat (Qc_of_Z 2237726064849715 / Qc_of_Z 70368744177664))) ∧
  (∃ d', db_file (add_quiz_result "2024-01-01T10:00:00" ∅ fresh_world).2 = Doc d' ∧
     analytics d' !! "total_quizzes" = Some (VInt 1)) ∧
  (∃ d', db_file (increment_quiz_count fresh_world).2 = Doc d' ∧
     analytics d' !! "total_quizzes" = Some (VInt 1)).
Proof.
  cbv zeta. repeat split; eexists; (split; [vm_compute; reflexivity|]);
    repeat split; vm_compute; try reflexivity.
  do 2 f_equal. by apply Qc_is_canon.
Qed.

(** On a counter that is an int (or missing, for the quiz counter) the
    increase by an int is the exact sum. *)
Lemma increased_by_int key n x an an' :
  default (VInt 0) (an !! key) = VInt n → increased_by key (VInt x) an an' →
  an' !! key = Some (VInt (n + x)).
Proof.
  intros Hn (v' & Hadd & ->). rewrite Hn in Hadd. by injection Hadd as <-.
Qed.

(** C10: a successful [update_settings] leaves the lectures, the analytics
    and the quiz results of the stored document as they were, and every
    settings key that the update does not name keeps its value (the named
    ones take the new value). *)
Theorem update_settings_frame (s : dict) (w : world) (d : database) :
  db_file w = Doc d → (update_settings s w).1 = Ok true →
  ∃ d', db_file (update_settings s w).2 = Doc d' ∧
    lectures d' = lectures d ∧ analytics d' = analytics d ∧
    quiz_results d' = quiz_results d ∧
    (∀ k, s !! k = None → settings d' !! k = settings d !! k) ∧
    (∀ k v, s !! k = Some v → settings d' !! k = Some v).
Proof.
  intros Hd. destruct (update_settings s w) as [r w'] eqn:H.
  unfold update_settings in H. cbn [fst snd]. intros ->. inv_op.
  match goal with Hw : wrote ?d' _ _ |- _ => exists d'; split; [apply Hw|] end.
  cbn [lectures analytics quiz_results settings]. unfold dict_update.
  repeat split; try done.
  - intros k Hk. rewrite lookup_union_r; done.
  - intros k v Hk. by apply lookup_union_Some_l.
Qed.

Lemma update_settings_frame_witness :
  let s : dict := {["language" := VStr "fr"]} in
  db_file fresh_world = Doc initial_data ∧
  (update_settings s fresh_world).1 = Ok true ∧
  ∃ d', db_file (update_settings s fresh_world).2 = Doc d' ∧
    lectures d' = lectures initial_data ∧ analytics d' = analytics initial_data ∧
    quiz_results d' = quiz_results initial_data ∧
    (∀ k, s !! k = None → settings d' !! k = settings initial_data !! k) ∧
    (∀ k v, s !! k = Some v → settings d' !! k = Some v).
Proof.
  split; [reflexivity|]. split; [reflexivity|].
  apply (update_settings_frame {["language" := VStr "fr"]} fresh_world initial_data);
    reflexivity.
Defined.

(** C1 fails on the code: after two uploads, the deletion of lecture 1 and
    a third upload, a state reachable through [add_lecture] and
    [delete_lecture], the two stored lectures both have id 2, the new id
    being [len(db['lectures']) + 1]. *)
Theorem lecture_id_reused_after_delete :
  reachable (run upload_delete_upload fresh_world) ∧
  ∃ d, db_file (run upload_delete_upload fresh_world) = Doc d ∧
       lecture_ids d = [Some (VInt 2); Some (VInt 2)] ∧
       ¬ NoDup (lecture_ids d).
Proof.
  split; [by exists upload_delete_upload|].
  eexists. split; [vm_compute; reflexivity|].
  split; [vm_compute; reflexivity|].
  intros Hnd. vm_compute in Hnd. apply NoDup_cons_1_1 in Hnd. apply Hnd. left.
Qed.

Lemma first_ids_snoc n :
  first_ids (S n) = first_ids n ++ [Some (VInt (Z.of_nat n + 1))].
Proof.
  unfold first_ids. rewrite seq_S, map_app. simpl.
  by replace (Z.of_nat (S n)) with (Z.of_nat n + 1)%Z by lia.
Qed.

(** Where a call leaves the file: as it was, cut short, or holding the
    changed document after a success. *)
Lemma perform_file m w :
  m ≠ MClearAll →
  db_file (perform m w).2 = db_file w ∨ db_file (perform m w).2 = Garbage ∨
  ∃ d d', db_file w = Doc d ∧ modify m d = Ok (Some d') ∧
          (perform m w).1 = success m d ∧ wrote d' w (perform m w).2.
Proof.
  intros Hm. destruct (db_file w) as [| |d] eqn:Hd.
  1,2: left; rewrite <-Hd;
       apply (perform_unloadable m w Hm); unfold loadable; by rewrite Hd.
  rewrite (perform_doc m w d Hm Hd).
  destruct (modify m d) as [[d'|]|e] eqn:Hmod; cbn [fst snd]; auto.
  pose proof (save_outcome d' w) as Hs. cbv zeta in Hs.
  destruct (negb (writable w)); [left; rewrite <-Hd; apply Hs|].
  destruct (dumps d'); [|right; left; apply Hs].
  right; right. exists d, d'. destruct Hs as [Hr ?]. by rewrite Hr.
Qed.

(** An upload that goes through appends the next position to the stored
    ids. *)
Lemma modify_add_ids now ld d d' :
  modify (MAddLecture now ld) d = Ok (Some d') →
  lecture_ids d' = lecture_ids d ++ [Some (VInt (Z.of_nat (length (lecture_ids d)) + 1))].
Proof.
  cbn [modify]. intros (n & _ & (n' & _ & (an & _ & [= <-])%rbind_inv)%rbind_inv)%rbind_inv.
  unfold lecture_ids, stamped. cbn [lectures]. rewrite map_app, length_map. simpl.
  by rewrite lookup_insert_ne, lookup_insert_eq.
Qed.

(** As long as nothing is deleted, the ids are the positions 1, 2, ..., n:
    unique and increasing. *)
Lemma ids_of_uploads ops : ∀ w,
  forallb is_add ops = true →
  (∀ d, db_file w = Doc d → lecture_ids d = first_ids (length (lecture_ids d))) →
  ∀ d', db_file (run ops w) = Doc d' →
        lecture_ids d' = first_ids (length (lecture_ids d')).
Proof.
  induction ops as [|o ops IH]; intros w Hadd Hids; [done|].
  simpl in Hadd. apply andb_true_iff in Hadd as [Ho Hadd].
  destruct o as [now ld| |]; try done. simpl.
  apply IH; [done|]. intros d1 Hd1.
  assert (MAddLecture now ld ≠ MClearAll) as Hm by done.
  destruct (perform_file _ w Hm) as [Hsame|[Hcut|(d & d' & Hd & Hmod & _ & [Hd' _])]];
    unfold perform in *; destruct (add_lecture now ld w) as [r w']; cbn [snd] in *.
  - apply Hids. by rewrite <-Hsame.
  - by rewrite Hcut in Hd1.
  - rewrite Hd' in Hd1. injection Hd1 as <-.
    rewrite (modify_add_ids _ _ _ _ Hmod), length_app. simpl.
    rewrite Nat.add_1_r, first_ids_snoc. by rewrite <-(Hids d Hd).
Qed.

Lemma ids_without_deletion ops :
  forallb is_add ops = true →
  ∀ d, db_file (run ops fresh_world) = Doc d →
       lecture_ids d = first_ids (length (lecture_ids d)) ∧
       NoDup (lecture_ids d).
Proof.
  intros Hadd d Hd.
  assert (lecture_ids d = first_ids (length (lecture_ids d))) as Hids.
  { apply (ids_of_uploads ops fresh_world Hadd); [|done]. by intros ? [= <-]. }
  split; [done|].
  rewrite Hids. unfold first_ids. apply NoDup_fmap_2; [|apply NoDup_seq].
  intros i j [= Hij]. lia.
Qed.

End StateManagerFacts.

(** ** QuizGenerator: grading *)
Section GradeFacts.
Import QuizGenerator.

Lemma py_eq_str v s :
  py_eq v (VStr s) = match v with VStr t => String.eqb t s | _ => false end.
Proof. by destruct v. Qed.

Lemma py_eq_strings s t : py_eq (VStr s) (VStr t) = true ↔ s = t.
Proof. cbn. apply String.eqb_eq. Qed.

Lemma is_fill_blank_type q t :
  q !! "type" = Some t → py_eq t (VStr "fill_blank") = is_fill_blank q.
Proof. unfold is_fill_blank. intros ->. by rewrite py_eq_str. Qed.

(** A gradable answer is marked as the data model judges it. *)
Lemma is_correct_judged q ua c :
  q !! "correct_answer" = Some c → gradable q ua = true →
  ∃ b, is_correct q ua c = Ok b ∧ (b = true ↔ judged_correct q ua).
Proof.
  unfold gradable, is_correct, judged_correct, getitem. intros Hc. rewrite Hc.
  destruct (q !! "type") as [t|] eqn:Ht; [|done]. cbn [rbind].
  rewrite (is_fill_blank_type q t Ht).
  destruct (is_fill_blank q); cbn [negb orb].
  - destruct ua as [| | | |u| | |]; try done.
    destruct c as [| | | |s| | |]; try done. intros _.
    cbn. eexists. split; [reflexivity|]. rewrite String.eqb_eq, !strip_lower.
    unfold same_ignoring_case. split.
    + intros H. by exists u, s.
    + by intros (u' & s' & [= <-] & [= <-] & H).
  - intros _. eexists. split; [reflexivity|]. split.
    + intros H. by exists c.
    + by intros (c' & [= <-] & H).
Qed.

(** An answer that is not gradable stops the grading. *)
Lemma is_correct_raises q ua :
  gradable q ua = false →
  ∃ e, rbind (getitem q "correct_answer") (is_correct q ua) = Raise e.
Proof.
  unfold gradable, is_correct, getitem.
  destruct (q !! "correct_answer") as [c|]; [|by eexists]. cbn [rbind].
  destruct (q !! "type") as [t|] eqn:Ht; [|by eexists]. cbn [rbind].
  rewrite (is_fill_blank_type q t Ht).
  destruct (is_fill_blank q); [|done]. cbn [negb orb].
  intros Hbad. destruct ua; try (by eexists).
  destruct c; try done; by eexists.
Qed.

(** What the loop adds to its accumulators when every answer can be
    graded. *)
Lemma grade_loop_spec answers qs : ∀ i c rs,
  (∀ j q, qs !! j = Some q → gradable q (default (VStr "") (answers !! (i + j))) = true) →
  ∃ rs', grade_loop answers i qs c rs =
           Ok (c + length (List.filter r_correct rs'), rs ++ rs') ∧
    length rs' = length qs ∧
    ∀ j q, qs !! j = Some q →
      ∃ r, rs' !! j = Some r ∧ r_question_num r = i + j + 1 ∧
           r_user_answer r = default (VStr "") (answers !! (i + j)) ∧
           q !! "correct_answer" = Some (r_correct_answer r) ∧
           r_explanation r = default (VStr "") (q !! "explanation") ∧
           (r_correct r = true ↔ judged_correct q (r_user_answer r)).
Proof.
  induction qs as [|q qs IH]; intros i c rs Hall.
  - exists []. simpl. rewrite app_nil_r, Nat.add_0_r. by repeat split.
  - pose proof (Hall 0 q eq_refl) as Hq. rewrite Nat.add_0_r in Hq.
    assert (∃ a, q !! "correct_answer" = Some a) as [a Ha].
    { unfold gradable in Hq. destruct (q !! "correct_answer"); [by eexists|done]. }
    destruct (is_correct_judged q _ a Ha Hq) as (b & Hb & Hjudged).
    cbn [grade_loop]. unfold getitem at 1. rewrite Ha. cbn [rbind]. rewrite Hb. cbn [rbind].
    edestruct (IH (S i)) as (rs' & -> & Hlen & Hres).
    { intros j q' Hq'. replace (S i + j) with (i + S j) by lia. by apply (Hall (S j)). }
    eexists (_ :: rs'). rewrite <-app_assoc. cbn [app].
    split; [|split; [simpl; by rewrite Hlen|]].
    { f_equal. f_equal. cbn [List.filter r_correct]. destruct b; simpl; lia. }
    intros [|j] q' Hq'; simpl in Hq'.
    + injection Hq' as <-. eexists. split; [reflexivity|]. cbn.
      rewrite !Nat.add_0_r. done.
    + destruct (Hres j q' Hq') as (r & ? & ? & ? & ?).
      exists r. replace (i + S j) with (S i + j) by lia. done.
Qed.

(** The loop stops at the first answer that cannot be graded. *)
Lemma grade_loop_raises answers qs : ∀ i c rs j q,
  qs !! j = Some q → gradable q (default (VStr "") (answers !! (i + j))) = false →
  ∃ e, grade_loop answers i qs c rs = Raise e.
Proof.
  induction qs as [|q0 qs IH]; intros i c rs j q Hq Hbad; [done|].
  cbn [grade_loop].
  destruct (gradable q0 (default (VStr "") (answers !! i))) eqn:Hq0.
  - assert (∃ a, q0 !! "correct_answer" = Some a) as [a Ha].
    { unfold gradable in Hq0. destruct (q0 !! "correct_answer"); [by eexists|done]. }
    destruct (is_correct_judged q0 _ a Ha Hq0) as (b & Hb & _).
    unfold getitem at 1. rewrite Ha. cbn [rbind]. rewrite Hb. cbn [rbind].
    destruct j as [|j]; simpl in Hq.
    + injection Hq as <-. rewrite Nat.add_0_r in Hbad. congruence.
    + apply (IH (S i) _ _ j q Hq). by replace (S i + j) with (i + S j) by lia.
  - destruct (is_correct_raises q0 _ Hq0) as [e He].
    exists e. destruct (getitem q0 "correct_answer") as [a|e0]; cbn [rbind] in *.
    + by rewrite He.
    + by injection He as ->.
Qed.

Lemma filter_length_le {A} (f : A → bool) l : length (List.filter f l) ≤ length l.
Proof. induction l as [|x l IH]; simpl; [done|destruct (f x); simpl; lia]. Qed.

Lemma fl_hundred : fl (Qc_of_Z 100) = Qc_of_Z 100.
Proof. by apply Qc_is_canon. Qed.

Lemma fl_one : fl (Qc_of_Z 1) = Qc_of_Z 1.
Proof. by apply Qc_is_canon. Qed.

(** A share of a positive total, as a percentage: the double computed lies
    between 0 and 100. *)
Lemma percentage_bounds (c t : nat) :
  c ≤ t → 0 < t → (0 ≤ percentage c t ≤ Qc_of_Z 100)%Qc.
Proof.
  intros Hc Ht. unfold percentage, fmul, truediv.
  assert (0 < Qc_of_Z (Z.of_nat t))%Qc as Htpos.
  { rewrite <-Z2Qc_inj_0. apply (proj1 (Z2Qc_inj_lt _ _)). lia. }
  assert (0 ≤ Qc_of_Z (Z.of_nat c))%Qc as Hcpos.
  { rewrite <-Z2Qc_inj_0. apply (proj1 (Z2Qc_inj_le _ _)). lia. }
  assert (0 ≤ Qc_of_Z (Z.of_nat c) / Qc_of_Z (Z.of_nat t) ≤ Qc_of_Z 1)%Qc as Hq.
  { unfold Qcdiv. split.
    - apply Qcmult_nonneg_nonneg; [done|]. apply Qclt_le_weak. by apply Qcinv_pos.
    - rewrite Z2Qc_inj_1.
      rewrite <-(Qcmult_inv_r (Qc_of_Z (Z.of_nat t))) by (by apply not_symmetry, Qclt_not_eq).
      apply Qcmult_le_compat_r; [apply (proj1 (Z2Qc_inj_le _ _)); lia|].
      apply Qclt_le_weak. by apply Qcinv_pos. }
  apply fl_bounds in Hq; [|done]. apply fl_bounds in Hq as [Hlo Hhi]; [|done].
  rewrite fl_hundred. apply fl_bounds; [|done]. split.
  - apply Qcmult_nonneg_nonneg; [done|].
    rewrite <-Z2Qc_inj_0. by apply (proj1 (Z2Qc_inj_le _ _)).
  - rewrite <-(Qcmult_1_l (Qc_of_Z 100)) at 2. rewrite <-Z2Qc_inj_1.
    apply Qcmult_le_compat_r; [done|].
    rewrite <-Z2Qc_inj_0. by apply (proj1 (Z2Qc_inj_le _ _)).
Qed.

(** A full count scores 100. *)
Lemma percentage_full (t : nat) : 0 < t → percentage t t = Qc_of_Z 100.
Proof.
  intros Ht. unfold percentage, fmul, truediv.
  assert (Qc_of_Z (Z.of_nat t) / Qc_of_Z (Z.of_nat t) = Qc_of_Z 1)%Qc as ->.
  { unfold Qcdiv. rewrite Qcmult_inv_r; [by rewrite Z2Qc_inj_1|].
    rewrite <-Z2Qc_inj_0. intros Heq%Z2Qc_inj. lia. }
  rewrite !fl_one, fl_hundred, Z2Qc_inj_1, Qcmult_1_l. apply fl_hundred.
Qed.

(** Everything [grade_quiz] returns when every answer can be graded, in
    terms of the data model. *)
Lemma grade_quiz_spec (questions : list dict) (answers : gmap nat value)
    (log : St.ui) :
  (∀ i q, questions !! i = Some q →
          gradable q (default (VStr "") (answers !! i)) = true) →
  ∃ g, grade_quiz questions answers log = (Ok (Some g), log) ∧
    total g = length questions ∧
    correct g ≤ total g ∧
    length (results g) = total g ∧
    correct g = length (List.filter r_correct (results g)) ∧
    (∀ i q, questions !! i = Some q →
       ∃ r, results g !! i = Some r ∧
            r_question_num r = i + 1 ∧
            r_user_answer r = default (VStr "") (answers !! i) ∧
            q !! "correct_answer" = Some (r_correct_answer r) ∧
            r_explanation r = default (VStr "") (q !! "explanation") ∧
            (r_correct r = true ↔ judged_correct q (r_user_answer r))) ∧
    score g = (if decide (total g = 0%nat) then VInt 0
               else VFloat (percentage (correct g) (total g))) ∧
    ∃ x, num_of (score g) = Some x ∧ (0 ≤ x ≤ Qc_of_Z 100)%Qc.
Proof.
  intros Hall. unfold grade_quiz, grade_quiz_body, try_catch.
  destruct (grade_loop_spec answers questions 0 0 [] Hall) as (rs & Hrs & Hlen & Hres).
  rewrite bind_lift, Hrs. cbn [fst snd app]. unfold ret.
  eexists. split; [reflexivity|]. cbn [total correct results score].
  assert (length (List.filter r_correct rs) ≤ length questions) as Hle.
  { rewrite <-Hlen. apply filter_length_le. }
  split; [done|]. split; [simpl; lia|]. split; [done|]. split; [done|].
  split; [exact Hres|].
  destruct (length questions) as [|n] eqn:E; cbn [Nat.ltb Nat.leb].
  - split; [done|]. exists (Qc_of_Z 0). split; [done|]. split; [done|].
    by apply (proj1 (Z2Qc_inj_le _ _)).
  - split; [done|]. eexists. split; [reflexivity|].
    apply percentage_bounds; simpl; lia.
Qed.

(** C8, as the code has it.  When every question has its [type] and its
    [correct_answer], and the two answers of every fill-in question are
    strings, [grade_quiz] returns a grade: its [total] is the number of
    questions, [0 <= correct <= total], [correct] counts the answers marked
    correct, an answer to a fill-in question is marked correct exactly when
    it equals the stored answer up to case once the surrounding blanks are
    stripped, any other answer exactly when it [==] the stored one, and
    [score] is the float [correct / total * 100] (the int 0 for an empty
    quiz), between 0 and 100.  As soon as one question cannot be graded,
    [grade_quiz] shows an error and returns [None]. *)
Theorem grade_quiz_counts (questions : list dict) (answers : gmap nat value)
    (log : St.ui) :
  let answer i := default (VStr "") (answers !! i) in
  ((∀ i q, questions !! i = Some q → gradable q (answer i) = true) →
   ∃ g, grade_quiz questions answers log = (Ok (Some g), log) ∧
     total g = length questions ∧
     correct g ≤ total g ∧
     length (results g) = total g ∧
     correct g = length (List.filter r_correct (results g)) ∧
     (∀ i q, questions !! i = Some q →
        ∃ r, results g !! i = Some r ∧
             r_question_num r = i + 1 ∧
             r_user_answer r = answer i ∧
             q !! "correct_answer" = Some (r_correct_answer r) ∧
             r_explanation r = default (VStr "") (q !! "explanation") ∧
             (r_correct r = true ↔ judged_correct q (r_user_answer r))) ∧
     score g = (if decide (total g = 0%nat) then VInt 0
                else VFloat (percentage (correct g) (total g))) ∧
     ∃ x, num_of (score g) = Some x ∧ (0 ≤ x ≤ Qc_of_Z 100)%Qc) ∧
  (∀ i q, questions !! i = Some q → gradable q (answer i) = false →
   ∃ msg, grade_quiz questions answers log = (Ok None, log ++ [St.error msg])).
Proof.
  cbv zeta. split; [apply grade_quiz_spec|].
  intros i q Hq Hbad.
  destruct (grade_loop_raises answers questions 0 0 [] i q Hq Hbad) as [e He].
  unfold grade_quiz, grade_quiz_body, try_catch. rewrite bind_lift, He.
  by eexists.
Qed.

End GradeFacts.

(** ** QuizGenerator: generation *)
Section QuizFacts.
Import QuizGenerator.

Lemma typed_multiple_choice t o c e : typed (mk_question "multiple_choice" t o c e).
Proof. unfold typed, question_types. simpl. set_solver. Qed.
Lemma typed_true_false t o c e : typed (mk_question "true_false" t o c e).
Proof. unfold typed, question_types. simpl. set_solver. Qed.
Lemma typed_fill_blank t o c e : typed (mk_question "fill_blank" t o c e).
Proof. unfold typed, question_types. simpl. set_solver. Qed.

Lemma rbind_ok {A B} (r : res A) (k : A → res B) b :
  rbind r k = Ok b → ∃ a, r = Ok a ∧ k a = Ok b.
Proof. destruct r; [eauto|done]. Qed.

Lemma mcq_question_typed E sentence difficulty q :
  mcq_question E sentence difficulty = Ok (Some q) → typed q.
Proof.
  unfold mcq_question. destruct (map _ _); [done|].
  intros H. apply rbind_ok in H as (kt & _ & H).
  apply rbind_ok in H as (i & _ & H). injection H as <-.
  apply typed_multiple_choice.
Qed.

Lemma mcq_loop_spec E num difficulty cands : ∀ questions used qs,
  mcq_loop E num difficulty cands questions used = Ok qs →
  Forall typed questions → length questions ≤ num →
  Forall typed qs ∧ length qs ≤ num.
Proof.
  induction cands as [|s cands IH]; intros questions used qs; simpl.
  - by intros [= <-].
  - destruct (num <=? length questions) eqn:Hn; [by intros [= <-]|].
    apply Nat.leb_gt in Hn.
    destruct (bool_decide _); [apply IH|].
    intros H Hty Hlen. apply rbind_ok in H as ([q|] & Hq & H); [|by eapply IH].
    eapply IH; [exact H| |].
    + apply Forall_app. split; [done|]. constructor; [|done].
      by eapply mcq_question_typed.
    + rewrite length_app. simpl. lia.
Qed.

Lemma _generate_mcq_spec E sentences num difficulty qs ss :
  _generate_mcq E sentences num difficulty = Ok (qs, ss) →
  Forall typed qs ∧ length qs ≤ num.
Proof.
  unfold _generate_mcq. intros H. apply rbind_ok in H as (qs' & H & [= <- _]).
  eapply mcq_loop_spec; [exact H|done|simpl; lia].
Qed.

Lemma true_false_loop_spec E num cands : ∀ i questions qs,
  true_false_loop E num i cands questions = Ok qs →
  Forall typed questions → length questions ≤ num →
  Forall typed qs ∧ length qs ≤ num.
Proof.
  induction cands as [|s cands IH]; intros i questions qs;
    cbn [true_false_loop].
  - by intros [= <-].
  - destruct (num <=? length questions) eqn:Hn; [by intros [= <-]|].
    apply Nat.leb_gt in Hn.
    destruct (i mod 2 =? 0).
    + intros H Hty Hlen. eapply IH; [exact H| |].
      * apply Forall_app. split; [done|]. constructor; [|done].
        apply typed_true_false.
      * rewrite length_app. simpl. lia.
    + intros H Hty Hlen. apply rbind_ok in H as (m & _ & H).
      destruct (negb _); [|by eapply IH].
      eapply IH; [exact H| |].
      * apply Forall_app. split; [done|]. constructor; [|done].
        apply typed_true_false.
      * rewrite length_app. simpl. lia.
Qed.

Lemma _generate_true_false_spec E sentences num qs :
  _generate_true_false E sentences num = Ok qs →
  Forall typed qs ∧ length qs ≤ num.
Proof.
  unfold _generate_true_false. destruct (List.filter _ _).
  - intros [= <-]. split; [done|simpl; lia].
  - intros H. eapply true_false_loop_spec; [exact H|done|simpl; lia].
Qed.

Lemma fill_blank_loop_spec E cands : ∀ questions qs,
  fill_blank_loop E cands questions = Ok qs →
  Forall typed questions →
  Forall typed qs ∧ length qs ≤ length questions + length cands.
Proof.
  induction cands as [|s cands IH]; intros questions qs; simpl.
  - intros [= <-]. split; [done|lia].
  - destruct (List.filter _ _).
    { intros H Hty. destruct (IH _ _ H Hty). split; [done|lia]. }
    intros H Hty. apply rbind_ok in H as (picked & _ & H).
    apply rbind_ok in H as (qw & _ & H).
    edestruct (IH _ _ H) as [? Hlen].
    + apply Forall_app. split; [done|]. constructor; [|done].
      apply typed_fill_blank.
    + split; [done|]. rewrite length_app in Hlen. simpl in Hlen. lia.
Qed.

Lemma _generate_fill_blank_spec E sentences num qs :
  _generate_fill_blank E sentences num = Ok qs →
  Forall typed qs ∧ length qs ≤ num.
Proof.
  unfold _generate_fill_blank. destruct (List.filter _ _).
  - intros [= <-]. split; [done|simpl; lia].
  - intros H. apply fill_blank_loop_spec in H as [? Hlen]; [|done].
    split; [done|]. rewrite length_take in Hlen. simpl in Hlen. lia.
Qed.

(** The three quotas never exceed the number asked for, so the subtraction
    that yields the fill-in quota is exact. *)
Lemma quotas_fit n : sixty_percent n + twenty_percent n ≤ n.
Proof.
  unfold sixty_percent, twenty_percent.
  pose proof (Nat.div_mod_eq (3 * n) 5). pose proof (Nat.div_mod_eq n 5).
  pose proof (Nat.mod_upper_bound (3 * n) 5). pose proof (Nat.mod_upper_bound n 5).
  lia.
Qed.


(** [generate_quiz] always returns a list; the environment decides which. *)
Lemma generate_quiz_returns E text n difficulty log :
  ∃ qs log', generate_quiz E text n difficulty log = (Ok qs, log').
Proof.
  unfold generate_quiz, try_catch.
  destruct (generate_quiz_body E text n difficulty log) as [[qs|e] log'] eqn:H.
  - eauto.
  - unfold bind, St.show, ret. eauto.
Qed.

Lemma show_inv c (log : St.ui) r log' :
  St.show c log = (r, log') → r = Ok tt ∧ log' = log ++ [c].
Proof. unfold St.show. by intros [= <- <-]. Qed.

(** Peels a run of the quiz generator apart, bind by bind. *)
Ltac inv_quiz :=
  repeat match goal with
  | H : bind _ _ _ = _ |- _ =>
      apply bind_inv in H as [(? & ? & ? & H)|(? & ? & ?)]
  | H : lift _ _ = _ |- _ => apply lift_inv in H as [? ?]
  | H : ret _ _ = _ |- _ => apply ret_inv in H as [? ?]
  | H : St.show _ _ = _ |- _ => apply show_inv in H as [? ?]
  | H : (if ?c then _ else _) _ = _ |- _ => destruct c eqn:?
  | _ => progress simplify_eq
  end.

(** What the body returns when it gets through: a slice of the shuffled
    questions, for the number of questions actually settled on. *)
Lemma generate_quiz_body_inv E text n difficulty log qs log' :
  generate_quiz_body E text n difficulty log = (Ok qs, log') →
  ∃ ss all, sent_tokenize E text = Ok ss ∧
    Forall typed all ∧
    qs = take (n `min` length ss) (shuffle E _ all).
Proof.
  unfold generate_quiz_body. intros H. inv_quiz;
    match goal with
    | Hs : Ok ?ss = sent_tokenize _ _,
      Hm : Ok ?m = _generate_mcq _ _ _ _, Ht : Ok ?t = _generate_true_false _ _ _,
      Hf : Ok ?f = _generate_fill_blank _ _ _ |- _ =>
        symmetry in Hm, Ht, Hf; destruct m as [mcq ss'];
        apply _generate_mcq_spec in Hm as [? _];
        apply _generate_true_false_spec in Ht as [? _];
        apply _generate_fill_blank_spec in Hf as [? _];
        exists ss, ((mcq ++ t) ++ f); split; [done|];
        split; [by repeat (apply Forall_app; split)|]
    end; cbn [fst snd].
  - apply Nat.ltb_lt in Heqb. by replace (n `min` length x1) with (length x1) by lia.
  - apply Nat.ltb_ge in Heqb. by replace (n `min` length x1) with n by lia.
Qed.

(** When the body raises, the handler shows the error and returns the empty
    list. *)
Lemma generate_quiz_caught E text n difficulty log e log' :
  generate_quiz_body E text n difficulty log = (Raise e, log') →
  generate_quiz E text n difficulty log =
    (Ok [], log' ++ [St.error ("Error generating quiz: " +:+ exn_msg e)]).
Proof. unfold generate_quiz, try_catch. by intros ->. Qed.

Lemma generate_quiz_passed E text n difficulty log qs log' :
  generate_quiz_body E text n difficulty log = (Ok qs, log') →
  generate_quiz E text n difficulty log = (Ok qs, log').
Proof. unfold generate_quiz, try_catch. by intros ->. Qed.

(** Asking for more questions than there are sentences is asking for as many
    questions as there are sentences. *)
Lemma generate_quiz_capped E text n difficulty log ss :
  sent_tokenize E text = Ok ss → length ss < n →
  quiz_of E text n difficulty log = quiz_of E text (length ss) difficulty log.
Proof.
  intros Hss Hn.
  unfold quiz_of, generate_quiz, try_catch, generate_quiz_body, bind, lift, ret,
    St.show.
  rewrite Hss, Nat.ltb_irrefl. apply Nat.ltb_lt in Hn. rewrite Hn.
  destruct (_generate_mcq E ss _ difficulty) as [[mcq ss']|]; [|done].
  cbn [fst snd].
  destruct (_generate_true_false E ss' _) as [tf|]; [|done].
  destruct (_generate_fill_blank E ss' _) as [fib|]; done.
Qed.

(** C5: with a [random.shuffle] that permutes, [generate_quiz] returns a
    list of at most [num_questions] questions, each of type
    [multiple_choice], [true_false] or [fill_blank]; and when the text has
    fewer sentences than [num_questions], the questions are those of a
    request for as many questions as there are sentences, at most that
    many. *)
Theorem generate_quiz_size_and_types (E : env) (text : string) (n : nat)
    (difficulty : string) (log : St.ui) :
  shuffle_permutes E →
  ∃ qs, quiz_of E text n difficulty log = Ok qs ∧
    length qs ≤ n ∧
    Forall (λ q, qtype q ∈ question_types) qs ∧
    ∀ ss, sent_tokenize E text = Ok ss → length ss < n →
      length qs ≤ length ss ∧
      quiz_of E text (length ss) difficulty log = Ok qs.
Proof.
  intros Hperm. unfold quiz_of.
  destruct (generate_quiz_body E text n difficulty log) as [[qs|e] log'] eqn:H.
  - rewrite (generate_quiz_passed _ _ _ _ _ _ _ H). exists qs. split; [done|].
    destruct (generate_quiz_body_inv _ _ _ _ _ _ _ H) as (ss & all & Hss & Hall & Hqs).
    split; [rewrite Hqs, length_take; lia|]. split.
    + rewrite Hqs. apply Forall_take. by rewrite (Hperm question all).
    + intros ss' Hss' Hn. rewrite Hss in Hss'. injection Hss' as <-.
      split; [rewrite Hqs, length_take; lia|].
      pose proof (generate_quiz_capped E text n difficulty log ss Hss Hn) as Hcap.
      unfold quiz_of in Hcap. rewrite <-Hcap.
      by rewrite (generate_quiz_passed _ _ _ _ _ _ _ H).
  - rewrite (generate_quiz_caught _ _ _ _ _ _ _ H). exists []. split; [done|].
    split; [simpl; lia|]. split; [done|].
    intros ss Hss Hn. split; [simpl; lia|].
    pose proof (generate_quiz_capped E text n difficulty log ss Hss Hn) as Hcap.
    unfold quiz_of in Hcap. rewrite <-Hcap.
    by rewrite (generate_quiz_caught _ _ _ _ _ _ _ H).
Qed.


End QuizFacts.

Section QuizSamples.
Import QuizGenerator Samples.

Lemma quiz_env_permutes : shuffle_permutes quiz_env.
Proof. intros A l. simpl. by rewrite <-Permutation_rev. Qed.

Lemma generate_quiz_size_and_types_witness :
  shuffle_permutes quiz_env ∧
  sent_tokenize quiz_env lecture_text = Ok (period_tokenize lecture_text) ∧
  length (period_tokenize lecture_text) < 10 ∧
  ∃ qs, quiz_of quiz_env lecture_text 10 "medium" [] = Ok qs ∧
    length qs ≤ 10 ∧
    Forall (λ q, qtype q ∈ question_types) qs ∧
    length qs ≤ length (period_tokenize lecture_text) ∧
    quiz_of quiz_env lecture_text (length (period_tokenize lecture_text)) "medium" []
      = Ok qs.
Proof.
  assert (length (period_tokenize lecture_text) < 10) as Hfew by (vm_compute; lia).
  split; [exact quiz_env_permutes|]. split; [reflexivity|]. split; [exact Hfew|].
  destruct (generate_quiz_size_and_types quiz_env lecture_text 10 "medium" []
              quiz_env_permutes) as (qs & Hqs & Hlen & Hty & Hcap).
  exists qs. destruct (Hcap _ eq_refl Hfew) as [Hle Heq]. auto.
Defined.

Example six_sentences_six_questions :
  ∃ ss qs, sent_tokenize quiz_env lecture_text = Ok ss ∧ length ss = 6 ∧
           quiz_of quiz_env lecture_text 10 "medium" [] = Ok qs ∧ length qs = 6.
Proof.
  exists (period_tokenize lecture_text).
  eexists. split; [reflexivity|]. split; [vm_compute; reflexivity|].
  split; [vm_compute; reflexivity|]. reflexivity.
Qed.
End QuizSamples.

(** ** Summarizer *)
Section SortFacts.
Import Summarizer.
Context {A : Type}.
Implicit Types (after : A → A → bool) (l : list A).

Lemma insert_by_perm after x l : insert_by after x l ≡ₚ x :: l.
Proof.
  induction l as [|y l IH]; simpl; [done|].
  destruct (after x y); [|done]. rewrite IH. apply Permutation_swap.
Qed.

Lemma sort_by_perm after l : sort_by after l ≡ₚ l.
Proof.
  induction l as [|x l IH]; simpl; [done|].
  by rewrite insert_by_perm, IH.
Qed.

End SortFacts.

Section AscendingFacts.
Import Summarizer.

Lemma insert_ascending x l :
  StronglySorted le l → StronglySorted le (insert_by (λ x y, y <? x) x l).
Proof.
  induction 1 as [|y l Hl IH Hy]; simpl.
  - repeat constructor.
  - destruct (y <? x) eqn:E.
    + apply Nat.ltb_lt in E. constructor; [done|].
      rewrite insert_by_perm. constructor; [lia|done].
    + apply Nat.ltb_ge in E. constructor; [by constructor|].
      constructor; [done|]. eapply Forall_impl; [exact Hy|]. simpl. lia.
Qed.

Lemma ascending_sorted l : StronglySorted le (ascending l).
Proof.
  unfold ascending, sort_by. induction l as [|x l IH]; simpl; [constructor|].
  by apply insert_ascending.
Qed.

(** A sorted list without repetition increases strictly. *)
Lemma sorted_nodup_increasing l :
  StronglySorted le l → NoDup l → StronglySorted lt l.
Proof.
  induction 1 as [|x l Hl IH Hx]; intros Hnd; [constructor|].
  apply NoDup_cons in Hnd as [Hx' Hnd]. constructor; [auto|].
  apply Forall_forall. intros y Hy.
  rewrite Forall_forall in Hx. specialize (Hx y Hy).
  assert (x ≠ y) by (intros ->; done). lia.
Qed.

(** Reading a list at strictly increasing positions gives a sublist. *)
Lemma increasing_picks_sublist {A} (l : list A) : ∀ idxs,
  StronglySorted lt idxs → Forall (λ i, i < length l) idxs →
  omap (λ i, l !! i) idxs `sublist_of` l ∧
  length (omap (λ i, l !! i) idxs) = length idxs.
Proof.
  induction l as [|x l IH]; intros idxs Hs Hb.
  - destruct idxs as [|i idxs]; [by split|].
    apply Forall_cons in Hb as [Hi _]. simpl in Hi. lia.
  - assert (∀ js, Forall (λ j, 0 < j) js →
              omap (λ i, (x :: l) !! i) js = omap (λ i, l !! i) (map pred js)) as Hshift.
    { induction js as [|[|j] js IHjs]; intros Hjs; [done| |].
      - apply Forall_cons in Hjs as [? _]. lia.
      - apply Forall_cons in Hjs as [_ Hjs]. simpl.
        destruct (l !! j); [f_equal|]; by apply IHjs. }
    assert (∀ js, Forall (λ j, 0 < j) js → StronglySorted lt js →
              StronglySorted lt (map pred js)) as Hsorted.
    { induction js as [|j js IHjs]; intros Hjs Hsj; [constructor|].
      apply Forall_cons in Hjs as [? Hjs].
      apply StronglySorted_inv in Hsj as [Hsj Hall]. simpl.
      constructor; [auto|]. apply Forall_map.
      rewrite Forall_forall in Hall, Hjs. apply Forall_forall. intros k Hk.
      specialize (Hall k Hk). specialize (Hjs k Hk). simpl. lia. }
    assert (∀ js, Forall (λ j, 0 < j) js → Forall (λ i, i < length (x :: l)) js →
              Forall (λ i, i < length l) (map pred js)) as Hbound.
    { intros js Hjs Hlt. apply Forall_map.
      rewrite Forall_forall in Hjs, Hlt. apply Forall_forall. intros k Hk.
      specialize (Hjs k Hk). specialize (Hlt k Hk). simpl in *. lia. }
    destruct idxs as [|i idxs]; [split; [apply sublist_nil_l|done]|].
    apply StronglySorted_inv in Hs as [Hs Hall].
    apply Forall_cons in Hb as [Hi Hb].
    destruct i as [|i].
    + assert (Forall (λ j, 0 < j) idxs) as Hpos by done.
      simpl. rewrite Hshift by done.
      destruct (IH (map pred idxs)) as [Hsub Hlen]; [auto..|].
      split; [by constructor|]. rewrite Hlen, length_map. done.
    + assert (Forall (λ j, 0 < j) (S i :: idxs)) as Hpos.
      { constructor; [lia|]. eapply Forall_impl; [exact Hall|]. simpl. lia. }
      rewrite Hshift by done.
      destruct (IH (map pred (S i :: idxs))) as [Hsub Hlen].
      * apply Hsorted; [done|]. by constructor.
      * apply Hbound; [done|]. by constructor.
      * split; [by constructor|]. rewrite Hlen, length_map. done.
Qed.

(** Ties keep the order of the text, as with [sorted(..., reverse=True)]. *)
Example ranking_is_stable :
  by_score_desc (of_count <$> [1; 2; 2; 1]) [0; 1; 2; 3] = [1; 2; 0; 3].
Proof. vm_compute. reflexivity. Qed.

(** The indices kept by the extractive summary. *)
Lemma top_indices_spec scores n :
  3 < n →
  StronglySorted lt (top_indices scores n) ∧
  Forall (λ i, i < n) (top_indices scores n) ∧
  length (top_indices scores n) = num_sentences n.
Proof.
  intros Hn. unfold top_indices.
  set (ranked := by_score_desc scores (seq 0 n)).
  assert (ranked ≡ₚ seq 0 n) as Hperm by apply sort_by_perm.
  assert (NoDup (take (num_sentences n) ranked)) as Hnd.
  { apply (sublist_NoDup _ ranked); [|apply sublist_take].
    rewrite Hperm. apply NoDup_seq. }
  assert (Forall (λ i, i < n) (take (num_sentences n) ranked)) as Hb.
  { apply Forall_take. rewrite Hperm. apply Forall_forall.
    intros i Hi. apply elem_of_seq in Hi. lia. }
  assert (ascending (take (num_sentences n) ranked) ≡ₚ take (num_sentences n) ranked)
    as Hasc by apply sort_by_perm.
  split; [|split].
  - apply sorted_nodup_increasing; [apply ascending_sorted|by rewrite Hasc].
  - by rewrite Hasc.
  - rewrite Hasc, length_take, Hperm, length_seq. unfold num_sentences.
    pose proof (Nat.div_mod_eq n 4). lia.
Qed.

End AscendingFacts.

Section SummarizerFacts.
Import Summarizer.

Lemma score_loop_returns E wf n sentences : ∀ i,
  nltk_answers E → ∃ scores, score_loop E wf n i sentences = Ok scores.
Proof.
  intros i [_ Hw]. revert i.
  induction sentences as [|s sentences IH]; intros i; simpl; [eauto|].
  destruct (Hw (lower s)) as [ws ->]. destruct (IH (S i)) as [scores ->].
  simpl. eauto.
Qed.

(** What the extractive method returns once the tokenizers answer. *)
Lemma extractive_summary_spec (E : env) (text : string) (max_length : nat)
    (sentences : list string) :
  sent_tokenize E text = Ok sentences →
  (3 < length sentences → nltk_answers E) →
  ∃ r, _extractive_summarize E text max_length = Ok r ∧
       method r = "extractive" ∧
       if decide (3 < length sentences)
       then picks (num_sentences (length sentences)) sentences (summary r)
       else summary r = text.
Proof.
  intros Hss Hnltk. unfold _extractive_summarize. rewrite Hss. simpl.
  destruct (length sentences <=? 3) eqn:Hn.
  - apply Nat.leb_le in Hn. eexists. split; [reflexivity|]. split; [done|].
    simpl. destruct (decide _); [lia|done].
  - apply Nat.leb_gt in Hn.
    destruct (Hnltk Hn) as [[sw Hsw] Hw]. rewrite Hsw. simpl.
    destruct (Hw (lower text)) as [ws ->]. simpl.
    edestruct (score_loop_returns E) as [scores ->]; [by split; eauto|].
    simpl. eexists. split; [reflexivity|]. split; [done|]. simpl.
    destruct (decide _); [|lia].
    destruct (top_indices_spec scores (length sentences) Hn) as (Hs & Hb & Hlen).
    destruct (increasing_picks_sublist sentences _ Hs Hb) as [Hsub Hlen'].
    eexists. split; [exact Hsub|]. split; [|done]. by rewrite Hlen'.
Qed.

(** C9, as the code has it: for a text of [n > 3] sentences, when the
    stop-word list and the word tokenizer answer, [_extractive_summarize]
    returns a summary made of exactly [max(3, n // 4)] sentences of the text,
    in the order of the text, joined by blanks; for a text of at most 3
    sentences the summary is the text itself, and nothing but the sentence
    tokenizer is asked. *)
Theorem extractive_summary_picks (E : env) (text : string) (max_length : nat)
    (sentences : list string) :
  sent_tokenize E text = Ok sentences →
  (3 < length sentences → nltk_answers E) →
  ∃ r, _extractive_summarize E text max_length = Ok r ∧
       method r = "extractive" ∧
       if decide (3 < length sentences)
       then picks (num_sentences (length sentences)) sentences (summary r)
       else summary r = text.
Proof. apply extractive_summary_spec. Qed.

(** The fallback is what [summarize] returns when no pipeline is used. *)
Lemma summarize_fallback E s text max_length min_length style :
  (String.eqb text "" || (len (strip text) <? 50)) = false →
  style ≠ "bullet_points" →
  (use_transformers s = false ∨
   (summarizer s = None ∧ ∃ e, load_pipeline E (model_name s) = Raise e)) →
  (summarize E s text max_length min_length style).1 =
    _extractive_summarize E text
      (if String.eqb style "detailed" then max_length `max` 300 else max_length) ∧
  use_transformers (summarize E s text max_length min_length style).2 = false.
Proof.
  intros Hlong Hstyle Hno. unfold summarize. rewrite Hlong.
  apply String.eqb_neq in Hstyle. rewrite Hstyle, andb_false_r.
  destruct Hno as [Hoff|[Hnone [e He]]].
  - by rewrite Hoff.
  - destruct (use_transformers s) eqn:Hu; [|done].
    rewrite Hnone. unfold load_model. rewrite He. simpl. by rewrite Hnone.
Qed.

End SummarizerFacts.

Section SummarizerSamples.
Import Summarizer Samples.

Lemma offline_nltk_answers : nltk_answers offline_env.
Proof. split; [by eexists|]. intros s. by eexists. Qed.

Lemma extractive_summary_picks_witness :
  sent_tokenize offline_env lecture_text = Ok (period_tokenize lecture_text) ∧
  3 < length (period_tokenize lecture_text) ∧
  nltk_answers offline_env ∧
  (∃ r, _extractive_summarize offline_env lecture_text 150 = Ok r ∧
        method r = "extractive" ∧
        picks 3 (period_tokenize lecture_text) (summary r)) ∧
  sent_tokenize no_stopwords_env first_sentence = Ok (period_tokenize first_sentence) ∧
  ¬ 3 < length (period_tokenize first_sentence) ∧
  ∃ r, _extractive_summarize no_stopwords_env first_sentence 150 = Ok r ∧
       method r = "extractive" ∧ summary r = first_sentence.
Proof.
  assert (3 < length (period_tokenize lecture_text)) as Hlong by (vm_compute; lia).
  assert (¬ 3 < length (period_tokenize first_sentence)) as Hshort by (vm_compute; lia).
  split; [reflexivity|]. split; [exact Hlong|]. split; [exact offline_nltk_answers|].
  split; [|split; [reflexivity|split; [exact Hshort|]]].
  - destruct (extractive_summary_picks offline_env lecture_text 150
                (period_tokenize lecture_text) eq_refl (λ _, offline_nltk_answers))
      as (r & Hr & Hm & Hp).
    exists r. split; [exact Hr|]. split; [exact Hm|].
    destruct (decide (3 < length (period_tokenize lecture_text))) as [_|Hn];
      [exact Hp|destruct (Hn Hlong)].
  - destruct (extractive_summary_picks no_stopwords_env first_sentence 150
                (period_tokenize first_sentence) eq_refl
                (λ H, False_rect _ (Hshort H)))
      as (r & Hr & Hm & Hp).
    exists r. split; [exact Hr|]. split; [exact Hm|].
    destruct (decide (3 < length (period_tokenize first_sentence))) as [Hn|_];
      [destruct (Hshort Hn)|exact Hp].
Defined.

(** C9 as stated fails: with more than 3 sentences the method asks for the
    stop words outside any [try], and where the corpus is missing its
    [LookupError] leaves the method. *)
Lemma extractive_summary_needs_stopwords :
  ¬ (∀ (E : env) (text : string) (max_length : nat) (sentences : list string),
       sent_tokenize E text = Ok sentences → 3 < length sentences →
       ∃ r, _extractive_summarize E text max_length = Ok r ∧
            picks (num_sentences (length sentences)) sentences (summary r)).
Proof.
  intros H.
  destruct (H no_stopwords_env lecture_text 150 (period_tokenize lecture_text) eq_refl)
    as (r & Hr & _); [vm_compute; lia|].
  vm_compute in Hr. discriminate Hr.
Qed.

(** A text of fifty characters or more is not the empty string. *)
Lemma long_text_passes text :
  50 ≤ len (strip text) → (String.eqb text "" || (len (strip text) <? 50)) = false.
Proof.
  intros Hlen. apply orb_false_intro.
  - apply String.eqb_neq. intros ->. vm_compute in Hlen. lia.
  - apply Nat.ltb_ge. lia.
Qed.

(** C6, as the code has it: for a text of at least 50 characters once
    stripped and a style other than [bullet_points], when no pipeline can be
    had (transformers already switched off, or the model not loaded and its
    import or construction failing), [summarize] returns what
    [_extractive_summarize] returns, an exception of NLTK included.  When
    the sentence tokenizer answers and, for a text of more than 3 sentences,
    the stop-word list and the word tokenizer do too, that is a result of
    method [extractive] whose summary is the text or a join of sentences of
    the text. *)
Theorem summarize_falls_back (E : env) (s : self) (text : string)
    (max_length min_length : nat) (style : string) :
  50 ≤ len (strip text) → style ≠ "bullet_points" →
  pipeline_unavailable E s →
  (summarize E s text max_length min_length style).1 =
    _extractive_summarize E text
      (if String.eqb style "detailed" then max_length `max` 300 else max_length) ∧
  ∀ sentences,
    sent_tokenize E text = Ok sentences →
    (3 < length sentences → nltk_answers E) →
    ∃ r, (summarize E s text max_length min_length style).1 = Ok r ∧
         method r = "extractive" ∧
         (summary r = text ∨
          picks (num_sentences (length sentences)) sentences (summary r)).
Proof.
  intros Hlen Hstyle Hno.
  destruct (summarize_fallback E s text max_length min_length style
              (long_text_passes _ Hlen) Hstyle Hno) as [-> _].
  split; [done|]. intros sentences Hss Hnltk.
  destruct (extractive_summary_spec E text
              (if String.eqb style "detailed" then max_length `max` 300 else max_length)
              sentences Hss Hnltk) as (r & -> & Hm & Hpick).
  exists r. repeat split; try done.
  destruct (decide _); auto.
Qed.

Lemma summarize_falls_back_witness :
  50 ≤ len (strip lecture_text) ∧ "concise" ≠ "bullet_points" ∧
  pipeline_unavailable offline_env init ∧
  sent_tokenize offline_env lecture_text = Ok (period_tokenize lecture_text) ∧
  3 < length (period_tokenize lecture_text) ∧
  nltk_answers offline_env ∧
  (summarize offline_env init lecture_text 150 50 "concise").1 =
    _extractive_summarize offline_env lecture_text 150 ∧
  ∃ r, (summarize offline_env init lecture_text 150 50 "concise").1 = Ok r ∧
       method r = "extractive" ∧
       (summary r = lecture_text ∨
        picks (num_sentences (length (period_tokenize lecture_text)))
              (period_tokenize lecture_text) (summary r)).
Proof.
  assert (50 ≤ len (strip lecture_text)) as Hlen by (vm_compute; lia).
  assert ("concise" ≠ "bullet_points") as Hstyle by discriminate.
  assert (pipeline_unavailable offline_env init) as Hno.
  { right. split; [reflexivity|]. by eexists. }
  assert (3 < length (period_tokenize lecture_text)) as Hlong by (vm_compute; lia).
  split; [exact Hlen|]. split; [exact Hstyle|]. split; [exact Hno|].
  split; [reflexivity|]. split; [exact Hlong|]. split; [exact offline_nltk_answers|].
  destruct (summarize_falls_back offline_env init lecture_text 150 50 "concise"
              Hlen Hstyle Hno) as [Hsame Hres].
  split; [exact Hsame|].
  exact (Hres (period_tokenize lecture_text) eq_refl (λ _, offline_nltk_answers)).
Defined.

(** Without the stop-word corpus the fallback raises, and [summarize] with
    it. *)
Example fallback_raises_without_stopwords :
  pipeline_unavailable no_stopwords_env init ∧
  ∃ e, (summarize no_stopwords_env init lecture_text 150 50 "concise").1 = Raise e ∧
       exn_kind e = LookupError.
Proof.
  split; [right; split; [reflexivity|by eexists]|].
  eexists. split; [vm_compute; reflexivity|reflexivity].
Qed.

(** C6 as stated fails when the pipeline loads and raises during use: the
    exception is absorbed in [_transformer_summarize], the head of the chunk
    stands for its summary and the method is [transformer]. *)
Lemma raising_pipeline_keeps_transformer :
  50 ≤ len (strip long_sentence) ∧
  (∀ chunk a b, ∃ e, broken_pipeline chunk a b = Raise e) ∧
  load_pipeline broken_env (model_name init) = Ok broken_pipeline ∧
  ∃ r, (summarize broken_env init long_sentence 150 50 "concise").1 = Ok r ∧
       method r = "transformer" ∧
       Ok r ≠ _extractive_summarize broken_env long_sentence 150.
Proof.
  split; [vm_compute; lia|]. split; [intros; by eexists|]. split; [reflexivity|].
  eexists. split; [vm_compute; reflexivity|]. split; [reflexivity|].
  vm_compute. discriminate.
Qed.
End SummarizerSamples.

(** ** The wrappers together *)
Section TranscriberFacts.
Import Wrappers Transcriber.

(** The four ways [transcribe] raises. *)
Lemma transcribe_raises (E : Transcriber.env) (audio_path : string) (language : option string) :
  (path_exists E audio_path = false →
   exn_kind <$> raised (transcribe E audio_path language) = Some FileNotFoundError) ∧
  (path_exists E audio_path = true →
   lower (suffix audio_path) ∉ supported_formats →
   exn_kind <$> raised (transcribe E audio_path language) = Some ValueError) ∧
  (path_exists E audio_path = true →
   lower (suffix audio_path) ∈ supported_formats →
   ∀ e, (∀ c, aai_transcribe E c audio_path = Raise e) →
        raised (transcribe E audio_path language) = Some e) ∧
  (path_exists E audio_path = true →
   lower (suffix audio_path) ∈ supported_formats →
   ∀ t, (∀ c, aai_transcribe E c audio_path = Ok t) → t_status t = error →
        exn_kind <$> raised (transcribe E audio_path language) = Some RuntimeError).
Proof.
  unfold transcribe. repeat split.
  - by intros ->.
  - intros -> Hs. simpl. by rewrite bool_decide_eq_false_2.
  - intros -> Hs e He. simpl. rewrite bool_decide_eq_true_2 by done. simpl.
    by rewrite He.
  - intros -> Hs t Ht Herr. simpl. rewrite bool_decide_eq_true_2 by done. simpl.
    by rewrite Ht, Herr.
Qed.

End TranscriberFacts.

Section WrapperFacts.
Import Wrappers.

(** A [try] around a whole body lets nothing out, whatever the body does,
    as long as the handler itself ends well. *)
Lemma try_catch_catches {S A} (body : Py.M S A) (handler : exn → Py.M S A)
    (sentinel : exn → A) (report : exn → S → S) (s : S) :
  (∀ e s', handler e s' = (Ok (sentinel e), report e s')) →
  raised (try_catch body handler s).1 = None ∧
  catches (try_catch body handler) body sentinel report s.
Proof.
  intros Hh. unfold catches, try_catch.
  destruct (body s) as [[a|e] s']; [done|]. by rewrite Hh.
Qed.

(** C2, as the code has it: the operations whose whole body sits in a
    [try] (all nine of [TextAnalyzer], the three of [QuizGenerator], ten of
    [FileHandler], [load_database] and [save_database], and [load_model])
    let no exception out, and a failure inside them comes out as their
    sentinel, after an error message where the handler shows one. *)
Theorem guarded_operations_catch (W : outside) (c : call) :
  guarded c = true → escapes W c = None ∧ surfaced W c.
Proof.
  destruct c; intros Hg; try discriminate Hg; clear Hg;
    cbn [escapes surfaced]; by apply try_catch_catches.
Qed.

(** On a machine where nothing outside answers, every guarded operation
    still returns. *)
Lemma guarded_operations_catch_witness :
  Forall (λ c, guarded c = true ∧ escapes bare c = None ∧ surfaced bare c) one_of_each.
Proof.
  unfold one_of_each.
  repeat (apply List.Forall_cons;
          [cbv beta; split;
           [reflexivity|apply guarded_operations_catch; reflexivity]|]).
  apply List.Forall_nil.
Defined.

(** What the guarded operations answer on that machine: their sentinels,
    and a message where the handler shows one. *)
Example sentinels_on_a_bare_machine :
  let E := analyzer bare in
  let text := Samples.first_sentence in
  (TextAnalyzer.get_basic_stats E text []).1 =
    Ok {["error" := VStr "Resource punkt_tab not found."]} ∧
  (TextAnalyzer.get_readability_scores E text []).1 =
    Ok {["error" := VStr "name 'textstat' is not defined"]} ∧
  TextAnalyzer.get_word_frequency E text 20 [] = (Ok [], []) ∧
  TextAnalyzer.extract_keywords E text 15 [] = (Ok [], []) ∧
  TextAnalyzer.analyze_sentiment E text [] = (Ok unknown_sentiment, []) ∧
  TextAnalyzer.extract_topics E text [] = (Ok [], []) ∧
  TextAnalyzer.analyze_complexity E text [] = (Ok ∅, []) ∧
  TextAnalyzer.compare_transcripts E text Samples.long_sentence [] = (Ok None, []) ∧
  QuizGenerator.generate_quiz (quiz bare) Samples.lecture_text 5 "medium" [] =
    (Ok [], [St.info "Generating 5 quiz questions...";
             St.error "Error generating quiz: Resource punkt_tab not found."]) ∧
  QuizGenerator.generate_flashcards (quiz bare) Samples.lecture_text 3 [] =
    (Ok [], [St.info "Generating 3 flashcards...";
             St.error "Error generating flashcards: Resource punkt_tab not found."]) ∧
  QuizGenerator.grade_quiz [{["type" := VStr "true_false"]}] ∅ [] =
    (Ok None, [St.error "Error grading quiz: 'correct_answer'"]) ∧
  (FileHandler.save_transcript 1 "Cells divide." (disk bare)).1 = Ok (false, None) ∧
  (FileHandler.load_transcript 1 (disk bare)).1 = Ok None ∧
  (FileHandler.save_summary (os bare) 1 ∅ (disk bare)).1 = Ok (false, None) ∧
  (FileHandler.delete_lecture_files 1 None (disk bare)).1 = Ok false ∧
  (FileHandler.get_file_size (os bare) "data/uploads/cells.mp3" (disk bare)).1 =
    Ok "Unknown" ∧
  (FileHandler.get_audio_duration (os bare) "data/uploads/cells.mp3" (disk bare)).1 =
    Ok ("Unknown", VInt 0) ∧
  (FileHandler.cleanup_old_files (os bare) 30 (disk bare)).1 = Ok (false, 0) ∧
  (FileHandler.get_storage_info (os bare) (disk bare)).1 = Ok unknown_storage ∧
  (StateManager.load_database (store bare)).1 = Ok None ∧
  (StateManager.save_database StateManager.initial_data (store bare)).1 = Ok false ∧
  (Summarizer.load_model_guarded (nlp bare) Summarizer.init).1 = Ok false.
Proof. cbv zeta. repeat split; vm_compute; reflexivity. Qed.

(** The same operations where the outside answers. *)
Example answers_on_a_working_machine :
  (FileHandler.get_file_size (os without_audio) "data/uploads/cells.mp3"
     (disk without_audio)).1 = Ok "3.00 B" ∧
  (FileHandler.get_audio_duration (os without_audio) "data/uploads/cells.mp3"
     (disk without_audio)).1 =
    Ok ("1m 35s", VFloat (Qc_of_Z 191 / Qc_of_Z 2)) ∧
  (FileHandler.cleanup_old_files (os without_audio) 30 (disk without_audio)).1 =
    Ok (true, 0) ∧
  (TextAnalyzer.extract_keywords (analyzer without_audio)
     "Plants use light. Plants make sugar from light and water." 2 []).1 =
    Ok ["plants"; "make"] ∧
  (StateManager.load_database (store without_audio)).1 =
    Ok (Some StateManager.initial_data).
Proof.
  cbv zeta. repeat split; vm_compute; reflexivity.
Qed.

(** A number of days that no [timedelta] holds, and one that leads before
    the first [datetime]: the [OverflowError] is caught like any other. *)
Example cleanup_rejects_unbounded_days :
  FileHandler.cleanup_old_files (os without_audio) 1000000000 (disk without_audio) =
    (Ok (false, 0),
     shows_on_disk "Error during cleanup: "
       (mk_exn OverflowError "days=1000000000; must have magnitude <= 999999999")
       (disk without_audio)) ∧
  FileHandler.cleanup_old_files (os without_audio) 999999999 (disk without_audio) =
    (Ok (false, 0),
     shows_on_disk "Error during cleanup: "
       (mk_exn OverflowError "date value out of range") (disk without_audio)).
Proof. split; vm_compute; reflexivity. Qed.

(** A duration just below zero reads as minus one minute and sixty seconds:
    [-1e-20 // 60] is [-1.0] and [-1e-20 % 60] is [60.0]. *)
Example divmod_of_a_negative_duration :
  let duration := (- (1 / Qc_of_Z (2 ^ 70)))%Qc in
  (float_divmod duration (Qc_of_Z 60)).1 = Qc_of_Z (-1) ∧
  (float_divmod duration (Qc_of_Z 60)).2 = Qc_of_Z 60.
Proof. cbv zeta. split; vm_compute; by apply Qc_is_canon. Qed.

(** [load_model] with its [try] spelled out is [load_model]. *)
Lemma load_model_guarded_spec E s :
  Summarizer.load_model_guarded E s =
  (Ok (Summarizer.load_model E s).1, (Summarizer.load_model E s).2).
Proof.
  unfold Summarizer.load_model_guarded, Summarizer.load_model_body, try_catch,
    Summarizer.load_model, Summarizer.switch_off.
  by destruct (Summarizer.load_pipeline E _).
Qed.

(** C2 as stated fails on [Transcriber.transcribe]: for a missing audio
    file its [FileNotFoundError] leaves the operation. *)
Lemma transcribe_propagates :
  ¬ (∀ W c, escapes W c = None).
Proof.
  intros H. specialize (H without_audio (Transcribe "lecture.mp3" None)).
  vm_compute in H. discriminate H.
Qed.

(** Two more operations without a handler of their own: [summarize] lets
    the [LookupError] of its fallback through, and [add_lecture] the
    [KeyError] of a document without its counter. *)
Example unguarded_operations_propagate :
  (∃ e, escapes bare (Summarize Summarizer.init Samples.lecture_text 150 50 "concise")
        = Some e ∧ exn_kind e = LookupError) ∧
  (∃ e, escapes
          (mk_outside (quiz bare) (nlp bare) (analyzer bare) (speech bare) (uploads bare)
             (os bare) (disk bare)
             (StateManager.mk_world
                (StateManager.Doc (StateManager.mk_database [] ∅ ∅ None)) true 1 [])
             [])
          (AddLecture "2024-01-01T10:00:00" ∅) = Some e ∧ exn_kind e = KeyError).
Proof. split; eexists; split; vm_compute; reflexivity. Qed.

End WrapperFacts.

(** ** More on the state manager *)
Section StateManagerMoreFacts.
Import StateManager StateManager.

Lemma py_eq_int_refl z : py_eq_int (VInt z) z = true.
Proof. unfold py_eq_int. simpl. by apply bool_decide_eq_true_2. Qed.

(** A value equals at most one integer. *)
Lemma py_eq_int_inj v i j : py_eq_int v i = true → py_eq_int v j = true → i = j.
Proof.
  unfold py_eq_int. destruct (num_of v) as [q|]; [|done].
  intros Hi%bool_decide_eq_true_1 Hj%bool_decide_eq_true_1.
  apply Z2Qc_inj. congruence.
Qed.

Lemma find_lecture_app l1 l2 i :
  find_lecture l1 i = Ok None → find_lecture (l1 ++ l2) i = find_lecture l2 i.
Proof.
  induction l1 as [|l l1 IH]; simpl; [done|].
  destruct (getitem l "id") as [v|]; simpl; [|done].
  destruct (py_eq_int v i); [done|]. exact IH.
Qed.

Lemma getitem_stamped now id (ld : dict) :
  getitem (<["created_at" := VStr now]> (<["id" := VInt id]> ld)) "id" = Ok (VInt id).
Proof. unfold getitem. by rewrite lookup_insert_ne, lookup_insert_eq. Qed.


(** Peels an operation apart, bind by bind, in every hypothesis that runs
    one. *)
Ltac inv_run :=
  repeat match goal with
  | H : bind _ _ _ = _ |- _ =>
      apply bind_inv in H as [(? & ? & ? & H)|(? & ? & ?)]
  | H : lift _ _ = _ |- _ => apply lift_inv in H as [? ?]
  | H : ret _ _ = _ |- _ => apply ret_inv in H as [? ?]
  | H : load_database _ = _ |- _ =>
      apply load_database_inv in H as [? [(? & ? & ? & ?)|[? ?]]]
  | H : save_database _ _ = _ |- _ =>
      apply save_database_inv in H as [(? & ? & ? & ?)|[(? & ? & ?)|(? & ? & ? & ?)]]
  | H : (match ?x with _ => _ end) _ = _ |- _ => destruct x eqn:?
  | E1 : db_file ?w = Doc _, E2 : db_file ?w = Doc _ |- _ => rewrite E1 in E2
  | _ => progress simplify_eq
  end.

Lemma get_lecture_doc i w d :
  db_file w = Doc d → get_lecture i w = (find_lecture (lectures d) i, w).
Proof.
  intros Hd. unfold get_lecture, bind. by rewrite (load_database_doc _ _ Hd).
Qed.

(** X1: a lecture that [add_lecture] has stored under an id that no stored
    lecture had is what [get_lecture] returns for that id right after: the
    data passed in, with its [id] and [created_at]. *)
Theorem add_then_get (now : string) (ld : dict) (w w' : world) (d : database) (id : Z) :
  db_file w = Doc d →
  add_lecture now ld w = (Ok (Some id), w') →
  find_lecture (lectures d) id = Ok None →
  get_lecture id w' = (Ok (Some (stamped now id ld)), w').
Proof.
  intros Hd Hadd Hfresh. unfold add_lecture in Hadd. inv_run;
    match goal with Hw : wrote ?d' _ _ |- _ =>
      rewrite (get_lecture_doc _ _ d' (proj1 Hw)) end;
    cbn [lectures]; rewrite find_lecture_app by done; unfold stamped;
    cbn [find_lecture]; rewrite getitem_stamped; cbn [rbind];
    by rewrite py_eq_int_refl.
Qed.


(** What the list comprehension of [delete_lecture] keeps. *)
Lemma remove_lecture_spec l i l' :
  remove_lecture l i = Ok l' →
  l' `sublist_of` l ∧ find_lecture l' i = Ok None ∧
  ∀ j, j ≠ i → find_lecture l' j = find_lecture l j.
Proof.
  revert l'. induction l as [|x l IH]; intros l'; simpl.
  - intros [= <-]. by repeat split.
  - destruct (getitem x "id") as [v|] eqn:Hv; [|done]. simpl.
    destruct (remove_lecture l i) as [r|]; [|done]. simpl.
    destruct (IH r eq_refl) as (Hsub & Hgone & Hkeep).
    destruct (py_eq_int v i) eqn:Hvi; intros [= <-].
    + split; [by constructor|]. split; [done|].
      intros j Hj. rewrite Hkeep by done.
      destruct (py_eq_int v j) eqn:Hvj; [|done].
      destruct Hj. symmetry. eauto using py_eq_int_inj.
    + split; [by constructor|]. simpl. rewrite Hv. simpl. rewrite Hvi.
      split; [done|]. intros j Hj. by rewrite Hkeep.
Qed.

(** X2: after a [delete_lecture] that succeeded, [get_lecture] finds nothing
    under the deleted id and finds under every other id what it found before;
    the lectures left are those of before, in their order. *)
Theorem delete_then_get (i : Z) (w w' : world) (d : database) :
  db_file w = Doc d →
  delete_lecture i w = (Ok true, w') →
  get_lecture i w' = (Ok None, w') ∧
  (∀ j, j ≠ i → (get_lecture j w').1 = (get_lecture j w).1) ∧
  ∃ d', db_file w' = Doc d' ∧ lectures d' `sublist_of` lectures d.
Proof.
  intros Hd Hdel. unfold delete_lecture in Hdel. inv_run.
  match goal with Hr : Ok ?l' = remove_lecture _ _, Hw : wrote ?d' _ _ |- _ =>
    symmetry in Hr; apply remove_lecture_spec in Hr as (Hsub & Hgone & Hkeep);
    pose proof (proj1 Hw) as Hd' end.
  split; [|split].
  - rewrite (get_lecture_doc _ _ _ Hd'). cbn [lectures]. by rewrite Hgone.
  - intros j Hj. rewrite (get_lecture_doc _ _ _ Hd'), (get_lecture_doc _ _ _ Hd).
    cbn [fst lectures]. by apply Hkeep.
  - eexists. split; [exact Hd'|done].
Qed.

Lemma update_first_none l i u :
  find_lecture l i = Ok None → update_first l i u = Ok None.
Proof.
  induction l as [|x l IH]; simpl; [done|].
  destruct (getitem x "id") as [v|]; [|done]. simpl.
  destruct (py_eq_int v i); [done|]. intros H. by rewrite IH.
Qed.

(** X3: [update_lecture] on an id that no stored lecture has returns [False]
    and leaves the store exactly as it was: nothing is written and nothing is
    shown. *)
Theorem update_unknown_lecture (i : Z) (u : dict) (w : world) (d : database) :
  db_file w = Doc d → find_lecture (lectures d) i = Ok None →
  update_lecture i u w = (Ok false, w).
Proof.
  intros Hd Hnone. unfold update_lecture, bind, lift.
  by rewrite (load_database_doc _ _ Hd), (update_first_none _ _ _ Hnone).
Qed.

(** What the loop of [update_lecture] changes. *)
Lemma update_first_spec l i u l' :
  update_first l i u = Ok (Some l') →
  ∃ k old, l !! k = Some old ∧ find_lecture l i = Ok (Some old) ∧
           l' = <[k := dict_update old u]> l.
Proof.
  revert l'. induction l as [|x l IH]; intros l'; simpl; [done|].
  destruct (getitem x "id") as [v|]; [|done]. simpl.
  destruct (py_eq_int v i).
  - intros [= <-]. by exists 0, x.
  - destruct (update_first l i u) as [[r|]|]; try done. simpl. intros [= <-].
    destruct (IH r eq_refl) as (k & old & Hk & Hfind & ->).
    by exists (S k), old.
Qed.

(** X4: an [update_lecture] that succeeded has changed one lecture, the first
    one with the id, by laying the updates over its fields; the other
    lectures, the settings, the analytics and the quiz results are as before,
    and so are the ids unless the updates carry an [id]. *)
Theorem update_lecture_frame (i : Z) (u : dict) (w w' : world) (d : database) :
  db_file w = Doc d →
  update_lecture i u w = (Ok true, w') →
  ∃ d' k old, db_file w' = Doc d' ∧
    lectures d !! k = Some old ∧
    find_lecture (lectures d) i = Ok (Some old) ∧
    lectures d' = <[k := dict_update old u]> (lectures d) ∧
    settings d' = settings d ∧ analytics d' = analytics d ∧
    quiz_results d' = quiz_results d ∧
    (u !! "id" = None → lecture_ids d' = lecture_ids d).
Proof.
  intros Hd Hup. unfold update_lecture in Hup. inv_run.
  match goal with Hr : Ok (Some ?l') = update_first _ _ _ |- _ =>
    symmetry in Hr; apply update_first_spec in Hr as (k & old & Hk & Hfind & ->) end.
  match goal with Hw : wrote ?d' _ _ |- _ =>
    exists d', k, old; split; [apply Hw|] end.
  cbn [lectures settings analytics quiz_results]. repeat split; try done.
  intros Hid. unfold lecture_ids. cbn [lectures].
  rewrite list_fmap_insert. apply list_insert_id.
  rewrite list_lookup_fmap, Hk. simpl. f_equal.
  unfold dict_update. by rewrite lookup_union_r.
Qed.


Lemma py_add_numbers a b x y :
  num_of a = Some x → num_of b = Some y →
  ∃ v, py_add a b = Ok v ∧ serializable v = true.
Proof.
  unfold py_add. intros Ha Hb. rewrite Ha, Hb.
  destruct (int_of a), (int_of b); eauto.
Qed.

Lemma getitem_some (d : dict) k v : d !! k = Some v → getitem d k = Ok v.
Proof. unfold getitem. by intros ->. Qed.

Lemma json_dict_insert (d : dict) k v :
  serializable v = true → json_dict d → json_dict (<[k := v]> d).
Proof. intros Hv Hd. by apply map_Forall_insert_2. Qed.

(** What [dumps] checks, field by field. *)
Lemma dumps_true data :
  dumps data = true ↔
  Forall json_dict (lectures data) ∧ json_dict (settings data) ∧
  json_dict (analytics data) ∧ Forall json_dict (default [] (quiz_results data)).
Proof. unfold dumps. apply bool_decide_eq_true. Qed.

(** The conditions under which [add_lecture] goes through, and what it
    stores then. *)
Lemma add_lecture_succeeds now ld w d k :
  db_file w = Doc d → writable w = true → dumps d = true → json_dict ld →
  analytics d !! "total_lectures" = Some (VInt k) →
  match ld !! "duration" with
  | Some v => is_Some (num_of v) ∧
              ∃ t, analytics d !! "total_duration" = Some t ∧ is_Some (num_of t)
  | None => True
  end →
  ∃ d', add_lecture now ld w =
          (Ok (Some (Z.of_nat (length (lectures d)) + 1)%Z), written d' w) ∧
    lectures d' = lectures d ++ [stamped now (Z.of_nat (length (lectures d)) + 1) ld] ∧
    analytics d' !! "total_lectures" = Some (VInt (k + 1)) ∧
    settings d' = settings d ∧ quiz_results d' = quiz_results d.
Proof.
  intros Hd Hw Hjson Hld Hk Hdur.
  apply dumps_true in Hjson as (Hl & Hs & Ha & Hq).
  assert (json_dict (stamped now (Z.of_nat (length (lectures d)) + 1) ld)) as Hst
    by (by repeat apply json_dict_insert).
  unfold add_lecture.
  rewrite (bind_ok _ _ _ _ _ (load_database_doc _ _ Hd)), bind_lift.
  rewrite (getitem_some _ _ _ Hk). rewrite bind_lift.
  change (py_add (VInt k) (VInt 1)) with (@Ok value (VInt (k + 1))).
  cbv beta iota zeta.
  rewrite lookup_insert_ne, lookup_insert_ne by done.
  destruct (ld !! "duration") as [v|].
  - destruct Hdur as ([y Hy] & t & Ht & [x Hx]).
    rewrite bind_assoc, bind_lift.
    rewrite (getitem_some _ "total_duration" t) by (by rewrite lookup_insert_ne).
    destruct (py_add_numbers t v _ _ Hx Hy) as (t' & Ht' & Hser).
    rewrite bind_assoc, bind_lift, Ht', bind_ret.
    erewrite (bind_ok (save_database _)); last first.
    { apply save_database_ok; [done|]. apply dumps_true.
      cbn [lectures settings analytics quiz_results]. repeat split; try done.
      - apply Forall_app. split; [done|]. by constructor.
      - by repeat apply json_dict_insert. }
    eexists. split; [reflexivity|]. cbn [lectures analytics settings quiz_results].
    repeat split. by rewrite lookup_insert_ne, lookup_insert_eq.
  - rewrite bind_ret.
    erewrite (bind_ok (save_database _)); last first.
    { apply save_database_ok; [done|]. apply dumps_true.
      cbn [lectures settings analytics quiz_results]. repeat split; try done.
      - apply Forall_app. split; [done|]. by constructor.
      - by repeat apply json_dict_insert. }
    eexists. split; [reflexivity|]. cbn [lectures analytics settings quiz_results].
    repeat split. by rewrite lookup_insert_eq.
Qed.

Lemma cleared_data_dumps : dumps cleared_data = true.
Proof. vm_compute. reflexivity. Qed.

Lemma initial_data_dumps : dumps initial_data = true.
Proof. vm_compute. reflexivity. Qed.

(** X5: on a store that can be written, [clear_all] followed by the
    [add_lecture] of data that [json.dump] can write (with a numeric duration,
    if it has one) leaves exactly one lecture, with id 1, an upload counter
    of 1, the default settings and no quiz result, whatever the file held
    before. *)
Theorem clear_then_add (now : string) (ld : dict) (w : world) :
  writable w = true → json_dict ld →
  match ld !! "duration" with Some v => is_Some (num_of v) | None => True end →
  ∃ w1 w2 d, clear_all w = (Ok true, w1) ∧
    add_lecture now ld w1 = (Ok (Some 1%Z), w2) ∧
    db_file w2 = Doc d ∧ lectures d = [stamped now 1 ld] ∧
    analytics d !! "total_lectures" = Some (VInt 1) ∧
    settings d = initial_settings ∧ quiz_results d = Some [].
Proof.
  intros Hw Hld Hdur. unfold clear_all.
  rewrite (save_database_ok _ _ Hw cleared_data_dumps).
  destruct (add_lecture_succeeds now ld (written cleared_data w) cleared_data 0)
    as (d' & Hadd & Hl & Hn & Hs & Hq); [done|done|exact cleared_data_dumps|done|done| |].
  { destruct (ld !! "duration"); [|done]. split; [done|].
    exists (VInt 0). split; [done|]. by eexists. }
  eexists _, _, d'. split; [reflexivity|]. split; [exact Hadd|]. by repeat split.
Qed.

(** X6: [ensure_database] leaves a file that exists as it is, even one that is
    no JSON, writes the initial document when there is none, and writes
    nothing when called a second time. *)
Theorem ensure_database_spares (w : world) :
  (db_file w ≠ NoFile → ensure_database w = (Ok tt, w)) ∧
  (db_file w = NoFile → writable w = true →
   ensure_database w = (Ok tt, written initial_data w)) ∧
  untouched (ensure_database w).2 (ensure_database (ensure_database w).2).2.
Proof.
  unfold ensure_database. split; [|split].
  - by destruct (db_file w).
  - intros -> Hw.
    by rewrite (bind_ok _ _ _ _ _ (save_database_ok _ _ Hw initial_data_dumps)).
  - destruct (db_file w) eqn:Hf; cbn [snd]; rewrite ?Hf; try done.
    destruct (writable w) eqn:Hw.
    + by rewrite (bind_ok _ _ _ _ _ (save_database_ok _ _ Hw initial_data_dumps)).
    + unfold save_database, save_database_body, try_catch, bind, open_write, ret, st_error.
      rewrite Hw. cbn. by rewrite Hf, Hw.
Qed.

Lemma update_first_ids l i u l' :
  update_first l i u = Ok (Some l') →
  Forall (λ x : dict, is_Some (x !! "id")) l →
  Forall (λ x : dict, is_Some (x !! "id")) l' ∧ length l' = length l.
Proof.
  intros Hup Hall. apply update_first_spec in Hup as (k & old & Hk & _ & ->).
  split; [|by rewrite length_insert].
  apply Forall_insert; [done|].
  rewrite Forall_lookup in Hall. destruct (Hall k old Hk) as [v Hv].
  exists (default v (u !! "id")). unfold dict_update.
  destruct (u !! "id") as [v'|] eqn:Hu.
  - by apply lookup_union_Some_l.
  - by rewrite lookup_union_r.
Qed.

Lemma remove_lecture_sublist l i l' : remove_lecture l i = Ok l' → l' `sublist_of` l.
Proof. intros H. by apply remove_lecture_spec in H as [? _]. Qed.

Lemma step_perform o w : step w o = (perform (mutation_of o) w).2.
Proof.
  destruct o; cbn [step mutation_of perform];
    by match goal with |- context [let '(_, _) := ?c in _] => destruct c end.
Qed.

(** The change that a step of the lecture life cycle makes keeps a healthy
    document healthy. *)
Lemma modify_healthy o d d' :
  modify (mutation_of o) d = Ok (Some d') → healthy d → healthy d'.
Proof.
  intros Hmod [(k & Hk & Hlen) Hids]. unfold all_have_id in Hids.
  destruct o as [now ld|i u|i]; cbn [mutation_of modify] in Hmod.
  - apply rbind_inv in Hmod as (n & Hn%getitem_inv & (n' & Hadd & H)%rbind_inv).
    apply rbind_inv in H as (an & Han & [= <-]).
    rewrite Hk in Hn. injection Hn as <-. injection Hadd as <-.
    split.
    + exists (k + 1)%Z. cbn [analytics lectures]. split; [|rewrite length_app; simpl; lia].
      destruct (stamped _ _ _ !! "duration").
      * apply rbind_inv in Han as (t & _ & (t' & _ & [= <-])%rbind_inv).
        by rewrite lookup_insert_ne, lookup_insert_eq.
      * injection Han as <-. by rewrite lookup_insert_eq.
    + unfold all_have_id. cbn [lectures]. apply Forall_app. split; [done|].
      constructor; [|done]. unfold stamped. by rewrite lookup_insert_ne, lookup_insert_eq.
  - apply rbind_inv in Hmod as ([l'|] & Hup & [= <-]).
    destruct (update_first_ids _ _ _ _ Hup Hids) as [Hids' Hlen'].
    split; [|done]. exists k. cbn [analytics lectures]. split; [done|lia].
  - apply rbind_inv in Hmod as (l' & Hrm%remove_lecture_sublist & [= <-]).
    pose proof (sublist_length _ _ Hrm) as Hle.
    pose proof (sublist_subseteq _ _ Hrm) as Hin.
    split.
    + exists k. cbn [analytics lectures]. split; [done|lia].
    + unfold all_have_id. cbn [lectures]. rewrite Forall_forall in Hids.
      apply Forall_forall. intros x Hx. apply Hids. by apply Hin.
Qed.

(** A store that was created stays there, and its document, as long as the
    file holds one, stays healthy. *)
Lemma run_healthy ops : ∀ w,
  db_file w ≠ NoFile → (∀ d, db_file w = Doc d → healthy d) →
  db_file (run ops w) ≠ NoFile ∧ ∀ d', db_file (run ops w) = Doc d' → healthy d'.
Proof.
  induction ops as [|o ops IH]; intros w Hf Hh; [done|].
  cbn [run foldl]. apply IH; rewrite step_perform;
    (assert (mutation_of o ≠ MClearAll) as Hm by (by destruct o));
    destruct (perform_file _ w Hm)
      as [Hsame|[Hcut|(d & d' & Hd & Hmod & _ & [Hd' _])]].
  - by rewrite Hsame.
  - by rewrite Hcut.
  - by rewrite Hd'.
  - intros d1. rewrite Hsame. apply Hh.
  - intros d1. by rewrite Hcut.
  - intros d1. rewrite Hd'. intros [= <-]. eapply modify_healthy; eauto.
Qed.

Lemma initial_data_healthy : healthy initial_data.
Proof.
  split; [|by constructor]. exists 0%Z. split; [done|]. simpl. lia.
Qed.

Lemma reachable_healthy w :
  reachable w → db_file w ≠ NoFile ∧ ∀ d, db_file w = Doc d → healthy d.
Proof.
  intros [ops <-]. apply run_healthy; [done|].
  intros d [= <-]. apply initial_data_healthy.
Qed.

(** X7: from a store whose document has an integer [total_lectures] counter
    no smaller than the number of its lectures, each of them with an id (the
    initial document is one), whatever lectures are added, updated and
    deleted, and whether or not the file can be written: whenever the file
    still holds a document afterwards (it does unless an upload or update
    with data that [json.dump] refuses has cut it short), the counter is an
    integer no smaller than the number of lectures stored.  Deleting never
    takes an upload off the count. *)
Theorem uploads_counter_covers_lectures (ops : list op) (w : world) (d0 d : database) :
  db_file w = Doc d0 → healthy d0 →
  db_file (run ops w) = Doc d →
  ∃ k, analytics d !! "total_lectures" = Some (VInt k) ∧
       (Z.of_nat (length (lectures d)) ≤ k)%Z.
Proof.
  intros Hd0 Hh0 Hd.
  destruct (run_healthy ops w) as [_ Hh].
  - by rewrite Hd0.
  - intros d1. rewrite Hd0. by intros [= <-].
  - by destruct (Hh d Hd) as [? _].
Qed.

Lemma find_lecture_total l i :
  Forall (λ x : dict, is_Some (x !! "id")) l → ∃ r, find_lecture l i = Ok r.
Proof.
  induction 1 as [|x l [v Hv] _ [r IH]]; simpl; [eauto|].
  rewrite (getitem_some _ _ _ Hv). simpl. destruct (py_eq_int v i); eauto.
Qed.

Lemma update_first_total l i u :
  Forall (λ x : dict, is_Some (x !! "id")) l → ∃ r, update_first l i u = Ok r.
Proof.
  induction 1 as [|x l [v Hv] _ [r IH]]; simpl; [eauto|].
  rewrite (getitem_some _ _ _ Hv). simpl. destruct (py_eq_int v i); [eauto|].
  rewrite IH. simpl. eauto.
Qed.

Lemma remove_lecture_total l i :
  Forall (λ x : dict, is_Some (x !! "id")) l → ∃ r, remove_lecture l i = Ok r.
Proof.
  induction 1 as [|x l [v Hv] _ [r IH]]; simpl; [eauto|].
  rewrite (getitem_some _ _ _ Hv). simpl. rewrite IH. simpl. eauto.
Qed.

Lemma save_database_returns d w : ∃ b, (save_database d w).1 = Ok b.
Proof.
  destruct (save_database d w) as [r w'] eqn:Hs.
  apply save_database_inv in Hs as [(-> & _)|[(-> & _)|(-> & _)]]; by eexists.
Qed.

(** X8: on a store that was only ever changed by adding, updating and deleting
    lectures, every stored lecture has an id, so the look-ups by id of
    [get_lecture], [update_lecture] and [delete_lecture] raise no [KeyError],
    whatever the id asked for and whatever the updates. *)
Theorem lookups_by_id_never_raise (w : world) (i : Z) (u : dict) :
  reachable w →
  (∃ r, (get_lecture i w).1 = Ok r) ∧
  (∃ b, (update_lecture i u w).1 = Ok b) ∧
  (∃ b, (delete_lecture i w).1 = Ok b).
Proof.
  intros Hw. destruct (reachable_healthy w Hw) as [_ Hh].
  destruct (db_file w) as [| |d] eqn:Hd.
  1,2: assert (loadable w = false) as Hl by (unfold loadable; by rewrite Hd);
       destruct (load_database_fails w Hl) as (w1 & Hload & _);
       unfold get_lecture, update_lecture, delete_lecture;
       rewrite !(bind_ok _ _ _ _ _ Hload); repeat split; by eexists.
  destruct (Hh d eq_refl) as [_ Hids]. unfold all_have_id in Hids. split; [|split].
  - rewrite (get_lecture_doc _ _ _ Hd). by apply find_lecture_total.
  - unfold update_lecture.
    rewrite (bind_ok _ _ _ _ _ (load_database_doc _ _ Hd)), bind_lift.
    destruct (update_first_total (lectures d) i u Hids) as [[l'|] ->]; [|by eexists].
    apply save_database_returns.
  - unfold delete_lecture.
    rewrite (bind_ok _ _ _ _ _ (load_database_doc _ _ Hd)), bind_lift.
    destruct (remove_lecture_total (lectures d) i Hids) as [l' ->].
    apply save_database_returns.
Qed.

Lemma upload_delete_upload_reachable : reachable (run upload_delete_upload fresh_world).
Proof. by exists upload_delete_upload. Qed.

Lemma uploads_counter_covers_lectures_witness :
  let locked := mk_world (Doc two_uploads_data) false 3 [] in
  let upload := [Add "2024-01-03T10:00:00" third_lecture] in
  (db_file fresh_world = Doc initial_data ∧ healthy initial_data ∧
   ∃ d, db_file (run upload_delete_upload fresh_world) = Doc d ∧
     ∃ k, analytics d !! "total_lectures" = Some (VInt k) ∧
          (Z.of_nat (length (lectures d)) ≤ k)%Z) ∧
  (db_file locked = Doc two_uploads_data ∧ healthy two_uploads_data ∧
   db_file (run upload locked) = Doc two_uploads_data ∧
   ∃ k, analytics two_uploads_data !! "total_lectures" = Some (VInt k) ∧
        (Z.of_nat (length (lectures two_uploads_data)) ≤ k)%Z).
Proof.
  cbv zeta.
  assert (healthy two_uploads_data) as Hh.
  { apply (reachable_healthy two_uploads); [by eexists|vm_compute; reflexivity]. }
  assert (∀ w d, db_file w = Doc d → db_file w = Doc d) as Hid by done.
  split; (split; [reflexivity|]); (split; [exact initial_data_healthy || exact Hh|]).
  - eexists. split; [apply Hid; vm_compute; reflexivity|].
    apply (uploads_counter_covers_lectures upload_delete_upload fresh_world initial_data);
      [reflexivity|exact initial_data_healthy|vm_compute; reflexivity].
  - split; [vm_compute; reflexivity|].
    apply (uploads_counter_covers_lectures [Add "2024-01-03T10:00:00" third_lecture]
             (mk_world (Doc two_uploads_data) false 3 []) two_uploads_data);
      [reflexivity|exact Hh|vm_compute; reflexivity].
Defined.

Lemma lookups_by_id_never_raise_witness :
  reachable (run upload_delete_upload fresh_world) ∧
  (∃ r, (get_lecture 2 (run upload_delete_upload fresh_world)).1 = Ok r) ∧
  (∃ b, (update_lecture 2 ∅ (run upload_delete_upload fresh_world)).1 = Ok b) ∧
  (∃ b, (delete_lecture 2 (run upload_delete_upload fresh_world)).1 = Ok b).
Proof.
  split; [exact upload_delete_upload_reachable|].
  exact (lookups_by_id_never_raise _ 2 ∅ upload_delete_upload_reachable).
Defined.


(** X9: [get_lecture], [get_all_lectures], [get_settings] and [get_analytics]
    never write the file; when the document cannot be loaded they answer
    [None], the empty list or the empty dict, after one error message. *)
Theorem queries_never_write (q : query) (w : world) :
  untouched w (ask q w).2 ∧
  (loadable w = false →
   (ask q w).1 = empty_answer q ∧
   length (shown (ask q w).2) = S (length (shown w))).
Proof.
  pose proof (load_database_fails w) as Hbad.
  destruct (loadable w) eqn:Hl.
  - unfold loadable in Hl. destruct (db_file w) as [| |d] eqn:Hd; try done.
    split; [|done].
    destruct q; unfold ask, get_lecture, get_all_lectures, get_settings,
      get_analytics, bind, lift, ret; rewrite (load_database_doc _ _ Hd);
      apply untouched_refl.
  - destruct (Hbad eq_refl) as (w' & Hload & Hu & Hlen).
    destruct q; unfold ask, get_lecture, get_all_lectures, get_settings,
      get_analytics, bind, lift, ret; rewrite Hload; done.
Qed.

(** X10: an [add_quiz_result] that succeeded has put the result, stamped with
    [taken_at], at the end of the quiz results (starting the list when the
    document had none) and has left lectures and settings alone. *)
Theorem add_quiz_result_appends (now : string) (r : dict) (w w' : world) (d : database) :
  db_file w = Doc d →
  add_quiz_result now r w = (Ok true, w') →
  ∃ d', db_file w' = Doc d' ∧
    quiz_results d' = Some (default [] (quiz_results d) ++ [<["taken_at" := VStr now]> r]) ∧
    lectures d' = lectures d ∧ settings d' = settings d.
Proof.
  intros Hd Hadd. unfold add_quiz_result in Hadd. inv_run.
  match goal with Hw : wrote ?d' _ _ |- _ => exists d'; split; [apply Hw|done] end.
Qed.

Lemma update_settings_doc s w d :
  db_file w = Doc d → writable w = true →
  dumps (mk_database (lectures d) (dict_update (settings d) s)
                     (analytics d) (quiz_results d)) = true →
  update_settings s w =
    (Ok true, written (mk_database (lectures d) (dict_update (settings d) s)
                                   (analytics d) (quiz_results d)) w).
Proof.
  intros Hd Hw Hj. unfold update_settings.
  by rewrite (bind_ok _ _ _ _ _ (load_database_doc _ _ Hd)), (save_database_ok _ _ Hw Hj).
Qed.

Lemma success_needs_writable d w w' :
  save_database d w = (Ok true, w') → writable w = true ∧ dumps d = true.
Proof.
  intros H. by apply save_database_inv in H as [(_ & _ & ? & ?)|[(? & _)|(? & _)]].
Qed.

(** X11: after an [update_settings] that succeeded, [get_settings] returns the
    new settings laid over the old ones, and updating again with the same
    settings leaves the document as it is. *)
Theorem update_settings_then_get (s : dict) (w w' : world) (d : database) :
  db_file w = Doc d →
  update_settings s w = (Ok true, w') →
  get_settings w' = (Ok (s ∪ settings d), w') ∧
  db_file (update_settings s w').2 = db_file w'.
Proof.
  intros Hd Hup.
  assert (writable w = true ∧
          dumps (mk_database (lectures d) (dict_update (settings d) s)
                             (analytics d) (quiz_results d)) = true) as [Hw Hj].
  { unfold update_settings in Hup.
    rewrite (bind_ok _ _ _ _ _ (load_database_doc _ _ Hd)) in Hup.
    by eapply success_needs_writable. }
  rewrite (update_settings_doc _ _ _ Hd Hw Hj) in Hup. injection Hup as <-.
  split.
  - unfold get_settings.
    by rewrite (bind_ok _ _ _ _ _ (load_database_doc (written _ w) _ eq_refl)).
  - assert (dict_update (dict_update (settings d) s) s = dict_update (settings d) s) as Hsame.
    { unfold dict_update. by rewrite (assoc_L (∪)), (idemp_L (∪)). }
    rewrite (update_settings_doc s (written _ w) _ eq_refl);
      cbn [snd written db_file lectures settings analytics quiz_results writable];
      by rewrite ?Hsame.
Qed.

Lemma two_uploads_doc :
  ∃ d, db_file two_uploads = Doc d ∧
       lecture_ids d = [Some (VInt 1); Some (VInt 2)].
Proof. eexists. split; vm_compute; reflexivity. Qed.


Lemma two_uploads_file : db_file two_uploads = Doc two_uploads_data.
Proof. reflexivity. Qed.

Lemma add_then_get_witness :
  let w' := (add_lecture "2024-01-03T10:00:00" third_lecture two_uploads).2 in
  db_file two_uploads = Doc two_uploads_data ∧
  add_lecture "2024-01-03T10:00:00" third_lecture two_uploads = (Ok (Some 3%Z), w') ∧
  find_lecture (lectures two_uploads_data) 3 = Ok None ∧
  get_lecture 3 w' = (Ok (Some (stamped "2024-01-03T10:00:00" 3 third_lecture)), w').
Proof.
  assert (add_lecture "2024-01-03T10:00:00" third_lecture two_uploads =
          (Ok (Some 3%Z), (add_lecture "2024-01-03T10:00:00" third_lecture two_uploads).2))
    as Hadd by (vm_compute; reflexivity).
  assert (find_lecture (lectures two_uploads_data) 3 = Ok None) as Hfresh
    by (vm_compute; reflexivity).
  split; [exact two_uploads_file|]. split; [exact Hadd|]. split; [exact Hfresh|].
  exact (add_then_get _ _ _ _ _ _ two_uploads_file Hadd Hfresh).
Defined.

Lemma delete_then_get_witness :
  let w' := (delete_lecture 1 two_uploads).2 in
  db_file two_uploads = Doc two_uploads_data ∧
  delete_lecture 1 two_uploads = (Ok true, w') ∧
  get_lecture 1 w' = (Ok None, w') ∧
  (∀ j, j ≠ 1%Z → (get_lecture j w').1 = (get_lecture j two_uploads).1) ∧
  ∃ d', db_file w' = Doc d' ∧ lectures d' `sublist_of` lectures two_uploads_data.
Proof.
  assert (delete_lecture 1 two_uploads = (Ok true, (delete_lecture 1 two_uploads).2))
    as Hdel by (vm_compute; reflexivity).
  split; [exact two_uploads_file|]. split; [exact Hdel|].
  exact (delete_then_get _ _ _ _ two_uploads_file Hdel).
Defined.

Lemma update_unknown_lecture_witness :
  db_file two_uploads = Doc two_uploads_data ∧
  find_lecture (lectures two_uploads_data) 7 = Ok None ∧
  update_lecture 7 {["summary_text" := VStr "..."]} two_uploads = (Ok false, two_uploads).
Proof.
  assert (find_lecture (lectures two_uploads_data) 7 = Ok None) as Hnone
    by (vm_compute; reflexivity).
  split; [exact two_uploads_file|]. split; [exact Hnone|].
  exact (update_unknown_lecture 7 _ _ _ two_uploads_file Hnone).
Defined.

Lemma update_lecture_frame_witness :
  let u : dict := {["summary_text" := VStr "Cells divide."]} in
  let w' := (update_lecture 2 u two_uploads).2 in
  db_file two_uploads = Doc two_uploads_data ∧
  update_lecture 2 u two_uploads = (Ok true, w') ∧
  u !! "id" = None ∧
  ∃ d' k old, db_file w' = Doc d' ∧
    lectures two_uploads_data !! k = Some old ∧
    find_lecture (lectures two_uploads_data) 2 = Ok (Some old) ∧
    lectures d' = <[k := dict_update old u]> (lectures two_uploads_data) ∧
    settings d' = settings two_uploads_data ∧
    analytics d' = analytics two_uploads_data ∧
    quiz_results d' = quiz_results two_uploads_data ∧
    lecture_ids d' = lecture_ids two_uploads_data.
Proof.
  assert (update_lecture 2 {["summary_text" := VStr "Cells divide."]} two_uploads =
          (Ok true,
           (update_lecture 2 {["summary_text" := VStr "Cells divide."]} two_uploads).2))
    as Hup by (vm_compute; reflexivity).
  assert (({["summary_text" := VStr "Cells divide."]} : dict) !! "id" = None) as Hid
    by reflexivity.
  split; [exact two_uploads_file|]. split; [exact Hup|]. split; [exact Hid|].
  destruct (update_lecture_frame _ _ _ _ _ two_uploads_file Hup)
    as (d' & k & old & H1 & H2 & H3 & H4 & H5 & H6 & H7 & H8).
  exists d', k, old.
  exact (conj H1 (conj H2 (conj H3 (conj H4 (conj H5 (conj H6 (conj H7 (H8 Hid)))))))).
Defined.

Lemma ensure_database_spares_witness :
  db_file broken_file ≠ NoFile ∧ db_file no_file = NoFile ∧ writable no_file = true ∧
  ensure_database broken_file = (Ok tt, broken_file) ∧
  ensure_database no_file = (Ok tt, written initial_data no_file).
Proof.
  assert (db_file broken_file ≠ NoFile) as Hthere by discriminate.
  split; [exact Hthere|]. split; [reflexivity|]. split; [reflexivity|]. split.
  - exact (proj1 (ensure_database_spares broken_file) Hthere).
  - exact (proj1 (proj2 (ensure_database_spares no_file)) eq_refl eq_refl).
Defined.

Lemma queries_never_write_witness :
  loadable broken_file = false ∧
  untouched broken_file (ask GetAllLectures broken_file).2 ∧
  (ask GetAllLectures broken_file).1 = empty_answer GetAllLectures ∧
  length (shown (ask GetAllLectures broken_file).2) = S (length (shown broken_file)).
Proof.
  split; [reflexivity|].
  destruct (queries_never_write GetAllLectures broken_file) as [Hu Hbad].
  split; [exact Hu|]. exact (Hbad eq_refl).
Defined.

Lemma clear_then_add_witness :
  let ld : dict := {["duration" := VFloat (Qc_of_Z 90)]} in
  writable two_uploads = true ∧ json_dict ld ∧
  match ld !! "duration" with Some v => is_Some (num_of v) | None => True end ∧
  ∃ w1 w2 d, clear_all two_uploads = (Ok true, w1) ∧
    add_lecture "2024-01-03T10:00:00" ld w1 = (Ok (Some 1%Z), w2) ∧
    db_file w2 = Doc d ∧ lectures d = [stamped "2024-01-03T10:00:00" 1 ld] ∧
    analytics d !! "total_lectures" = Some (VInt 1) ∧
    settings d = initial_settings ∧ quiz_results d = Some [].
Proof.
  assert (match ({["duration" := VFloat (Qc_of_Z 90)]} : dict) !! "duration" with
          | Some v => is_Some (num_of v) | None => True end) as Hdur.
  { rewrite lookup_singleton_eq. by eexists. }
  assert (json_dict {["duration" := VFloat (Qc_of_Z 90)]}) as Hld
    by (by apply map_Forall_singleton).
  split; [reflexivity|]. split; [exact Hld|]. split; [exact Hdur|].
  exact (clear_then_add "2024-01-03T10:00:00" {["duration" := VFloat (Qc_of_Z 90)]}
           two_uploads eq_refl Hld Hdur).
Defined.

Lemma add_quiz_result_appends_witness :
  let r : dict := {["score" := VInt 80]} in
  let w' := (add_quiz_result "2024-01-03T10:00:00" r two_uploads).2 in
  db_file two_uploads = Doc two_uploads_data ∧
  add_quiz_result "2024-01-03T10:00:00" r two_uploads = (Ok true, w') ∧
  ∃ d', db_file w' = Doc d' ∧
    quiz_results d' =
      Some (default [] (quiz_results two_uploads_data) ++
            [<["taken_at" := VStr "2024-01-03T10:00:00"]> r]) ∧
    lectures d' = lectures two_uploads_data ∧ settings d' = settings two_uploads_data.
Proof.
  assert (add_quiz_result "2024-01-03T10:00:00" {["score" := VInt 80]} two_uploads =
          (Ok true, (add_quiz_result "2024-01-03T10:00:00" {["score" := VInt 80]}
                       two_uploads).2))
    as Hadd by (vm_compute; reflexivity).
  split; [exact two_uploads_file|]. split; [exact Hadd|].
  exact (add_quiz_result_appends _ _ _ _ _ two_uploads_file Hadd).
Defined.

Lemma update_settings_then_get_witness :
  let s : dict := {["language" := VStr "fr"]} in
  let w' := (update_settings s two_uploads).2 in
  db_file two_uploads = Doc two_uploads_data ∧
  update_settings s two_uploads = (Ok true, w') ∧
  get_settings w' = (Ok (s ∪ settings two_uploads_data), w') ∧
  db_file (update_settings s w').2 = db_file w'.
Proof.
  assert (update_settings {["language" := VStr "fr"]} two_uploads =
          (Ok true, (update_settings {["language" := VStr "fr"]} two_uploads).2))
    as Hup by (vm_compute; reflexivity).
  split; [exact two_uploads_file|]. split; [exact Hup|].
  exact (update_settings_then_get _ _ _ _ two_uploads_file Hup).
Defined.

End StateManagerMoreFacts.

(** ** More on the quiz generator *)
Section StrMoreFacts.

Lemma chars_app a b : chars (a +:+ b) = chars a ++ chars b.
Proof. unfold chars. induction a as [|c a IH]; simpl; [done|]. by rewrite IH. Qed.

Lemma len_chars s : len s = length (chars s).
Proof. unfold len, chars. induction s as [|c s IH]; simpl; [done|]. by rewrite IH. Qed.

Lemma len_app a b : len (a +:+ b) = len a + len b.
Proof. by rewrite !len_chars, chars_app, length_app. Qed.

Lemma len_str cs : len (str cs) = length cs.
Proof. by rewrite len_chars, chars_str. Qed.

Lemma chars_inj a b : chars a = chars b → a = b.
Proof. intros H. by rewrite <-(str_chars a), <-(str_chars b), H. Qed.

Lemma len_neq a b : len a ≠ len b → a ≠ b.
Proof. by intros H ->. Qed.

Lemma len_prefix n s : len (prefix n s) = n `min` len s.
Proof. unfold prefix. by rewrite len_str, length_take, <-len_chars. Qed.

Lemma len_drop_last n s : len (drop_last n s) = len s - n.
Proof.
  unfold drop_last. rewrite len_str, length_take, <-len_chars. lia.
Qed.

(** Two strings with different last characters differ. *)
Lemma last_char_neq a b x y c d :
  c ≠ d → a +:+ str (x ++ [c]) ≠ b +:+ str (y ++ [d]).
Proof.
  intros Hcd Heq. apply (f_equal chars) in Heq.
  rewrite !chars_app, !chars_str, !app_assoc in Heq.
  apply app_inj_tail in Heq as [_ Heq]. done.
Qed.

End StrMoreFacts.

Section QuizMoreFacts.
Import QuizGenerator QuizGenerator.

Lemma index_spec l x i : index l x = Ok i → l !! i = Some x.
Proof.
  revert i. induction l as [|y l IH]; intros i; simpl; [done|].
  destruct (String.eqb_spec y x) as [->|_].
  - by intros [= <-].
  - intros H. apply rbind_ok in H as (j & Hj & [= <-]). by apply IH.
Qed.

Lemma index_found l x : x ∈ l → ∃ i, index l x = Ok i.
Proof.
  induction l as [|y l IH]; simpl; [by intros ?%elem_of_nil|].
  destruct (String.eqb_spec y x) as [->|Hne]; [by eauto|].
  intros [?|Hin]%elem_of_cons; [done|].
  destruct (IH Hin) as [i ->]. simpl. eauto.
Qed.

Lemma _generate_distractors_length correct_answer difficulty :
  length (_generate_distractors correct_answer difficulty) = 4.
Proof.
  unfold _generate_distractors.
  destruct (6 <? len correct_answer), (istitle correct_answer); reflexivity.
Qed.


(** X12: the four options of a multiple-choice question are pairwise different
    unless the key term is three characters followed by "ology", as in
    "Ideology": the first distractor is then the key term itself. *)
Theorem distractors_repeat_answer (key_term difficulty : string) :
  NoDup (key_term :: take 3 (_generate_distractors key_term difficulty)) ↔
  key_term ≠ prefix 3 key_term +:+ "ology".
Proof.
  unfold _generate_distractors.
  destruct (6 <? len key_term) eqn:Hlen.
  - apply Nat.ltb_lt in Hlen.
    destruct (istitle key_term); cbn [app firstn].
    all: assert (key_term ≠ drop_last 2 key_term +:+ "tion") as H1
      by (apply len_neq; rewrite len_app, len_drop_last; unfold len in *; cbn [String.length]; lia).
    all: assert (key_term ≠ key_term +:+ "al") as H2
      by (apply len_neq; rewrite len_app; unfold len in *; cbn [String.length]; lia).
    all: assert (prefix 3 key_term +:+ "ology" ≠ drop_last 2 key_term +:+ "tion") as H3
      by (apply len_neq; rewrite !len_app, len_prefix, len_drop_last; unfold len in *; cbn [String.length]; lia).
    all: assert (prefix 3 key_term +:+ "ology" ≠ key_term +:+ "al") as H4
      by (apply len_neq; rewrite !len_app, len_prefix; unfold len in *; cbn [String.length]; lia).
    all: assert (drop_last 2 key_term +:+ "tion" ≠ key_term +:+ "al") as H5
      by (apply (last_char_neq _ _ (chars "tio") (chars "a")); discriminate).
    all: rewrite !NoDup_cons, NoDup_nil, !elem_of_cons, !elem_of_nil; tauto.
  - apply Nat.ltb_ge in Hlen.
    assert (key_term ≠ prefix 3 key_term +:+ "ology") as Hne
      by (apply len_neq; rewrite len_app, len_prefix; unfold len in *; cbn [String.length]; lia).
    destruct (istitle key_term); simpl.
    + assert (key_term ≠ "Alternative") by (apply len_neq; unfold len in *; cbn [String.length]; lia).
      assert (key_term ≠ "Different") by (apply len_neq; unfold len in *; cbn [String.length]; lia).
      assert (key_term ≠ "Another") by (apply len_neq; unfold len in *; cbn [String.length]; lia).
      rewrite !NoDup_cons, NoDup_nil, !elem_of_cons, !elem_of_nil. intuition congruence.
    + assert (key_term ≠ "None of the above") by (apply len_neq; unfold len in *; cbn [String.length]; lia).
      assert (key_term ≠ "All of the above") by (apply len_neq; unfold len in *; cbn [String.length]; lia).
      assert (key_term ≠ "Both A and B") by (apply len_neq; unfold len in *; cbn [String.length]; lia).
      rewrite !NoDup_cons, NoDup_nil, !elem_of_cons, !elem_of_nil. intuition congruence.
Qed.

Lemma count_answer_app a qs1 qs2 :
  count_answer a (qs1 ++ qs2) = count_answer a qs1 + count_answer a qs2.
Proof. unfold count_answer. by rewrite filter_app, length_app. Qed.

Lemma true_false_loop_states E sentences num cands : ∀ i questions qs,
  true_false_loop E num i cands questions = Ok qs →
  cands ⊆ sentences →
  Forall (states E sentences) questions →
  count_answer "False" questions + i mod 2 ≤ count_answer "True" questions →
  Forall (states E sentences) qs ∧ count_answer "False" qs ≤ count_answer "True" qs.
Proof.
  induction cands as [|s cands IH]; intros i questions qs; cbn [true_false_loop].
  - intros [= <-] _ Hst Hcount. split; [done|lia].
  - intros H Hsub Hst Hcount.
    assert (s ∈ sentences) as Hs by (apply Hsub; left).
    assert (cands ⊆ sentences) as Hsub' by (intros x Hx; apply Hsub; by right).
    assert (S i mod 2 = 1 - i mod 2 ∧ i mod 2 < 2) as [HS Hlt].
    { pose proof (Nat.div_mod_eq i 2). pose proof (Nat.div_mod_eq (S i) 2).
      pose proof (Nat.mod_upper_bound i 2). pose proof (Nat.mod_upper_bound (S i) 2).
      lia. }
    set (r := i mod 2) in *.
    destruct (num <=? length questions); [injection H as <-; split; [done|lia]|].
    destruct (r =? 0) eqn:Hpar.
    + apply Nat.eqb_eq in Hpar.
      apply IH in H; [done|done| |].
      * apply Forall_app. split; [done|]. constructor; [|done]. by left.
      * rewrite HS, !count_answer_app. unfold count_answer at 2 4. simpl. lia.
    + apply Nat.eqb_neq in Hpar.
      apply rbind_ok in H as (modified & Hmod & H).
      destruct (String.eqb_spec modified s) as [->|Hne]; simpl in H.
      * apply IH in H; [done|done|done|rewrite HS; lia].
      * apply IH in H; [done|done| |].
        -- apply Forall_app. split; [done|]. constructor; [|done]. right.
           split; [done|]. exists s. done.
        -- rewrite HS, !count_answer_app. unfold count_answer at 2 4. simpl. lia.
Qed.

(** X13: every true/false question either quotes a sentence of the lecture and
    is marked true, or carries a changed sentence, marked false and explained
    by the original; and the false ones never outnumber the true ones. *)
Theorem true_false_statements (E : env) (sentences : list string) (n : nat)
    (qs : list question) :
  shuffle_permutes E →
  _generate_true_false E sentences n = Ok qs →
  Forall (states E sentences) qs ∧
  count_answer "False" qs ≤ count_answer "True" qs.
Proof.
  intros Hperm. unfold _generate_true_false.
  destruct (List.filter _ sentences) as [|c cs] eqn:Hf.
  - intros [= <-]. split; [done|unfold count_answer; simpl; lia].
  - intros H. eapply true_false_loop_states in H; [done| |done|].
    + intros s Hs%subseteq_take. rewrite (Hperm _ _), <-Hf in Hs.
      apply list_elem_of_In, List.filter_In in Hs as [Hs _]. by apply list_elem_of_In.
    + unfold count_answer. simpl. lia.
Qed.

(** X14: the options of a multiple-choice question are the key term and three
    distractors, lettered A to D, and the letter recorded as correct carries
    the key term that was blanked out of the sentence. *)
Theorem mcq_options_lettered (E : env) (sentence difficulty : string) (q : question) :
  shuffle_permutes E →
  mcq_question E sentence difficulty = Ok (Some q) →
  ∃ key_term o1 o2 o3 o4,
    options q = Some [("A", o1); ("B", o2); ("C", o3); ("D", o4)] ∧
    [o1; o2; o3; o4] ≡ₚ key_term :: take 3 (_generate_distractors key_term difficulty) ∧
    (correct_answer q, key_term) ∈ [("A", o1); ("B", o2); ("C", o3); ("D", o4)] ∧
    qtext q = "What fits best in the blank?" +:+ NL +:+ NL +:+
              replace key_term "______" sentence.
Proof.
  intros Hperm. unfold mcq_question. destruct (map _ _) as [|k ks]; [done|].
  intros H. apply rbind_ok in H as (key_term & _ & H).
  apply rbind_ok in H as (i & Hi & [= <-]). cbn [options correct_answer qtext].
  pose proof (Hperm _ ([key_term] ++ take 3 (_generate_distractors key_term difficulty)))
    as Hp.
  pose proof (Permutation_length Hp) as Hlen.
  pose proof (_generate_distractors_length key_term difficulty) as Hfour.
  rewrite length_app, length_take, Hfour in Hlen. simpl in Hlen.
  apply index_spec in Hi.
  destruct (shuffle E _ _) as [|o1 [|o2 [|o3 [|o4 [|o5 opts]]]]]; try discriminate Hlen.
  exists key_term, o1, o2, o3, o4.
  split; [reflexivity|]. split; [exact Hp|]. split; [|reflexivity].
  destruct i as [|[|[|[|i]]]]; simpl in Hi; try discriminate Hi;
    injection Hi as ->; set_solver.
Qed.


(** *** The share of each question type *)

Lemma count_type_perm k (l1 l2 : list question) :
  l1 ≡ₚ l2 → count_type k l1 = count_type k l2.
Proof.
  unfold count_type. induction 1 as [|x l1 l2 _ IH|x y l|l1 l2 l3 _ IH1 _ IH2].
  - done.
  - rewrite !filter_cons. destruct (decide _); simpl; by rewrite IH.
  - rewrite !filter_cons. by destruct (decide _), (decide _).
  - by rewrite IH1.
Qed.

Lemma count_type_take k n (l : list question) :
  count_type k (take n l) ≤ count_type k l.
Proof.
  unfold count_type. revert n. induction l as [|x l IH]; intros [|n]; simpl; try lia.
  rewrite !filter_cons. specialize (IH n). destruct (decide _); simpl; lia.
Qed.

Lemma count_type_app k (l1 l2 : list question) :
  count_type k (l1 ++ l2) = count_type k l1 + count_type k l2.
Proof. unfold count_type. by rewrite filter_app, length_app. Qed.

Lemma count_type_le k (l : list question) : count_type k l ≤ length l.
Proof. unfold count_type. apply sublist_length, sublist_filter. Qed.

Lemma count_type_other k k' (l : list question) :
  k ≠ k' → Forall (of_type k') l → count_type k l = 0.
Proof.
  intros Hk. unfold count_type. induction 1 as [|x l Hx _ IH]; [done|].
  rewrite filter_cons. destruct (decide _) as [Hx'|_]; [|done].
  unfold of_type in Hx. congruence.
Qed.

Lemma mcq_question_of_type E sentence difficulty q :
  mcq_question E sentence difficulty = Ok (Some q) → of_type "multiple_choice" q.
Proof.
  unfold mcq_question. destruct (map _ _); [done|].
  intros H. apply rbind_ok in H as (kt & _ & H).
  apply rbind_ok in H as (i & _ & H). by injection H as <-.
Qed.

Lemma mcq_loop_of_type E num difficulty cands : ∀ questions used qs,
  mcq_loop E num difficulty cands questions used = Ok qs →
  Forall (of_type "multiple_choice") questions →
  Forall (of_type "multiple_choice") qs.
Proof.
  induction cands as [|s cands IH]; intros questions used qs; simpl.
  - by intros [= <-].
  - destruct (num <=? length questions); [by intros [= <-]|].
    destruct (bool_decide _); [apply IH|].
    intros H Hty. apply rbind_ok in H as ([q|] & Hq & H); [|by eapply IH].
    eapply IH; [exact H|]. apply Forall_app. split; [done|].
    constructor; [|done]. by eapply mcq_question_of_type.
Qed.

Lemma true_false_loop_of_type E num cands : ∀ i questions qs,
  true_false_loop E num i cands questions = Ok qs →
  Forall (of_type "true_false") questions →
  Forall (of_type "true_false") qs.
Proof.
  induction cands as [|s cands IH]; intros i questions qs; cbn [true_false_loop].
  - by intros [= <-].
  - destruct (num <=? length questions); [by intros [= <-]|].
    destruct (i mod 2 =? 0).
    + intros H Hty. eapply IH; [exact H|].
      apply Forall_app. split; [done|]. by constructor.
    + intros H Hty. apply rbind_ok in H as (modified & _ & H).
      destruct (negb _); [|by eapply IH].
      eapply IH; [exact H|]. apply Forall_app. split; [done|]. by constructor.
Qed.

Lemma fill_blank_loop_of_type E cands : ∀ questions qs,
  fill_blank_loop E cands questions = Ok qs →
  Forall (of_type "fill_blank") questions →
  Forall (of_type "fill_blank") qs.
Proof.
  induction cands as [|s cands IH]; intros questions qs; simpl.
  - by intros [= <-].
  - destruct (List.filter _ _); [apply IH|].
    intros H Hty. apply rbind_ok in H as (picked & _ & H).
    apply rbind_ok in H as (qw & _ & H).
    eapply IH; [exact H|]. apply Forall_app. split; [done|]. by constructor.
Qed.

(** Peels a run of the generator apart, bind by bind. *)
Ltac peel_quiz :=
  repeat match goal with
  | H : bind _ _ _ = _ |- _ =>
      apply bind_inv in H as [(? & ? & ? & H)|(? & ? & ?)]
  | H : lift _ _ = _ |- _ => apply lift_inv in H as [? ?]
  | H : ret _ _ = _ |- _ => apply ret_inv in H as [? ?]
  | H : St.show _ _ = _ |- _ => apply show_inv in H as [? ?]
  | H : (if ?c then _ else _) _ = _ |- _ => destruct c eqn:?
  | _ => progress simplify_eq
  end.

(** The three batches behind a quiz: at most 60% multiple-choice questions,
    at most 20% true/false questions, the rest fill-in questions. *)
Lemma generate_quiz_body_batches E text n difficulty log qs log' :
  generate_quiz_body E text n difficulty log = (Ok qs, log') →
  ∃ m mcq tf fib, m ≤ n ∧
    Forall (of_type "multiple_choice") mcq ∧ length mcq ≤ sixty_percent m ∧
    Forall (of_type "true_false") tf ∧ length tf ≤ twenty_percent m ∧
    Forall (of_type "fill_blank") fib ∧
    qs = take m (shuffle E _ ((mcq ++ tf) ++ fib)).
Proof.
  unfold generate_quiz_body. intros H. peel_quiz;
    match goal with
    | Hs : Ok ?ss = sent_tokenize _ _,
      Hm : Ok ?m = _generate_mcq _ _ ?k _, Ht : Ok ?t = _generate_true_false _ _ _,
      Hf : Ok ?f = _generate_fill_blank _ _ _ |- _ =>
        symmetry in Hm, Ht, Hf; destruct m as [mcq ss'];
        pose proof (_generate_mcq_spec _ _ _ _ _ _ Hm) as [_ Hlm];
        pose proof (_generate_true_false_spec _ _ _ _ Ht) as [_ Hlt];
        unfold _generate_mcq in Hm; apply rbind_ok in Hm as (? & Hm & [= <- _]);
        apply mcq_loop_of_type in Hm; [|done];
        unfold _generate_true_false in Ht;
        unfold _generate_fill_blank in Hf
    end; cbn [fst snd] in *.
  all: match goal with
       | Ht : match ?c with [] => _ | _ => _ end = Ok ?t,
         Hf : match ?c' with [] => _ | _ => _ end = Ok ?f |- _ =>
           assert (Forall (of_type "true_false") t) as Htt
             by (destruct c; [by injection Ht as <-|
                              by eapply true_false_loop_of_type in Ht]);
           assert (Forall (of_type "fill_blank") f) as Hff
             by (destruct c'; [by injection Hf as <-|
                               by eapply fill_blank_loop_of_type in Hf])
       end.
  - apply Nat.ltb_lt in Heqb. eexists _, _, _, _.
    split; [|split; [done|]; split; [done|]; split; [done|]; split; [done|];
             split; [done|reflexivity]]. lia.
  - eexists _, _, _, _.
    split; [|split; [done|]; split; [done|]; split; [done|]; split; [done|];
             split; [done|reflexivity]]. lia.
Qed.

Lemma percent_mono (m n : nat) :
  m ≤ n → sixty_percent m ≤ sixty_percent n ∧ twenty_percent m ≤ twenty_percent n.
Proof.
  intros H. unfold sixty_percent, twenty_percent.
  split; apply Nat.Div0.div_le_mono; lia.
Qed.

(** X15: whatever the text, at most 60% of the number of questions asked for
    come back as multiple-choice questions and at most 20% as true/false
    questions, both rounded down. *)
Theorem quiz_type_quotas (E : env) (text : string) (n : nat) (difficulty : string)
    (log : St.ui) (qs : list question) :
  shuffle_permutes E →
  quiz_of E text n difficulty log = Ok qs →
  count_type "multiple_choice" qs ≤ 3 * n / 5 ∧
  count_type "true_false" qs ≤ n / 5.
Proof.
  intros Hperm. unfold quiz_of.
  destruct (generate_quiz_body E text n difficulty log) as [[qs'|e] log'] eqn:H.
  - rewrite (generate_quiz_passed _ _ _ _ _ _ _ H). intros [= <-].
    apply generate_quiz_body_batches in H
      as (m & mcq & tf & fib & Hm & Hmcq & Hlm & Htf & Hlt & Hfib & ->).
    destruct (percent_mono m n Hm) as [H60 H20].
    unfold sixty_percent, twenty_percent in *.
    assert (count_type "multiple_choice" ((mcq ++ tf) ++ fib) ≤ 3 * n / 5) as Hc1.
    { rewrite !count_type_app,
        (count_type_other "multiple_choice" "true_false" tf),
        (count_type_other "multiple_choice" "fill_blank" fib) by done.
      pose proof (count_type_le "multiple_choice" mcq). lia. }
    assert (count_type "true_false" ((mcq ++ tf) ++ fib) ≤ n / 5) as Hc2.
    { rewrite !count_type_app,
        (count_type_other "true_false" "multiple_choice" mcq),
        (count_type_other "true_false" "fill_blank" fib) by done.
      pose proof (count_type_le "true_false" tf). lia. }
    split.
    + etrans; [apply count_type_take|]. by rewrite (count_type_perm _ _ _ (Hperm _ _)).
    + etrans; [apply count_type_take|]. by rewrite (count_type_perm _ _ _ (Hperm _ _)).
  - rewrite (generate_quiz_caught _ _ _ _ _ _ _ H). intros [= <-].
    unfold count_type. simpl. lia.
Qed.


(** *** Flashcards *)
Lemma flashcard_loop_spec E sentences cands : ∀ flashcards cards,
  choice_picks E →
  flashcard_loop E cands flashcards = Ok cards →
  cands ⊆ sentences →
  Forall (quotes sentences) flashcards →
  Forall (quotes sentences) cards ∧ length cards ≤ length flashcards + length cands.
Proof.
  intros flashcards cards Hpick. revert flashcards cards.
  induction cands as [|s cands IH]; intros flashcards cards; cbn [flashcard_loop].
  - intros [= <-] _ Hq. split; [done|lia].
  - intros H Hsub Hq.
    assert (s ∈ sentences) as Hs by (apply Hsub; left).
    assert (cands ⊆ sentences) as Hsub' by (intros x Hx; apply Hsub; by right).
    destruct (map _ _) as [|k ks] eqn:Hterms.
    { apply IH in H as [? ?]; [|done|done]. split; [done|simpl; lia]. }
    apply rbind_ok in H as (key_term & Hkt & H).
    apply IH in H as [? Hlen]; [| done |].
    + split; [done|]. rewrite length_app in Hlen. simpl in *. lia.
    + apply Forall_app. split; [done|]. constructor; [|done].
      split; [done|]. split; [done|]. cbn [back topic].
      apply Hpick in Hkt. rewrite <-Hterms in Hkt.
      apply list_elem_of_fmap in Hkt as (w & -> & Hw).
      apply list_elem_of_In, List.filter_In in Hw as [Hw Hlong].
      exists w. split; [by apply list_elem_of_In|]. split; [|done].
      apply andb_true_iff in Hlong as [Hlong _]. by apply Nat.ltb_lt in Hlong.
Qed.

(** X16: [generate_flashcards] returns at most [num_cards] cards and at most
    one per sentence; each card has a sentence of the text on its back and
    asks on its front about a word of that sentence longer than four
    characters, without its surrounding punctuation. *)
Theorem flashcards_quote_sentences (E : env) (text : string) (n : nat) (log : St.ui)
    (ss : list string) :
  shuffle_permutes E → choice_picks E →
  sent_tokenize E text = Ok ss →
  ∃ cards log', generate_flashcards E text n log = (Ok cards, log') ∧
    length cards ≤ n ∧ length cards ≤ length ss ∧
    Forall (quotes ss) cards.
Proof.
  intros Hperm Hpick Hss. unfold generate_flashcards, try_catch.
  destruct (generate_flashcards_body E text n log) as [[cards|e] log'] eqn:H.
  - exists cards, log'. split; [done|].
    unfold generate_flashcards_body in H. peel_quiz.
    match goal with
    | Hl : Ok _ = flashcard_loop _ _ _ |- _ =>
        symmetry in Hl; rename Hl into Hloop
    end.
    match goal with
    | Ht : Ok _ = sent_tokenize _ _ |- _ => rewrite Hss in Ht; injection Ht as ->
    end.
    set (cands := match List.filter _ ss with [] => ss | _ => _ end) in Hloop.
    assert (cands ⊆ ss) as Hsub.
    { unfold cands. destruct (List.filter _ ss) as [|c cs] eqn:Hf; [done|].
      rewrite <-Hf. intros x Hx.
      apply list_elem_of_In, List.filter_In in Hx as [Hx _]. by apply list_elem_of_In. }
    assert (length cands ≤ length ss) as Hlen.
    { unfold cands. destruct (List.filter _ ss) as [|c cs] eqn:Hf; [done|].
      rewrite <-Hf. apply filter_length_le. }
    eapply (flashcard_loop_spec _ ss) in Hloop as [Hq Hl]; [|done| |done].
    + rewrite length_take, (Permutation_length (Hperm _ cands)) in Hl. simpl in Hl.
      split; [lia|]. split; [lia|done].
    + intros x Hx%subseteq_take. rewrite (Hperm _ _) in Hx. by apply Hsub.
  - unfold bind, St.show, ret. eexists [], _. split; [reflexivity|].
    split; [simpl; lia|]. split; [simpl; lia|done].
Qed.

(** *** Grading with the answer key *)
Lemma as_dict_type q : as_dict q !! "type" = Some (VStr (qtype q)).
Proof.
  unfold as_dict. destruct (options q); by rewrite ?(lookup_insert_ne _ "options"), lookup_insert_eq.
Qed.

Lemma as_dict_correct_answer q :
  as_dict q !! "correct_answer" = Some (VStr (correct_answer q)).
Proof.
  unfold as_dict.
  destruct (options q); rewrite ?(lookup_insert_ne _ "options") by done;
    do 2 (rewrite lookup_insert_ne by done); by rewrite lookup_insert_eq.
Qed.

(** The dicts of the generator can be graded against any string. *)
Lemma as_dict_gradable q a : gradable (as_dict q) (VStr a) = true.
Proof.
  unfold gradable. rewrite as_dict_correct_answer, as_dict_type.
  cbn. apply orb_true_r.
Qed.

Lemma judged_correct_key q : judged_correct (as_dict q) (VStr (correct_answer q)).
Proof.
  unfold judged_correct. destruct (is_fill_blank (as_dict q)).
  - exists (correct_answer q), (correct_answer q).
    by rewrite as_dict_correct_answer.
  - exists (VStr (correct_answer q)). rewrite as_dict_correct_answer.
    split; [done|]. by apply py_eq_strings.
Qed.

Lemma filter_all {A} (f : A → bool) l : Forall (λ x, f x = true) l → List.filter f l = l.
Proof. induction 1 as [|x l Hx _ IH]; simpl; [done|]. by rewrite Hx, IH. Qed.

Lemma answer_key_lookup questions i :
  default (VStr "") (answer_key questions !! i) =
  VStr (default "" (correct_answer <$> questions !! i)).
Proof.
  unfold answer_key. rewrite lookup_map_seq_0, list_lookup_fmap.
  by destruct (questions !! i).
Qed.

(** X17: answering every question with its stored answer is marked correct
    throughout, and scores 100. *)
Theorem answer_key_scores_full (questions : list question) (log : St.ui) :
  questions ≠ [] →
  ∃ g, grade_quiz (as_dict <$> questions) (answer_key questions) log = (Ok (Some g), log) ∧
    correct g = length questions ∧ total g = length questions ∧
    Forall (λ r, r_correct r = true) (results g) ∧
    score g = VFloat (Qc_of_Z 100).
Proof.
  intros Hne.
  destruct (grade_quiz_spec (as_dict <$> questions) (answer_key questions) log)
    as (g & Hg & Htot & _ & Hlen & Hcorr & Hres & Hscore & _).
  { intros i q Hq. rewrite answer_key_lookup.
    apply list_lookup_fmap_Some in Hq as (q0 & -> & _). apply as_dict_gradable. }
  rewrite length_fmap in Htot.
  assert (Forall (λ r, r_correct r = true) (results g)) as Hall.
  { apply Forall_lookup. intros i r Hr.
    destruct (questions !! i) as [q|] eqn:Hq.
    - destruct (Hres i (as_dict q)) as (r' & Hr' & _ & Hua & _ & _ & Hok).
      { by rewrite list_lookup_fmap, Hq. }
      simplify_eq. apply Hok. rewrite Hua, answer_key_lookup, Hq.
      apply judged_correct_key.
    - apply lookup_ge_None in Hq. apply lookup_lt_Some in Hr. lia. }
  exists g. split; [done|].
  assert (correct g = length questions) as Hc.
  { rewrite Hcorr, (filter_all _ _ Hall). lia. }
  split; [done|]. split; [done|]. split; [done|].
  rewrite Hscore, Hc, Htot. destruct (decide (length questions = 0%nat)) as [H0|H0].
  - destruct questions; simpl in H0; congruence.
  - f_equal. apply percentage_full. lia.
Qed.

End QuizMoreFacts.

(** ** The quiz page *)
Section QuizPageFacts.
Import QuizGenerator QuizPage.

Lemma results_loop_spec quiz_answers qs : ∀ i c,
  results_loop quiz_answers i qs c =
  c + length (filter (left_blank quiz_answers) (seq i (length qs))).
Proof.
  induction qs as [|q qs IH]; intros i c; simpl; [lia|].
  rewrite IH, filter_cons.
  destruct (decide (left_blank quiz_answers i)) as [Hu|Hu]; unfold left_blank in Hu;
    destruct (default (Some "") (quiz_answers !! i)) as [u|]; simpl.
  - rewrite Hu. simpl. lia.
  - done.
  - destruct (strip (lower u)); [done|lia].
  - lia.
Qed.

Lemma filter_none {A} (P : A → Prop) `{∀ x, Decision (P x)} (l : list A) :
  Forall (λ x, ¬ P x) l → filter P l = [].
Proof.
  induction 1 as [|x l Hx _ IH]; [done|].
  rewrite filter_cons. by destruct (decide (P x)).
Qed.

(** X18: the results view counts an answer as correct exactly when it is blank
    or missing, whatever the question: it compares the answer with the value
    under the key [answer], which no generated question has. *)
Theorem page_counts_blank_answers (questions : list question) (quiz_answers : answers) :
  page_correct questions quiz_answers =
    length (filter (left_blank quiz_answers) (seq 0 (length questions))).
Proof. unfold page_correct. by rewrite results_loop_spec. Qed.

(** X19: a reader who gives the stored answer to every question is told by the
    results view that nothing was right, as long as no stored answer is blank. *)
Theorem page_rejects_answer_key (questions : list question) :
  Forall (λ q, strip (lower (correct_answer q)) ≠ "") questions →
  page_correct questions (key_answers questions) = 0.
Proof.
  intros Hall. unfold page_correct. rewrite results_loop_spec. simpl.
  replace (filter _ _) with (@nil nat); [done|]. symmetry.
  apply filter_none, Forall_forall. intros i Hi%elem_of_seq.
  unfold left_blank, key_answers. rewrite lookup_map_seq_0, list_lookup_fmap.
  destruct (questions !! i) as [q|] eqn:Hq.
  - simpl. eapply Forall_lookup_1 in Hall; [|exact Hq]. done.
  - apply lookup_ge_None in Hq. lia.
Qed.

End QuizPageFacts.

Section QuizMoreSamples.
Import QuizGenerator QuizPage Samples.

Lemma quiz_env_picks : choice_picks quiz_env.
Proof. intros A [|y l] x; simpl; [done|]. intros [= <-]. left. Qed.

Lemma mcq_options_lettered_witness :
  shuffle_permutes quiz_env ∧
  ∃ q, mcq_question quiz_env first_sentence "medium" = Ok (Some q) ∧
  ∃ key_term o1 o2 o3 o4,
    options q = Some [("A", o1); ("B", o2); ("C", o3); ("D", o4)] ∧
    [o1; o2; o3; o4] ≡ₚ key_term :: take 3 (_generate_distractors key_term "medium") ∧
    (correct_answer q, key_term) ∈ [("A", o1); ("B", o2); ("C", o3); ("D", o4)] ∧
    qtext q = "What fits best in the blank?" +:+ NL +:+ NL +:+
              replace key_term "______" first_sentence.
Proof.
  assert (∃ q, mcq_question quiz_env first_sentence "medium" = Ok (Some q)) as [q Hq]
    by (vm_compute; eauto).
  split; [exact quiz_env_permutes|]. exists q. split; [exact Hq|].
  exact (mcq_options_lettered quiz_env first_sentence "medium" q quiz_env_permutes Hq).
Defined.

Lemma true_false_statements_witness :
  shuffle_permutes quiz_env ∧
  ∃ qs, _generate_true_false quiz_env two_sentences 2 = Ok qs ∧
    Forall (states quiz_env two_sentences) qs ∧
    count_answer "False" qs ≤ count_answer "True" qs.
Proof.
  assert (∃ qs, _generate_true_false quiz_env two_sentences 2 = Ok qs)
    as [qs Hqs] by (vm_compute; eauto).
  split; [exact quiz_env_permutes|]. exists qs. split; [exact Hqs|].
  exact (true_false_statements quiz_env _ 2 qs quiz_env_permutes Hqs).
Defined.

Lemma quiz_type_quotas_witness :
  shuffle_permutes quiz_env ∧
  ∃ qs, quiz_of quiz_env lecture_text 5 "medium" [] = Ok qs ∧
    count_type "multiple_choice" qs ≤ 3 * 5 / 5 ∧
    count_type "true_false" qs ≤ 5 / 5.
Proof.
  assert (∃ qs, quiz_of quiz_env lecture_text 5 "medium" [] = Ok qs)
    as [qs Hqs] by (vm_compute; eauto).
  split; [exact quiz_env_permutes|]. exists qs. split; [exact Hqs|].
  exact (quiz_type_quotas quiz_env lecture_text 5 "medium" [] qs quiz_env_permutes Hqs).
Defined.

Lemma flashcards_quote_sentences_witness :
  shuffle_permutes quiz_env ∧ choice_picks quiz_env ∧
  sent_tokenize quiz_env lecture_text = Ok (period_tokenize lecture_text) ∧
  ∃ cards log', generate_flashcards quiz_env lecture_text 3 [] = (Ok cards, log') ∧
    length cards ≤ 3 ∧ length cards ≤ length (period_tokenize lecture_text) ∧
    Forall (quotes (period_tokenize lecture_text)) cards.
Proof.
  split; [exact quiz_env_permutes|]. split; [exact quiz_env_picks|].
  split; [reflexivity|].
  exact (flashcards_quote_sentences quiz_env lecture_text 3 [] _
           quiz_env_permutes quiz_env_picks eq_refl).
Defined.

Lemma answer_key_scores_full_witness :
  two_questions ≠ [] ∧
  ∃ g, grade_quiz (as_dict <$> two_questions) (answer_key two_questions) [] =
         (Ok (Some g), []) ∧
    correct g = length two_questions ∧ total g = length two_questions ∧
    Forall (λ r, r_correct r = true) (results g) ∧
    score g = VFloat (Qc_of_Z 100).
Proof.
  assert (two_questions ≠ []) as Hne by discriminate.
  split; [exact Hne|]. exact (answer_key_scores_full two_questions [] Hne).
Defined.

(** The answers of a reader who is right about the first question and
    types the second answer in capitals, with blanks around it. *)
Lemma grade_quiz_counts_witness :
  let questions := as_dict <$> two_questions in
  let answers : gmap nat value := <[0 := VStr "True"]> {[1 := VStr " CHLOROPHYLL "]} in
  let unkeyed : list dict := [{["type" := VStr "true_false"]}] in
  (∀ i q, questions !! i = Some q →
          gradable q (default (VStr "") (answers !! i)) = true) ∧
  (∃ g, grade_quiz questions answers [] = (Ok (Some g), []) ∧
        total g = 2 ∧ correct g ≤ 2 ∧
        ∃ x, num_of (score g) = Some x ∧ (0 ≤ x ≤ Qc_of_Z 100)%Qc) ∧
  gradable {["type" := VStr "true_false"]} (VStr "") = false ∧
  ∃ msg, grade_quiz unkeyed ∅ [] = (Ok None, [St.error msg]).
Proof.
  cbv zeta.
  assert (∀ i q, (as_dict <$> two_questions) !! i = Some q →
            gradable q (default (VStr "")
              ((<[0 := VStr "True"]> {[1 := VStr " CHLOROPHYLL "]} : gmap nat value) !! i))
            = true) as Hall.
  { intros [|[|i]] q Hq; try done; by injection Hq as <-. }
  assert (gradable {["type" := VStr "true_false"]} (VStr "") = false) as Hbad
    by (vm_compute; reflexivity).
  split; [exact Hall|]. split; [|split; [exact Hbad|]].
  - destruct (proj1 (grade_quiz_counts (as_dict <$> two_questions)
                       (<[0 := VStr "True"]> {[1 := VStr " CHLOROPHYLL "]}) []) Hall)
      as (g & Hg & Ht & Hc & _ & _ & _ & _ & Hx).
    exists g. rewrite Ht in Hc. by repeat split.
  - exact (proj2 (grade_quiz_counts [{["type" := VStr "true_false"]}] ∅ [])
             0 {["type" := VStr "true_false"]} eq_refl Hbad).
Defined.

(** C8 as stated fails: not every list of questions is graded.  For a
    question without its [correct_answer] the [KeyError] is caught and
    [grade_quiz] returns [None]. *)
Lemma grade_quiz_gives_up_without_answer :
  ¬ (∀ (questions : list dict) (answers : gmap nat value) (log : St.ui),
       ∃ g, (grade_quiz questions answers log).1 = Ok (Some g) ∧
            total g = length questions ∧ correct g ≤ total g).
Proof.
  intros H.
  destruct (H [{["type" := VStr "true_false"]}] ∅ []) as (g & Hg & _).
  vm_compute in Hg. discriminate Hg.
Qed.

(** One answer right out of three scores the double 33.33333333333333 (100
    times the double nearest to a third), which is not the fraction
    100/3. *)
Example one_right_of_three :
  let questions : list dict :=
    [{["type" := VStr "true_false"; "correct_answer" := VStr "True"]};
     {["type" := VStr "true_false"; "correct_answer" := VStr "True"]};
     {["type" := VStr "true_false"; "correct_answer" := VStr "False"]}] in
  let answers : gmap nat value :=
    <[0 := VStr "False"]> (<[1 := VStr "False"]> {[2 := VStr "False"]}) in
  ∃ g, (grade_quiz questions answers []).1 = Ok (Some g) ∧
       correct g = 1 ∧ total g = 3 ∧
       score g = VFloat (Qc_of_Z 2345624805922133 / Qc_of_Z 70368744177664) ∧
       score g ≠ VFloat (Qc_of_Z 100 / Qc_of_Z 3).
Proof.
  cbv zeta. eexists. split; [vm_compute; reflexivity|].
  cbn [correct total score]. split; [done|]. split; [done|]. split.
  - f_equal; by apply Qc_is_canon.
  - by intros [= H].
Qed.

Lemma page_rejects_answer_key_witness :
  Forall (λ q, strip (lower (correct_answer q)) ≠ "") two_questions ∧
  page_correct two_questions (key_answers two_questions) = 0.
Proof.
  assert (Forall (λ q, strip (lower (correct_answer q)) ≠ "") two_questions) as Hall
    by (repeat constructor; vm_compute; discriminate).
  split; [exact Hall|]. exact (page_rejects_answer_key two_questions Hall).
Defined.

End QuizMoreSamples.

(** ** More on the summarizer *)
Section SummarizerMoreFacts.
Import Summarizer Summarizer.

Lemma words_in_app a b : words_in (a ++ b) = words_in a + words_in b.
Proof.
  unfold words_in. induction a as [|x a IH]; simpl; [done|]. rewrite IH. lia.
Qed.

Lemma split_loop_groups max_length sentences : ∀ chunks current_chunk current_length,
  current_length = words_in current_chunk →
  (current_chunk = [] ∨ fits max_length current_chunk) →
  ∃ groups,
    split_loop max_length sentences chunks current_chunk current_length =
      chunks ++ map (join " ") groups ∧
    concat groups = current_chunk ++ sentences ∧
    Forall (fits max_length) groups.
Proof.
  induction sentences as [|s sentences IH]; intros chunks cur n Hn Hcur; simpl.
  - destruct cur as [|c cur].
    + exists []. by rewrite app_nil_r.
    + exists [c :: cur]. simpl. rewrite !app_nil_r. split; [done|]. split; [done|].
      constructor; [|done]. by destruct Hcur.
  - destruct (_ && _) eqn:Hfull.
    + apply andb_true_iff in Hfull as [_ Hne].
      apply negb_true_iff, bool_decide_eq_false in Hne.
      destruct Hcur as [?|Hfits]; [done|].
      destruct (IH (chunks ++ [join " " cur]) [s] (length (split s))) as (gs & -> & Hc & Hf).
      { unfold words_in. simpl. lia. }
      { right. split; [done|]. by right. }
      exists (cur :: gs). rewrite <-app_assoc. simpl. split; [done|].
      split; [by rewrite Hc|]. by constructor.
    + destruct (IH chunks (cur ++ [s]) (n + length (split s))) as (gs & -> & Hc & Hf).
      { rewrite words_in_app, Hn. change (words_in [s]) with (length (split s) + 0). lia. }
      { right. split; [by destruct cur|].
        apply andb_false_iff in Hfull as [Hle|He].
        - left. apply Nat.ltb_ge in Hle. rewrite words_in_app, <-Hn.
          change (words_in [s]) with (length (split s) + 0). lia.
        - right. apply negb_false_iff, bool_decide_eq_true in He. by rewrite He. }
      exists gs. split; [done|]. split; [|done]. by rewrite Hc, <-app_assoc.
Qed.

(** X20: [_split_text] cuts the sentences of the text into consecutive runs
    and joins each run with blanks: no sentence is lost, repeated, reordered
    or cut, no chunk is empty, and a chunk holds more than [max_length] words
    only when it is a single sentence. *)
Theorem split_text_keeps_sentences (E : env) (text : string) (max_length : nat)
    (sentences : list string) :
  sent_tokenize E text = Ok sentences →
  ∃ groups, _split_text E text max_length = Ok (map (join " ") groups) ∧
    concat groups = sentences ∧
    Forall (fits max_length) groups.
Proof.
  intros Hss. unfold _split_text. rewrite Hss. simpl.
  destruct (split_loop_groups max_length sentences [] [] 0) as (gs & -> & Hc & Hf);
    [done|by left|].
  exists gs. done.
Qed.


(** X21: with a pipeline at hand and a sentence tokenizer that answers,
    [summarize] labels its result [transformer] and names the model, whatever
    the pipeline returns or raises, for every style but [bullet_points]; the
    lengths it reports are those of the text and of the summary. *)
Theorem pipeline_at_hand_labels_transformer (E : env) (s : self) (text : string)
    (max_length min_length : nat) (style : string) (sentences : list string) :
  50 ≤ len (strip text) → style ≠ "bullet_points" →
  pipeline_at_hand E s →
  sent_tokenize E text = Ok sentences →
  ∃ r, (summarize E s text max_length min_length style).1 = Ok r ∧
       method r = "transformer" ∧ model r = Some (model_name s) ∧
       original_length r = len text ∧ summary_length r = len (summary r) ∧
       is_Some (summarizer (summarize E s text max_length min_length style).2).
Proof.
  intros Hlen Hstyle [Huse Hp] Hss. unfold summarize.
  rewrite (long_text_passes _ Hlen). apply String.eqb_neq in Hstyle.
  rewrite Hstyle, andb_false_r, Huse.
  assert (∃ p, (match summarizer s with
                | None => (load_model E s).2
                | Some _ => s
                end) = mk_self (model_name s) (Some p) true) as [p ->].
  { destruct s as [name [p|] use]; simpl in *.
    - exists p. by rewrite Huse.
    - destruct Hp as [[? [=]]|[p Hp]]. exists p. unfold load_model. simpl. by rewrite Hp. }
  cbn [summarizer]. unfold _transformer_summarize, _split_text. rewrite Hss.
  cbn [rbind summarizer model_name]. eexists. split; [reflexivity|].
  cbn [method model original_length summary_length summary fst snd summarizer].
  repeat split; done.
Qed.

End SummarizerMoreFacts.

Section SummarizerMoreSamples.
Import Summarizer Samples.

Lemma split_text_keeps_sentences_witness :
  sent_tokenize offline_env lecture_text = Ok (period_tokenize lecture_text) ∧
  ∃ groups, _split_text offline_env lecture_text 20 = Ok (map (join " ") groups) ∧
    concat groups = period_tokenize lecture_text ∧
    Forall (fits 20) groups.
Proof.
  split; [reflexivity|].
  exact (split_text_keeps_sentences offline_env lecture_text 20 _ eq_refl).
Defined.

Lemma broken_env_at_hand : pipeline_at_hand broken_env init.
Proof. split; [reflexivity|]. right. by eexists. Qed.

Lemma pipeline_at_hand_labels_transformer_witness :
  50 ≤ len (strip long_sentence) ∧ "concise" ≠ "bullet_points" ∧
  pipeline_at_hand broken_env init ∧
  sent_tokenize broken_env long_sentence = Ok (period_tokenize long_sentence) ∧
  ∃ r, (summarize broken_env init long_sentence 150 50 "concise").1 = Ok r ∧
       method r = "transformer" ∧ model r = Some (model_name init) ∧
       original_length r = len long_sentence ∧ summary_length r = len (summary r) ∧
       is_Some (summarizer (summarize broken_env init long_sentence 150 50 "concise").2).
Proof.
  assert (50 ≤ len (strip long_sentence)) as Hlen by (vm_compute; lia).
  assert ("concise" ≠ "bullet_points") as Hstyle by discriminate.
  split; [exact Hlen|]. split; [exact Hstyle|]. split; [exact broken_env_at_hand|].
  split; [reflexivity|].
  exact (pipeline_at_hand_labels_transformer broken_env init long_sentence 150 50 "concise"
           _ Hlen Hstyle broken_env_at_hand eq_refl).
Defined.

End SummarizerMoreSamples.

(** ** More on the transcriber *)
Section TranscriberMoreFacts.
Import Transcriber Transcriber.

Lemma chunks_from (words : list word) : ∀ n j,
  concat (map (chunk_of words) (seq j n)) = take (15 * n) (drop (15 * j) words).
Proof.
  induction n as [|n IH]; intros j; [done|].
  cbn [seq map concat]. rewrite IH. unfold chunk_of.
  replace (15 * S j) with (15 * j + 15) by lia. rewrite <-drop_drop, take_take_drop.
  f_equal. lia.
Qed.

Lemma chunks_cover (words : list word) (n : nat) :
  length words ≤ 15 * n → concat (map (chunk_of words) (seq 0 n)) = words.
Proof. intros Hlen. rewrite chunks_from, Nat.mul_0_r, drop_0. by apply take_ge. Qed.

Lemma imap_seq_diag {B} (f : nat → nat → B) (n : nat) :
  imap f (seq 0 n) = map (λ k, f k k) (seq 0 n).
Proof.
  revert f. induction n as [|n IH]; intros f; [done|].
  cbn [seq]. rewrite imap_cons. cbn [map]. f_equal.
  rewrite <-fmap_S_seq, imap_fmap, IH.
  change (map ?g (S <$> ?l)) with (g <$> (S <$> l)). by rewrite <-list_fmap_compose.
Qed.

Lemma segments_of_words E (words : list word) :
  map (make_segment E 15 words) (range_step (length words) 15) =
  imap (λ k chunk,
          {| seg_id := k;
             seg_start := round2 E (seconds (default 0%Z (w_start <$> head chunk)));
             seg_end := round2 E (seconds (default 0%Z (w_end <$> last chunk)));
             seg_text := strip (join " " (map w_text chunk)) |})
       (map (chunk_of words) (seq 0 ((length words + 14) / 15))).
Proof.
  unfold range_step.
  replace (length words + 15 - 1) with (length words + 14) by lia.
  generalize ((length words + 14) / 15). intros n.
  rewrite map_map. change (imap ?f (map ?g ?l)) with (imap f (g <$> l)).
  rewrite imap_fmap, imap_seq_diag.
  apply map_ext. intros k. unfold make_segment, chunk_of, compose.
  rewrite Nat.div_mul by done. by rewrite (Nat.mul_comm k 15).
Qed.

Lemma chunks_sized (words : list word) :
  Forall (λ c, c ≠ [] ∧ length c ≤ 15)
         (map (chunk_of words) (seq 0 ((length words + 14) / 15))).
Proof.
  apply Forall_forall. intros c (k & -> & Hk%elem_of_seq)%list_elem_of_fmap.
  pose proof (Nat.div_mod_eq (length words + 14) 15) as Hdiv.
  pose proof (Nat.mod_upper_bound (length words + 14) 15 ltac:(done)) as Hmod.
  assert (length (chunk_of words k) = 15 `min` (length words - 15 * k)) as Hlen
    by (unfold chunk_of; by rewrite length_take, length_drop).
  assert (0 < length (chunk_of words k) ≤ 15) as [Hpos Hle] by lia. clear Hlen.
  split; [|done]. destruct (chunk_of words k); [simpl in Hpos; lia|done].
Qed.

(** X22: a transcription that succeeds puts every word of the transcript, in
    order, into segments of one to fifteen words, numbered from 0; the text of
    a segment is its words joined by blanks; the duration is the end of the
    last segment, or the duration reported for the audio when there is no
    word. *)
Theorem transcribe_segments (E : env) (audio_path : string) (language : option string)
    (t : transcription) :
  transcribe E audio_path language = Ok t →
  ∃ config transcript chunks,
    aai_transcribe E config audio_path = Ok transcript ∧
    concat chunks = default [] (t_words transcript) ∧
    Forall (λ c, c ≠ [] ∧ length c ≤ 15) chunks ∧
    map seg_id (segments t) = seq 0 (length chunks) ∧
    map seg_text (segments t) = map (λ c, strip (join " " (map w_text c))) chunks ∧
    duration t =
      match last (segments t) with
      | Some s => seg_end s
      | None => default (Qc_of_Z 0) (t_json_response transcript ≫= audio_duration)
      end ∧
    text t = default "" (t_text transcript).
Proof.
  unfold transcribe. destruct (negb (path_exists E audio_path)); [done|].
  destruct (negb (bool_decide _)); [done|].
  match goal with
  | |- context [aai_transcribe E ?c audio_path] =>
      set (config := c); destruct (aai_transcribe E config audio_path)
        as [transcript|e] eqn:Hcall; [|done]
  end.
  remember (default [] (t_words transcript)) as words eqn:Hw.
  intros Ht.
  assert (t = {| text := default "" (t_text transcript);
                 segments := map (make_segment E 15 words) (range_step (length words) 15);
                 language := default "unknown" (t_json_response transcript ≫= language_code);
                 duration :=
                   match last (map (make_segment E 15 words)
                                   (range_step (length words) 15)) with
                   | Some s => seg_end s
                   | None => default (Qc_of_Z 0)
                               (t_json_response transcript ≫= audio_duration)
                   end;
                 processing_time := round2 E (elapsed_time E);
                 model_size := "assemblyai";
                 timestamp := now E |}) as ->
    by (destruct (t_status transcript); [by injection Ht..|done]).
  clear Ht. cbn [text segments duration].
  exists config, transcript, (map (chunk_of words) (seq 0 ((length words + 14) / 15))).
  rewrite <-Hw. split; [done|]. split.
  { apply chunks_cover.
    pose proof (Nat.div_mod_eq (length words + 14) 15).
    pose proof (Nat.mod_upper_bound (length words + 14) 15 ltac:(done)). lia. }
  split; [apply chunks_sized|].
  rewrite segments_of_words.
  generalize (map (chunk_of words) (seq 0 ((length words + 14) / 15))). intros chunks.
  split; [|split; [|done]].
  - change (map seg_id ?l) with (seg_id <$> l). rewrite fmap_imap.
    unfold compose. cbn [seg_id]. rewrite imap_seq_0. by rewrite list_fmap_id.
  - change (map seg_text ?l) with (seg_text <$> l). rewrite fmap_imap.
    unfold compose. cbn [seg_text].
    apply (imap_const (λ c, strip (join " " (map w_text c)))).
Qed.

Lemma lower_char_idemp c : lower_char (lower_char c) = lower_char c.
Proof. by destruct c as [[] [] [] [] [] [] [] []]. Qed.

Lemma lower_idemp s : lower (lower s) = lower s.
Proof.
  unfold lower. rewrite chars_str, map_map. f_equal.
  apply map_ext. intros c. apply lower_char_idemp.
Qed.

Lemma search_loop_filter query segs : ∀ matches,
  search_loop (lower query) segs matches = matches ++ filter (mentions query) segs.
Proof.
  induction segs as [|s segs IH]; intros matches; simpl.
  - by rewrite app_nil_r.
  - rewrite filter_cons. unfold mentions at 2.
    destruct (decide _) as [Hs|Hs].
    + rewrite Hs, IH, <-app_assoc. done.
    + apply not_true_is_false in Hs. by rewrite Hs, IH.
Qed.

(** X23: [search_transcript] returns, in their order, the segments whose text
    contains the query, letter case apart on both sides: the case of the query
    makes no difference, and the empty query returns every segment. *)
Theorem search_transcript_ignores_case (t : transcription) (query : string) :
  search_transcript t query = filter (mentions query) (segments t) ∧
  search_transcript t (lower query) = search_transcript t query ∧
  search_transcript t "" = segments t.
Proof.
  unfold search_transcript. split; [apply search_loop_filter|].
  split; [by rewrite lower_idemp|].
  rewrite (search_loop_filter "" (segments t) []). simpl.
  induction (segments t) as [|s segs IH]; [done|].
  rewrite filter_cons, IH. destruct (decide (mentions "" s)) as [_|Hs]; [done|].
  destruct Hs. unfold mentions, contains. by destruct (chars (lower (seg_text s))).
Qed.

End TranscriberMoreFacts.

Section TranscriberMoreSamples.
Import Transcriber Samples.

Lemma transcribe_segments_witness :
  ∃ t, transcribe studio "lecture.mp3" (Some "en") = Ok t ∧
  ∃ config transcript chunks,
    aai_transcribe studio config "lecture.mp3" = Ok transcript ∧
    concat chunks = default [] (t_words transcript) ∧
    Forall (λ c, c ≠ [] ∧ length c ≤ 15) chunks ∧
    map seg_id (segments t) = seq 0 (length chunks) ∧
    map seg_text (segments t) = map (λ c, strip (join " " (map w_text c))) chunks ∧
    duration t =
      match last (segments t) with
      | Some s => seg_end s
      | None => default (Qc_of_Z 0) (t_json_response transcript ≫= audio_duration)
      end ∧
    text t = default "" (t_text transcript).
Proof.
  assert (∃ t, transcribe studio "lecture.mp3" (Some "en") = Ok t) as [t Ht]
    by (vm_compute; eauto).
  exists t. split; [exact Ht|].
  exact (transcribe_segments studio "lecture.mp3" (Some "en") t Ht).
Defined.

End TranscriberMoreSamples.

(** ** More on the file handler *)
Section FileHandlerMoreFacts.
Import FileHandler FileHandler.

Lemma append_inj_r a b c : a +:+ c = b +:+ c → a = b.
Proof.
  intros H. apply chars_inj. apply (f_equal chars) in H.
  rewrite !chars_app in H. by apply app_inv_tail in H.
Qed.

Lemma transcript_file_inj i j : transcript_file i = transcript_file j → i = j.
Proof.
  unfold transcript_file. intros H.
  apply String.app_inj in H. apply String.app_inj in H.
  apply String.app_inj in H. apply append_inj_r in H.
  by apply pretty_Z_inj in H.
Qed.

Lemma load_transcript_value j d :
  (load_transcript j d).1 =
  Ok (match files d !! transcript_file j with
      | Some content =>
          if bool_decide (transcript_file j ∈ locked d) then None
          else Some (universal_newlines content)
      | None => None
      end).
Proof.
  unfold load_transcript, load_transcript_body, try_catch, bind, file_exists, read_text, ret, show_error.
  destruct (files d !! transcript_file j) as [c|] eqn:Hc.
  - rewrite bool_decide_eq_true_2 by eauto. cbn [fst snd].
    destruct (bool_decide (transcript_file j ∈ locked d)); [done|].
    by rewrite Hc.
  - rewrite bool_decide_eq_false_2 by (by intros [? ?]). done.
Qed.

(** Text without carriage returns reads as it is. *)
Lemma newlines_from_id cs :
  Forall (λ c, code c ≠ 13) cs → newlines_from false cs = cs.
Proof.
  induction 1 as [|c cs Hc _ IH]; [done|].
  cbn [newlines_from]. apply Nat.eqb_neq in Hc. rewrite Hc.
  rewrite andb_false_r. by rewrite IH.
Qed.

Lemma universal_newlines_id text :
  Forall (λ c, code c ≠ 13) (chars text) → universal_newlines text = text.
Proof.
  intros H. unfold universal_newlines. by rewrite (newlines_from_id _ H), str_chars.
Qed.

(** X24: what [save_transcript] writes for a lecture, [load_transcript] reads
    back with universal newlines: every CR LF and every lone CR of the text
    comes back as a line feed, and a text without carriage returns comes
    back as it is.  The transcripts of the other lectures read as before. *)
Theorem transcript_round_trip (lecture_id : Z) (transcript_text : string) (d : disk) :
  transcript_file lecture_id ∉ locked d →
  ∃ d', save_transcript lecture_id transcript_text d =
          (Ok (true, Some (transcript_file lecture_id)), d') ∧
        load_transcript lecture_id d' =
          (Ok (Some (universal_newlines transcript_text)), d') ∧
        (Forall (λ c, code c ≠ 13) (chars transcript_text) →
         load_transcript lecture_id d' = (Ok (Some transcript_text), d')) ∧
        screen d' = screen d ∧
        ∀ j, j ≠ lecture_id → (load_transcript j d').1 = (load_transcript j d).1.
Proof.
  intros Hfree.
  exists (mk_disk (<[transcript_file lecture_id := transcript_text]> (files d))
                  (locked d) (screen d)).
  assert (load_transcript lecture_id
            (mk_disk (<[transcript_file lecture_id := transcript_text]> (files d))
                     (locked d) (screen d)) =
          (Ok (Some (universal_newlines transcript_text)),
           mk_disk (<[transcript_file lecture_id := transcript_text]> (files d))
                   (locked d) (screen d))) as Hload.
  { unfold load_transcript, load_transcript_body, try_catch, bind, file_exists, read_text, ret.
    cbn [files locked]. rewrite lookup_insert_eq.
    rewrite bool_decide_eq_true_2 by eauto.
    rewrite bool_decide_eq_false_2 by exact Hfree.
    cbn [files locked]. rewrite lookup_insert_eq. reflexivity. }
  split; [|split; [exact Hload|split; [|split; [done|]]]].
  - unfold save_transcript, save_transcript_body, try_catch, bind, write_text, ret.
    rewrite bool_decide_eq_false_2 by exact Hfree. reflexivity.
  - intros Hcr. by rewrite Hload, (universal_newlines_id _ Hcr).
  - intros j Hj. rewrite !load_transcript_value. cbn [files locked].
    rewrite lookup_insert_ne; [done|]. intros H. by apply transcript_file_inj in H.
Qed.

Lemma remove_if_there p d :
  p ∉ locked d →
  (let* there := file_exists p in if there then unlink p else ret tt) d =
  (Ok tt, mk_disk (delete p (files d)) (locked d) (screen d)).
Proof.
  intros Hfree. unfold bind, file_exists, unlink, ret.
  destruct (files d !! p) as [c|] eqn:Hp.
  - rewrite bool_decide_eq_true_2 by eauto.
    rewrite bool_decide_eq_false_2 by exact Hfree. by rewrite Hp.
  - rewrite bool_decide_eq_false_2 by (by intros [? ?]).
    rewrite delete_id by done. by destruct d.
Qed.

Lemma remove_then {B} p d (k : unit → M disk B) :
  p ∉ locked d →
  bind (file_exists p) (λ there, bind (if there then unlink p else ret tt) k) d =
  k tt (mk_disk (delete p (files d)) (locked d) (screen d)).
Proof.
  intros Hfree. unfold bind, file_exists, unlink, ret.
  destruct (files d !! p) as [c|] eqn:Hp.
  - rewrite bool_decide_eq_true_2 by eauto.
    rewrite bool_decide_eq_false_2 by exact Hfree. by rewrite Hp.
  - rewrite bool_decide_eq_false_2 by (by intros [? ?]).
    rewrite delete_id by done. by destruct d.
Qed.

Ltac by_membership :=
  rewrite ?elem_of_app, ?elem_of_cons, ?elem_of_nil; intuition congruence.

(** X25: with none of its targets locked, [delete_lecture_files] removes the
    audio file, the transcript and the summary of the lecture, whichever of
    them exist, touches no other file, shows nothing and returns [True]. *)
Theorem delete_lecture_files_removes (lecture_id : Z) (audio_path : option string)
    (d : disk) :
  Forall (λ p, p ∉ locked d) (targets lecture_id audio_path) →
  ∃ d', delete_lecture_files lecture_id audio_path d = (Ok true, d') ∧
        (∀ p, files d' !! p =
              if bool_decide (p ∈ targets lecture_id audio_path) then None
              else files d !! p) ∧
        screen d' = screen d ∧
        load_transcript lecture_id d' = (Ok None, d').
Proof.
  intros Hfree. unfold targets in Hfree.
  apply Forall_app in Hfree as [Ha Hts].
  apply Forall_cons in Hts as [Ht Hs%Forall_cons_1]. destruct Hs as [Hs _].
  set (audio := match audio_path with
                | Some p => if negb (String.eqb p "") then [p] else []
                | None => []
                end) in *.
  set (d1 := mk_disk (foldr delete (files d) audio) (locked d) (screen d)).
  assert ((match audio_path with
           | Some p =>
               if negb (String.eqb p "") then
                 let* there := file_exists p in
                 if there then unlink p else ret tt
               else ret tt
           | None => ret tt
           end) d = (Ok tt, d1)) as Haudio.
  { unfold d1, audio in *. destruct audio_path as [p|]; [|by destruct d].
    destruct (negb (String.eqb p "")); [|by destruct d].
    apply Forall_cons in Ha as [Hp _]. by rewrite remove_if_there. }
  set (d2 := mk_disk (delete (transcript_file lecture_id) (files d1)) (locked d) (screen d)).
  set (d3 := mk_disk (delete (summary_file lecture_id) (files d2)) (locked d) (screen d)).
  exists d3. split; [|split; [|split; [done|]]].
  - unfold delete_lecture_files, delete_lecture_files_body, try_catch. unfold bind at 1. rewrite Haudio.
    rewrite (remove_then _ d1) by exact Ht.
    rewrite (remove_then _ d2) by exact Hs. done.
  - intros p. unfold d3, d2, d1, targets. fold audio. cbn [files].
    destruct (decide (p = summary_file lecture_id)) as [->|Hp1].
    { rewrite lookup_delete_eq, bool_decide_eq_true_2; [done|]. by_membership. }
    rewrite lookup_delete_ne by done.
    destruct (decide (p = transcript_file lecture_id)) as [->|Hp2].
    { rewrite lookup_delete_eq, bool_decide_eq_true_2; [done|]. by_membership. }
    rewrite lookup_delete_ne by done.
    unfold audio. destruct audio_path as [a|]; simpl.
    + destruct (negb (String.eqb a "")); simpl.
      * destruct (decide (p = a)) as [->|Hp3].
        { rewrite lookup_delete_eq, bool_decide_eq_true_2; [done|]. by_membership. }
        rewrite lookup_delete_ne by done.
        rewrite bool_decide_eq_false_2; [done|]. by_membership.
      * rewrite bool_decide_eq_false_2; [done|]. by_membership.
    + rewrite bool_decide_eq_false_2; [done|]. by_membership.
  - unfold load_transcript, load_transcript_body, try_catch, bind, file_exists, ret.
    unfold d3 at 1, d2 at 1. cbn [files].
    rewrite bool_decide_eq_false_2; [done|].
    intros [c Hc]. rewrite lookup_delete_Some in Hc. destruct Hc as [_ Hc].
    by rewrite lookup_delete_eq in Hc.
Qed.

(** X26: when the transcript of the lecture exists and cannot be removed,
    [delete_lecture_files] has already removed the audio file: it shows the
    error and returns [False], the audio is gone, and the transcript and the
    summary are still there. *)
Theorem delete_lecture_files_stops_midway (lecture_id : Z) (audio_path : string)
    (d : disk) :
  audio_path ≠ "" → audio_path ∉ locked d → is_Some (files d !! audio_path) →
  audio_path ≠ transcript_file lecture_id → audio_path ≠ summary_file lecture_id →
  transcript_file lecture_id ∈ locked d →
  is_Some (files d !! transcript_file lecture_id) →
  ∃ d', delete_lecture_files lecture_id (Some audio_path) d = (Ok false, d') ∧
        files d' !! audio_path = None ∧
        files d' !! transcript_file lecture_id = files d !! transcript_file lecture_id ∧
        files d' !! summary_file lecture_id = files d !! summary_file lecture_id ∧
        screen d' = screen d ++ [St.error ("Error deleting files: " +:+
                                   exn_msg (denied (transcript_file lecture_id)))].
Proof.
  intros Hne Hfree Hthere Hat Has Hlocked Htr.
  eexists. split.
  - unfold delete_lecture_files, delete_lecture_files_body, try_catch. unfold bind at 1.
    apply String.eqb_neq in Hne. rewrite Hne. cbn [negb].
    rewrite remove_if_there by exact Hfree.
    unfold bind at 1. unfold file_exists at 1. cbn [files].
    rewrite bool_decide_eq_true_2
      by (by rewrite lookup_delete_ne by done).
    unfold bind at 1. unfold unlink at 1. cbn [locked].
    rewrite bool_decide_eq_true_2 by exact Hlocked.
    unfold bind, show_error, ret. reflexivity.
  - cbn [files screen]. rewrite lookup_delete_eq, !lookup_delete_ne by done. done.
Qed.

Lemma replace_scan_single (a b : char) (cs : list char) :
  replace_scan [a] [b] 0 cs = map (λ c, if bool_decide (a = c) then b else c) cs.
Proof.
  induction cs as [|c cs IH]; [done|].
  cbn [replace_scan starts_with map length]. rewrite andb_true_r, Nat.sub_diag.
  destruct (bool_decide (a = c)); simpl; by rewrite IH.
Qed.

Lemma chars_safe_name title :
  chars (safe_name title) =
  take 100 (map (λ c, if bool_decide (Ascii.ascii_of_nat 32 = keep c)
                      then Ascii.ascii_of_nat 95 else keep c) (chars title)).
Proof.
  unfold safe_name, prefix, replace.
  change (chars " ") with [Ascii.ascii_of_nat 32].
  change (chars "_") with [Ascii.ascii_of_nat 95].
  cbv iota. rewrite !chars_str.
  by rewrite replace_scan_single, map_map.
Qed.

Lemma keep_plain c :
  plain (if bool_decide (Ascii.ascii_of_nat 32 = keep c)
         then Ascii.ascii_of_nat 95 else keep c).
Proof.
  assert (plain (Ascii.ascii_of_nat 95)) as Hunderscore.
  { right. apply list_elem_of_In. vm_compute. tauto. }
  destruct (bool_decide _) eqn:Hsp; [done|].
  apply bool_decide_eq_false in Hsp. unfold keep in *.
  destruct (isalnum_char c) eqn:Hal; cbn [orb] in *; [by left|].
  destruct (bool_decide (c ∈ chars " -_")) eqn:Hin; [|done].
  apply bool_decide_eq_true in Hin. right.
  change (chars " -_") with (Ascii.ascii_of_nat 32 :: chars "-_") in Hin.
  apply elem_of_cons in Hin as [->|Hin]; [done|exact Hin].
Qed.

(** No character of a safe name separates path components, starts an
    extension or is a blank. *)
Lemma plain_no_separator c : plain c → c ∉ chars "/\. ".
Proof.
  intros [Hc|Hc] Hin; apply list_elem_of_In in Hin; apply list_elem_of_In in Hc || idtac;
    cbn in Hin, Hc; repeat (destruct Hin as [<-|Hin]; [by (discriminate Hc || by intuition discriminate)|]);
    done.
Qed.

(** X27: the file name that [get_transcript_path] and [get_summary_path] build
    from a title keeps at most 100 characters of it, one for one, and consists
    only of characters that [str.isalnum] accepts (letters and digits, among
    them accented letters and superscript digits), hyphens and underscores:
    no slash, backslash, dot or blank.  Whatever the title, the path names a
    file directly inside the transcripts (or summaries) directory. *)
Theorem paths_from_titles_are_plain (title : string) :
  ∃ name, get_transcript_path title = "data/transcripts/" +:+ name +:+ "_transcript.json" ∧
          get_summary_path title = "data/summaries/" +:+ name +:+ "_summary.md" ∧
          len name = 100 `min` len title ∧
          Forall plain (chars name) ∧
          Forall (λ c, c ∉ chars "/\. ") (chars name).
Proof.
  exists (safe_name title). split; [done|]. split; [done|].
  rewrite len_chars, chars_safe_name, length_take, length_map, <-len_chars.
  split; [done|].
  assert (Forall plain (take 100 (map (λ c, if bool_decide (Ascii.ascii_of_nat 32 = keep c)
                                          then Ascii.ascii_of_nat 95 else keep c)
                                 (chars title)))) as Hplain.
  { apply Forall_take, Forall_forall.
    intros c (c' & -> & _)%list_elem_of_fmap. apply keep_plain. }
  split; [done|]. eapply Forall_impl; [exact Hplain|]. apply plain_no_separator.
Qed.

(** A title with an accent, a slash and a dot. *)
Example safe_name_of_accented_title :
  safe_name ("Caf" +:+ chr 233 +:+ " 1/2.pdf") = "Caf" +:+ chr 233 +:+ "_1_2_pdf".
Proof. vm_compute. reflexivity. Qed.

End FileHandlerMoreFacts.

Section FileHandlerMoreSamples.
Import FileHandler Samples.

Lemma transcript_round_trip_witness :
  let dictated := "Cells divide." +:+ CR +:+ NL +:+ "Plants grow." +:+ CR in
  (transcript_file 1 ∉ locked shelf) ∧
  Forall (λ c, code c ≠ 13) (chars "Cells divide by mitosis.") ∧
  (∃ d', save_transcript 1 dictated shelf = (Ok (true, Some (transcript_file 1)), d') ∧
         load_transcript 1 d' =
           (Ok (Some ("Cells divide." +:+ NL +:+ "Plants grow." +:+ NL)), d')) ∧
  ∃ d', save_transcript 1 "Cells divide by mitosis." shelf =
          (Ok (true, Some (transcript_file 1)), d') ∧
        load_transcript 1 d' = (Ok (Some "Cells divide by mitosis."), d') ∧
        screen d' = screen shelf ∧
        ∀ j, j ≠ 1%Z → (load_transcript j d').1 = (load_transcript j shelf).1.
Proof.
  cbv zeta.
  assert (transcript_file 1 ∉ locked shelf) as Hfree by (simpl; apply not_elem_of_empty).
  assert (Forall (λ c, code c ≠ 13) (chars "Cells divide by mitosis.")) as Hcr
    by (repeat constructor; discriminate).
  split; [exact Hfree|]. split; [exact Hcr|]. split.
  - destruct (transcript_round_trip 1
                ("Cells divide." +:+ CR +:+ NL +:+ "Plants grow." +:+ CR) shelf Hfree)
      as (d' & Hsave & Hload & _).
    exists d'. split; [exact Hsave|]. exact Hload.
  - destruct (transcript_round_trip 1 "Cells divide by mitosis." shelf Hfree)
      as (d' & Hsave & _ & Hload & Hscreen & Hothers).
    exists d'. split; [exact Hsave|]. split; [exact (Hload Hcr)|]. by split.
Defined.

Lemma delete_lecture_files_removes_witness :
  let audio := Some "data/uploads/20240101_100000_cells.mp3" in
  Forall (λ p, p ∉ locked shelf) (targets 1 audio) ∧
  ∃ d', delete_lecture_files 1 audio shelf = (Ok true, d') ∧
        (∀ p, files d' !! p =
              if bool_decide (p ∈ targets 1 audio) then None else files shelf !! p) ∧
        screen d' = screen shelf ∧
        load_transcript 1 d' = (Ok None, d').
Proof.
  assert (Forall (λ p, p ∉ locked shelf)
                 (targets 1 (Some "data/uploads/20240101_100000_cells.mp3"))) as Hfree
    by (apply Forall_forall; intros p _; simpl; apply not_elem_of_empty).
  split; [exact Hfree|].
  exact (delete_lecture_files_removes 1 _ shelf Hfree).
Defined.

Lemma delete_lecture_files_stops_midway_witness :
  let audio := "data/uploads/20240101_100000_cells.mp3" in
  audio ≠ "" ∧ (audio ∉ locked stuck_shelf) ∧ is_Some (files stuck_shelf !! audio) ∧
  audio ≠ transcript_file 1 ∧ audio ≠ summary_file 1 ∧
  transcript_file 1 ∈ locked stuck_shelf ∧
  is_Some (files stuck_shelf !! transcript_file 1) ∧
  ∃ d', delete_lecture_files 1 (Some audio) stuck_shelf = (Ok false, d') ∧
        files d' !! audio = None ∧
        files d' !! transcript_file 1 = files stuck_shelf !! transcript_file 1 ∧
        files d' !! summary_file 1 = files stuck_shelf !! summary_file 1 ∧
        screen d' = screen stuck_shelf ++
                    [St.error ("Error deleting files: " +:+
                               exn_msg (denied (transcript_file 1)))].
Proof.
  set (audio := "data/uploads/20240101_100000_cells.mp3").
  assert (audio ≠ "") as H1 by discriminate.
  assert (audio ∉ locked stuck_shelf) as H2
    by (simpl; intros H%elem_of_singleton; discriminate H).
  assert (is_Some (files stuck_shelf !! audio)) as H3 by (vm_compute; eauto).
  assert (audio ≠ transcript_file 1) as H4 by (vm_compute; discriminate).
  assert (audio ≠ summary_file 1) as H5 by (vm_compute; discriminate).
  assert (transcript_file 1 ∈ locked stuck_shelf) as H6
    by (simpl; apply elem_of_singleton; vm_compute; reflexivity).
  assert (is_Some (files stuck_shelf !! transcript_file 1)) as H7 by (vm_compute; eauto).
  split; [exact H1|]. split; [exact H2|]. split; [exact H3|]. split; [exact H4|].
  split; [exact H5|]. split; [exact H6|]. split; [exact H7|].
  exact (delete_lecture_files_stops_midway 1 audio stuck_shelf H1 H2 H3 H4 H5 H6 H7).
Defined.

End FileHandlerMoreSamples.

(** ** The helpers *)
Section HelpersFacts.
Import Helpers.

(** X28: [truncate_text] keeps the first [max_length] characters of the text
    and returns at most three characters more; the result is longer than the
    text itself exactly when the text exceeds [max_length] by one or two
    characters. *)
Theorem truncate_text_length (text : string) (max_length : nat) :
  len (truncate_text text max_length) ≤ max_length + 3 ∧
  prefix max_length (truncate_text text max_length) = prefix max_length text ∧
  (len text < len (truncate_text text max_length) ↔
   max_length < len text < max_length + 3).
Proof.
  unfold truncate_text. destruct (len text <=? max_length) eqn:Hle.
  - apply Nat.leb_le in Hle. split; [lia|]. split; [done|]. lia.
  - apply Nat.leb_gt in Hle.
    assert (len (prefix max_length text +:+ "...") = max_length + 3) as Hlen.
    { rewrite len_app, len_prefix. change (len "...") with 3. lia. }
    rewrite Hlen. split; [lia|]. split; [|lia].
    unfold prefix. f_equal. rewrite chars_app, chars_str.
    rewrite take_app_le by (rewrite length_take, <-len_chars; lia).
    rewrite take_take. f_equal. lia.
Qed.

Lemma round_div_bounds (w : nat) :
  200 * round_div w 200 ≤ w + 100 ∧ w ≤ 200 * round_div w 200 + 100.
Proof.
  unfold round_div.
  pose proof (Nat.div_mod_eq w 200) as Hdiv.
  pose proof (Nat.mod_upper_bound w 200 ltac:(done)) as Hmod.
  set (q := w / 200) in *. set (r := w mod 200) in *.
  destruct (2 * r <? 200) eqn:H1; [apply Nat.ltb_lt in H1; lia|].
  apply Nat.ltb_ge in H1.
  destruct (200 <? 2 * r) eqn:H2; [apply Nat.ltb_lt in H2; lia|].
  apply Nat.ltb_ge in H2. destruct (Nat.even q); lia.
Qed.

(** X29: the reading time is at least one minute and within half a minute of
    one minute per 200 words (a full minute for the shortest texts); a text
    with more words never gets a shorter reading time. *)
Theorem reading_time_bounds (text longer : string) :
  length (split text) ≤ length (split longer) →
  1 ≤ calculate_reading_time text ∧
  200 * calculate_reading_time text ≤ length (split text) + 200 ∧
  length (split text) ≤ 200 * calculate_reading_time text + 100 ∧
  calculate_reading_time text ≤ calculate_reading_time longer.
Proof.
  intros Hle. unfold calculate_reading_time.
  destruct (round_div_bounds (length (split text))) as [H1 H2].
  destruct (round_div_bounds (length (split longer))) as [H3 H4].
  destruct (decide (length (split text) = length (split longer))) as [Heq|Hne].
  - rewrite <-Heq. lia.
  - lia.
Qed.

End HelpersFacts.

Section HelpersSamples.
Import Helpers Samples.

Lemma reading_time_bounds_witness :
  length (split long_sentence) ≤ length (split lecture_text) ∧
  1 ≤ calculate_reading_time long_sentence ∧
  200 * calculate_reading_time long_sentence ≤ length (split long_sentence) + 200 ∧
  length (split long_sentence) ≤ 200 * calculate_reading_time long_sentence + 100 ∧
  calculate_reading_time long_sentence ≤ calculate_reading_time lecture_text.
Proof.
  assert (length (split long_sentence) ≤ length (split lecture_text)) as Hle
    by (vm_compute; lia).
  split; [exact Hle|]. exact (reading_time_bounds long_sentence lecture_text Hle).
Defined.

End HelpersSamples.
